(** * fetch_mlb_injuries_transactions: classifier, flattener, daily series

    A shallow embedding of [scripts/fetch_mlb_injuries_transactions.py]:
    the injury classifier ([classify_injury]) with the five regular
    expressions it searches, the record flattener ([flatten_transaction]),
    the daily aggregator ([build_daily_series]) and the orchestration of
    [main].

    Python values are modelled as they reach the script from [json.load]:
    a [str] is a sequence of Unicode code points, numbers are [int] or
    [float], containers are lists and string-keyed dicts.  A statement that
    can raise returns a [result]. *)

From Stdlib Require Import ZArith NArith List String Ascii Lia Bool.
From Stdlib Require Import Sorting.Permutation Sorting.Sorted.
From Stdlib Require Import Floats.PrimFloat Floats.SpecFloat Floats.FloatOps DecimalString.
From stdpp Require Import gmap list.

Set Warnings "-register-all".
Local Open Scope Z_scope.

(** ** Strings *)

(** A Python [str]: its code points, in order. *)
Abbreviation pystr := (list N).

(** A string literal of the script (every literal of the script is ASCII). *)
Definition str (s : string) : pystr :=
  List.map N_of_ascii (list_ascii_of_string s).

(** [needle in hay] for two strings. *)
Fixpoint startswith (hay needle : pystr) : bool :=
  match needle, hay with
  | [], _ => true
  | _ :: _, [] => false
  | p :: needle', c :: hay' => N.eqb p c && startswith hay' needle'
  end.

Fixpoint contains (needle hay : pystr) : bool :=
  startswith hay needle ||
  match hay with
  | [] => false
  | _ :: hay' => contains needle hay'
  end.

(** [a < b] on strings: code point by code point, a proper prefix first. *)
Fixpoint str_ltb (a b : pystr) : bool :=
  match a, b with
  | _, [] => false
  | [], _ :: _ => true
  | x :: a', y :: b' => N.ltb x y || (N.eqb x y && str_ltb a' b')
  end.

(** ** Exceptions and results *)

Inductive exn : Type :=
| TypeError
| ValueError
| AttributeError
| OverflowError
| RuntimeError
| SystemExit
| OSError
| UnicodeEncodeError
| FuelExhausted.

Inductive result (A : Type) : Type :=
| Ok (a : A)
| Raise (e : exn).
Arguments Ok {A} a.
Arguments Raise {A} e.

Definition bind {A B : Type} (m : result A) (k : A -> result B) : result B :=
  match m with
  | Ok a => k a
  | Raise e => Raise e
  end.

Notation "x <- m ;; k" := (bind m (fun x => k))
  (at level 63, m at next level, right associativity).

Fixpoint mapM {A B : Type} (f : A -> result B) (l : list A) : result (list B) :=
  match l with
  | [] => Ok []
  | a :: l' => b <- f a ;; bs <- mapM f l' ;; Ok (b :: bs)
  end.

Fixpoint foldM {A S : Type} (f : S -> A -> result S) (l : list A) (s : S) : result S :=
  match l with
  | [] => Ok s
  | a :: l' => s' <- f s a ;; foldM f l' s'
  end.

(** ** Values *)

(** What [json.load] builds.  A dict holds its items in insertion order;
    its keys are strings. *)
Inductive pyval : Type :=
| PNone
| PBool (b : bool)
| PInt (z : Z)
| PFloat (f : float)
| PStr (s : pystr)
| PList (l : list pyval)
| PDict (items : list (pystr * pyval)).

(** [bool(v)]. *)
Definition truthy (v : pyval) : bool :=
  match v with
  | PNone => false
  | PBool b => b
  | PInt z => negb (z =? 0)
  | PFloat f => negb (PrimFloat.eqb f PrimFloat.zero)
  | PStr s => match s with [] => false | _ => true end
  | PList l => match l with [] => false | _ => true end
  | PDict items => match items with [] => false | _ => true end
  end.

(** [a or b]. *)
Definition py_or (a b : pyval) : pyval := if truthy a then a else b.

Fixpoint items_get (items : list (pystr * pyval)) (key : pystr) : option pyval :=
  match items with
  | [] => None
  | (k, v) :: items' => if decide (k = key) then Some v else items_get items' key
  end.

(** [obj.get(key, default)]; only a dict has the method. *)
Definition py_get_default (obj : pyval) (key : pystr) (default : pyval) : result pyval :=
  match obj with
  | PDict items =>
      match items_get items key with
      | Some v => Ok v
      | None => Ok default
      end
  | _ => Raise AttributeError
  end.

(** ** The Unicode character database

    [str.lower], [str.strip], [int] and the [re] module read the interpreter's
    Unicode tables.  What they say about ASCII, about white space and about
    the four letters outside ASCII that [re.IGNORECASE] pairs with an ASCII
    letter is written out below; the rest of the tables is an interface. *)

Class UnicodeDB : Type := {
  (** [c.isalnum()] for a code point outside ASCII *)
  uni_isalnum : N -> bool;
  (** the decimal digit value of a code point outside ASCII, if it has one *)
  uni_decimal : N -> option Z;
  (** [text.lower()] at position [i], where the code point [c] stands
      (the lower case of U+03A3 depends on its neighbours) *)
  uni_lower : pystr -> nat -> N -> pystr
}.

(** LATIN CAPITAL LETTER I WITH DOT ABOVE, LATIN SMALL LETTER DOTLESS I,
    LATIN SMALL LETTER LONG S, KELVIN SIGN. *)
Definition U_I_DOT : N := 304%N.
Definition U_DOTLESS_I : N := 305%N.
Definition U_LONG_S : N := 383%N.
Definition U_KELVIN : N := 8490%N.
Definition U_COMBINING_DOT : N := 775%N.

Definition is_ascii_upper (c : N) : bool := (65 <=? c)%N && (c <=? 90)%N.
Definition is_ascii_lower (c : N) : bool := (97 <=? c)%N && (c <=? 122)%N.
Definition is_ascii_digit (c : N) : bool := (48 <=? c)%N && (c <=? 57)%N.

(** [c.isspace()], the characters [str.strip()] removes. *)
Definition isspace (c : N) : bool :=
  ((9 <=? c)%N && (c <=? 13)%N) || ((28 <=? c)%N && (c <=? 32)%N) ||
  (c =? 133)%N || (c =? 160)%N || (c =? 5760)%N ||
  ((8192 <=? c)%N && (c <=? 8202)%N) || (c =? 8232)%N || (c =? 8233)%N ||
  (c =? 8239)%N || (c =? 8287)%N || (c =? 12288)%N.

Fixpoint lstrip (s : pystr) : pystr :=
  match s with
  | c :: s' => if isspace c then lstrip s' else s
  | [] => []
  end.

Definition strip (s : pystr) : pystr := rev (lstrip (rev (lstrip s))).

Section Unicode.
Context {U : UnicodeDB}.

(** [\w] of a [str] pattern: alphanumeric or the underscore. *)
Definition is_word (c : N) : bool :=
  if (c <? 128)%N then
    is_ascii_upper c || is_ascii_lower c || is_ascii_digit c || (c =? 95)%N
  else if (c =? U_I_DOT)%N || (c =? U_DOTLESS_I)%N || (c =? U_LONG_S)%N || (c =? U_KELVIN)%N
  then true
  else uni_isalnum c.

(** The lower case of the character [c] found at index [i] of [text]. *)
Definition lower_char (text : pystr) (i : nat) (c : N) : pystr :=
  if is_ascii_upper c then [(c + 32)%N]
  else if (c <? 128)%N then [c]
  else if (c =? U_I_DOT)%N then [105%N; U_COMBINING_DOT]
  else if (c =? U_KELVIN)%N then [107%N]
  else if (c =? U_DOTLESS_I)%N || (c =? U_LONG_S)%N then [c]
  else uni_lower text i c.

Fixpoint lower_from (text : pystr) (i : nat) (s : pystr) : pystr :=
  match s with
  | [] => []
  | c :: s' => lower_char text i c ++ lower_from text (S i) s'
  end.

(** [text.lower()]. *)
Definition lower (text : pystr) : pystr := lower_from text 0 text.

End Unicode.

(** ** Regular expressions

    The five patterns use literals, [\b], [.*?], alternation and groups, and
    are compiled with [re.IGNORECASE]. *)

Inductive regex : Type :=
| REmpty
| RLit (p : N)                (* a literal character *)
| RWordB                      (* \b *)
| RAnyLazy                    (* .*? *)
| RSeq (r1 r2 : regex)
| RAlt (r1 r2 : regex)
| RGroup (n : nat) (r : regex). (* a capturing group *)

Fixpoint rlit (s : pystr) : regex :=
  match s with
  | [] => REmpty
  | c :: s' => RSeq (RLit c) (rlit s')
  end.

Fixpoint rseq (rs : list regex) : regex :=
  match rs with
  | [] => REmpty
  | r :: rs' => RSeq r (rseq rs')
  end.

(** The characters a literal of the pattern matches under [re.IGNORECASE]:
    itself, its other case, and for [i], [s] and [k] the letters outside
    ASCII that share their upper or lower case. *)
Definition lit_matches (p c : N) : bool :=
  let lo := if is_ascii_upper p then (p + 32)%N else p in
  if is_ascii_lower lo then
    (c =? lo)%N || (c =? lo - 32)%N ||
    ((lo =? 105)%N && ((c =? U_I_DOT)%N || (c =? U_DOTLESS_I)%N)) ||
    ((lo =? 115)%N && (c =? U_LONG_S)%N) ||
    ((lo =? 107)%N && (c =? U_KELVIN)%N)
  else (c =? p)%N.

(** Where the matcher stands: the character before, the text ahead, the
    index, and the groups captured so far. *)
Record mstate : Type := MState {
  ms_prev : option N;
  ms_rest : pystr;
  ms_pos : nat;
  ms_groups : list (nat * pystr)
}.

Definition advance (st : mstate) (c : N) (rest : pystr) : mstate :=
  MState (Some c) rest (S (ms_pos st)) (ms_groups st).

Definition set_group (n : nat) (st0 st : mstate) : mstate :=
  MState (ms_prev st) (ms_rest st) (ms_pos st)
    ((n, firstn (ms_pos st - ms_pos st0) (ms_rest st0)) :: ms_groups st).

Fixpoint group_get (groups : list (nat * pystr)) (n : nat) : option pystr :=
  match groups with
  | [] => None
  | (m, s) :: groups' => if Nat.eqb m n then Some s else group_get groups' n
  end.

Section Matcher.
Context {U : UnicodeDB}.

(** [\b]: exactly one side is a word character (no character counts as
    none). *)
Definition at_boundary (st : mstate) : bool :=
  xorb (match ms_prev st with Some c => is_word c | None => false end)
       (match ms_rest st with c :: _ => is_word c | [] => false end).

(** [.*?] tries the rest of the pattern first and takes one more character,
    never a newline, only when that fails. *)
Fixpoint any_lazy (k : mstate -> option mstate) (prev : option N) (rest : pystr)
    (pos : nat) (groups : list (nat * pystr)) : option mstate :=
  match k (MState prev rest pos groups) with
  | Some m => Some m
  | None =>
      match rest with
      | c :: rest' =>
          if (c =? 10)%N then None else any_lazy k (Some c) rest' (S pos) groups
      | [] => None
      end
  end.

(** The backtracking matcher: [k] is the rest of the pattern. *)
Fixpoint rmatch (r : regex) (k : mstate -> option mstate) (st : mstate) : option mstate :=
  match r with
  | REmpty => k st
  | RLit p =>
      match ms_rest st with
      | c :: rest' => if lit_matches p c then k (advance st c rest') else None
      | [] => None
      end
  | RWordB => if at_boundary st then k st else None
  | RAnyLazy => any_lazy k (ms_prev st) (ms_rest st) (ms_pos st) (ms_groups st)
  | RSeq r1 r2 => rmatch r1 (rmatch r2 k) st
  | RAlt r1 r2 =>
      match rmatch r1 k st with
      | Some m => Some m
      | None => rmatch r2 k st
      end
  | RGroup n r1 => rmatch r1 (fun st' => k (set_group n st st')) st
  end.

Fixpoint search_from (r : regex) (prev : option N) (rest : pystr) (pos : nat) : option mstate :=
  match rmatch r Some (MState prev rest pos []) with
  | Some m => Some m
  | None =>
      match rest with
      | c :: rest' => search_from r (Some c) rest' (S pos)
      | [] => None
      end
  end.

(** [pattern.search(text)]: the leftmost match. *)
Definition re_search (r : regex) (text : pystr) : option mstate :=
  search_from r None text 0.

End Matcher.

(** ** Constants of the script *)

Definition INJURY_KEYWORDS : list pystr :=
  [ str "injured list";
    str "disabled list";
    str "concussion injured list";
    str "covid-19 injured list";
    str "rehab assignment" ].

(** [(?:injured|disabled) list] *)
Definition il_list : regex :=
  RSeq (RAlt (rlit (str "injured")) (rlit (str "disabled"))) (rlit (str " list")).

Definition IL_PLACEMENT_RE : regex :=
  rseq [ RWordB; rlit (str "placed"); RWordB; RAnyLazy;
         RWordB; rlit (str "on the"); RWordB; RAnyLazy;
         RWordB; il_list; RWordB ].

Definition IL_TRANSFER_RE : regex :=
  rseq [ RWordB; rlit (str "transferred"); RWordB; RAnyLazy;
         RWordB; il_list; RWordB; RAnyLazy;
         RWordB; rlit (str "to the"); RWordB; RAnyLazy;
         RWordB; il_list; RWordB ].

Definition IL_ACTIVATION_RE : regex :=
  rseq [ RWordB;
         RGroup 1 (RAlt (rlit (str "activated")) (rlit (str "reinstated")));
         RWordB; RAnyLazy;
         RWordB; rlit (str "from the"); RWordB; RAnyLazy;
         RWordB; il_list; RWordB ].

Definition REHAB_ASSIGNMENT_RE : regex :=
  rseq [ RWordB; rlit (str "rehab assignment"); RWordB ].

Definition IL_DAY_CLASS_RE : regex :=
  rseq [ RWordB;
         RGroup 1 (RAlt (rlit (str "7")) (RAlt (rlit (str "10"))
                    (RAlt (rlit (str "15")) (rlit (str "60")))));
         rlit (str "-day "); il_list; RWordB ].

(** ** The classifier *)

(** The dict [classify_injury] returns, by key. *)
Record Flags : Type := {
  is_injury_related : Z;
  injury_event_type : pystr;
  is_il_placement : Z;
  is_il_activation : Z;
  is_il_transfer : Z;
  is_rehab_assignment : Z;
  is_covid_il : Z;
  il_days_bucket : option pystr;
  count_as_new_injury_registration : Z
}.

(** [int(b)] for a [bool]. *)
Definition int_of_bool (b : bool) : Z := if b then 1 else 0.

(** [bool(m)] for the result of a search. *)
Definition found (m : option mstate) : bool :=
  match m with
  | Some _ => true
  | None => false
  end.

(** [v.strip()]: a method of [str] only. *)
Definition py_strip (v : pyval) : result pystr :=
  match v with
  | PStr s => Ok (strip s)
  | _ => Raise AttributeError
  end.

Section Classifier.
Context {U : UnicodeDB}.

Definition classify_injury (description : pyval) : result Flags :=
  text <- py_strip (py_or description (PStr [])) ;;
  let lower := lower text in
  let is_injury_related := existsb (fun k => contains k lower) INJURY_KEYWORDS in
  let is_il_placement := found (re_search IL_PLACEMENT_RE text) in
  let is_il_transfer := found (re_search IL_TRANSFER_RE text) in
  let is_il_activation := found (re_search IL_ACTIVATION_RE text) in
  let is_rehab_assignment := found (re_search REHAB_ASSIGNMENT_RE text) in
  let is_covid_il := contains (str "covid-19 injured list") lower in
  let count_as_new_injury_registration := is_il_placement && negb is_il_transfer in
  let injury_event_type :=
    if is_il_transfer then str "il_transfer"
    else if is_il_placement then str "il_placement"
    else if is_il_activation then str "il_activation"
    else if is_rehab_assignment then str "rehab_assignment"
    else if is_injury_related then str "injury_other"
    else str "non_injury" in
  let il_days_bucket :=
    match re_search IL_DAY_CLASS_RE text with
    | Some m =>
        match group_get (ms_groups m) 1 with
        | Some g => Some (g ++ str "-day")
        | None => Some (str "None-day")
        end
    | None =>
        if contains (str "covid-19 injured list") lower then Some (str "covid-19")
        else if contains (str "concussion injured list") lower
                || contains (str "concussion disabled list") lower
        then Some (str "concussion")
        else None
    end in
  Ok {| is_injury_related := int_of_bool is_injury_related;
        injury_event_type := injury_event_type;
        is_il_placement := int_of_bool is_il_placement;
        is_il_activation := int_of_bool is_il_activation;
        is_il_transfer := int_of_bool is_il_transfer;
        is_rehab_assignment := int_of_bool is_rehab_assignment;
        is_covid_il := int_of_bool is_covid_il;
        il_days_bucket := il_days_bucket;
        count_as_new_injury_registration := int_of_bool count_as_new_injury_registration |}.

End Classifier.

(** ** [int] of a string *)

(** White space for the C parser behind [int]: tab to carriage return, and
    the space. *)
Definition c_isspace (c : N) : bool := ((9 <=? c)%N && (c <=? 13)%N) || (c =? 32)%N.

Fixpoint skip_c_spaces (s : pystr) : pystr :=
  match s with
  | c :: s' => if c_isspace c then skip_c_spaces s' else s
  | [] => []
  end.

(** The digits of a base 10 literal: single underscores may stand between
    digits.  [prev] is the character before; the value so far is [acc]. *)
Fixpoint scan_digits (s : pystr) (acc : Z) (prev : N) : option (Z * pystr) :=
  match s with
  | c :: s' =>
      if is_ascii_digit c then scan_digits s' (acc * 10 + (Z.of_N c - 48)) c
      else if (c =? 95)%N then
        if (prev =? 95)%N then None else scan_digits s' acc c
      else if (prev =? 95)%N then None else Some (acc, s)
  | [] => if (prev =? 95)%N then None else Some (acc, [])
  end.

Section IntOfStr.
Context {U : UnicodeDB}.

(** Before parsing, [int] turns every Unicode space into a space and every
    Unicode decimal digit into its ASCII digit; another character outside
    ASCII makes the literal invalid. *)
Definition decimal_and_space_to_ascii (c : N) : option N :=
  if (c <? 128)%N then Some c
  else if isspace c then Some 32%N
  else match uni_decimal c with
       | Some d => if (0 <=? d) && (d <=? 9) then Some (Z.to_N (48 + d)) else None
       | None => None
       end.

Fixpoint transform_decimal_and_space (s : pystr) : option pystr :=
  match s with
  | [] => Some []
  | c :: s' =>
      match decimal_and_space_to_ascii c, transform_decimal_and_space s' with
      | Some a, Some t => Some (a :: t)
      | _, _ => None
      end
  end.

(** [int(s)] for a string [s]. *)
Definition int_of_str (s : pystr) : result Z :=
  match transform_decimal_and_space s with
  | None => Raise ValueError
  | Some a =>
      let body := skip_c_spaces a in
      let '(sign, digits) :=
        match body with
        | c :: body' =>
            if (c =? 43)%N then (1, body')
            else if (c =? 45)%N then (-1, body')
            else (1, body)
        | [] => (1, [])
        end in
      match digits with
      | d :: _ =>
          if is_ascii_digit d then
            match scan_digits digits 0 0%N with
            | Some (n, rest) =>
                match skip_c_spaces rest with
                | [] => Ok (sign * n)
                | _ :: _ => Raise ValueError
                end
            | None => Raise ValueError
            end
          else Raise ValueError
      | [] => Raise ValueError
      end
  end.

(** [int(event_date[:4])].  Only a string can be sliced and then read as a
    number: slicing a number, a [bool] or a dict raises [TypeError], and so
    does [int] of the slice of a list. *)
Definition int_of_first4 (event_date : pyval) : result Z :=
  match event_date with
  | PStr s => int_of_str (firstn 4 s)
  | _ => Raise TypeError
  end.

End IntOfStr.

(** ** The flattener *)

(** The dict [flatten_transaction] returns, by key; [**flags] are the keys
    of [Flags]. *)
Record FlatRow : Type := {
  transaction_id : pyval;
  api_date : pyval;
  effective_date : pyval;
  resolution_date : pyval;
  event_date : pyval;
  year : option Z;
  type_code : pyval;
  type_desc : pyval;
  description : pyval;
  person_id : pyval;
  person_name : pyval;
  from_team_id : pyval;
  from_team_name : pyval;
  to_team_id : pyval;
  to_team_name : pyval;
  flags : Flags
}.

(** [d.get(key)] on a dict's items. *)
Definition dict_get (items : list (pystr * pyval)) (key : string) : pyval :=
  match items_get items (str key) with
  | Some v => v
  | None => PNone
  end.

Definition safe_get (obj : pyval) (key : string) : pyval :=
  match obj with
  | PDict items => dict_get items key
  | _ => PNone
  end.

Definition choose_event_date (tx : list (pystr * pyval)) : pyval :=
  py_or (dict_get tx "date")
    (py_or (dict_get tx "effectiveDate") (dict_get tx "resolutionDate")).

Section Flattener.
Context {U : UnicodeDB}.

Definition flatten_transaction (tx : pyval) : result FlatRow :=
  match tx with
  | PDict tx =>
      let description := py_or (dict_get tx "description") (PStr []) in
      let event_date := choose_event_date tx in
      year <- (if truthy event_date
               then y <- int_of_first4 event_date ;; Ok (Some y)
               else Ok None) ;;
      flags <- classify_injury description ;;
      Ok {| transaction_id := dict_get tx "id";
            api_date := dict_get tx "date";
            effective_date := dict_get tx "effectiveDate";
            resolution_date := dict_get tx "resolutionDate";
            event_date := event_date;
            year := year;
            type_code := dict_get tx "typeCode";
            type_desc := dict_get tx "typeDesc";
            description := description;
            person_id := safe_get (dict_get tx "person") "id";
            person_name := safe_get (dict_get tx "person") "fullName";
            from_team_id := safe_get (dict_get tx "fromTeam") "id";
            from_team_name := safe_get (dict_get tx "fromTeam") "name";
            to_team_id := safe_get (dict_get tx "toTeam") "id";
            to_team_name := safe_get (dict_get tx "toTeam") "name";
            flags := flags |}
  | _ => Raise AttributeError
  end.

End Flattener.

(** ** Dates

    [datetime.date]: a day of the proleptic Gregorian calendar between
    0001-01-01 and 9999-12-31. *)

Module PyDate.

Record t : Type := mk { year : Z; month : Z; day : Z }.

Definition is_leap (y : Z) : bool :=
  (y mod 4 =? 0) && (negb (y mod 100 =? 0) || (y mod 400 =? 0)).

Definition days_in_month (y m : Z) : Z :=
  if m =? 2 then (if is_leap y then 29 else 28)
  else if (m =? 4) || (m =? 6) || (m =? 9) || (m =? 11) then 30
  else 31.

Definition MINYEAR : Z := 1.
Definition MAXYEAR : Z := 9999.

Definition validb (d : t) : bool :=
  (MINYEAR <=? year d) && (year d <=? MAXYEAR) &&
  (1 <=? month d) && (month d <=? 12) &&
  (1 <=? day d) && (day d <=? days_in_month (year d) (month d)).

Definition valid (d : t) : Prop := validb d = true.

(** An [int] that fits the C [int] the constructor reads. *)
Definition c_int (z : Z) : bool := (-2147483648 <=? z) && (z <=? 2147483647).

(** [date(y, m, d)]: [OverflowError] for a number too large for a C
    [int], [ValueError] for a date that is not of the calendar. *)
Definition make (y m d : Z) : result t :=
  if negb (c_int y && c_int m && c_int d) then Raise OverflowError
  else if validb (mk y m d) then Ok (mk y m d) else Raise ValueError.

(** [date.max]. *)
Definition max : t := mk 9999 12 31.

(** [a <= b] and [a < b]: year, then month, then day. *)
Definition ltb (a b : t) : bool :=
  (year a <? year b) ||
  ((year a =? year b) &&
   ((month a <? month b) || ((month a =? month b) && (day a <? day b)))).

Definition leb (a b : t) : bool := negb (ltb b a).

(** [d + timedelta(days=1)]: the next day, [OverflowError] past
    [date.max]. *)
Definition add_day (d : t) : result t :=
  if day d <? days_in_month (year d) (month d) then Ok (mk (year d) (month d) (day d + 1))
  else if month d <? 12 then Ok (mk (year d) (month d + 1) 1)
  else if year d <? MAXYEAR then Ok (mk (year d + 1) 1 1)
  else Raise OverflowError.

(** The last [width] decimal digits of [n], most significant first:
    ["%0<width>d" % n] for [0 <= n < 10 ^ width]. *)
Fixpoint digits (width : nat) (n : Z) : pystr :=
  match width with
  | O => []
  | S w => digits w (n / 10) ++ [Z.to_N (48 + n mod 10)]
  end.

(** [d.isoformat()]: YYYY-MM-DD. *)
Definition isoformat (d : t) : pystr :=
  digits 4 (year d) ++ [45%N] ++ digits 2 (month d) ++ [45%N] ++ digits 2 (day d).

(** A number that grows with the date, to bound the days between two
    dates. *)
Definition rank (d : t) : Z := (year d * 12 + (month d - 1)) * 31 + (day d - 1).

End PyDate.

(** The generator [daterange], run to its end: the days it yields, or the
    exception that ends it.  The loop runs on fuel that bounds the days from
    [start] to [end_]. *)
Fixpoint daterange_loop (fuel : nat) (cur end_ : PyDate.t) : result (list PyDate.t) :=
  match fuel with
  | O => Raise FuelExhausted
  | S fuel' =>
      if PyDate.leb cur end_ then
        next <- PyDate.add_day cur ;;
        rest <- daterange_loop fuel' next end_ ;;
        Ok (cur :: rest)
      else Ok []
  end.

Definition daterange (start end_ : PyDate.t) : result (list PyDate.t) :=
  daterange_loop (S (Z.to_nat (PyDate.rank end_ - PyDate.rank start + 1))) start end_.

(** ** The daily series *)

(** The [Counter] kept for a day, by key; a key never counted reads 0. *)
Record Counter : Type := {
  c_injury_related_transactions : Z;
  c_injury_registrations : Z;
  c_il_activations : Z;
  c_il_transfers : Z;
  c_rehab_assignments : Z
}.

(** [Counter()]. *)
Definition Counter_empty : Counter := Build_Counter 0 0 0 0 0.

(** [int(x or 0)] for an [int] field of a row. *)
Definition int_or_0 (x : Z) : Z := if x =? 0 then 0 else x.

(** The five [+=] of the loop body. *)
Definition count_row (row : FlatRow) (c : Counter) : Counter :=
  {| c_injury_related_transactions := c_injury_related_transactions c + 1;
     c_injury_registrations :=
       c_injury_registrations c + int_or_0 (count_as_new_injury_registration (flags row));
     c_il_activations := c_il_activations c + int_or_0 (is_il_activation (flags row));
     c_il_transfers := c_il_transfers c + int_or_0 (is_il_transfer (flags row));
     c_rehab_assignments := c_rehab_assignments c + int_or_0 (is_rehab_assignment (flags row)) |}.

(** One turn of the loop over [injury_rows].  [by_day] is kept for its
    string keys: a truthy number used as a key is counted under an entry
    that no [isoformat] string reads; a list or a dict cannot be a key. *)
Definition tally (by_day : gmap pystr Counter) (row : FlatRow) : result (gmap pystr Counter) :=
  let d := event_date row in
  if negb (truthy d) then Ok by_day
  else
    match d with
    | PStr s =>
        let by_day :=
          match by_day !! s with
          | Some _ => by_day
          | None => <[s := Counter_empty]> by_day
          end in
        Ok (alter (count_row row) s by_day)
    | PList _ | PDict _ => Raise TypeError
    | _ => Ok by_day
    end.

Module Daily.

(** A row of the daily table, by key. *)
Record row : Type := {
  date : pystr;
  year : Z;
  injury_registrations : Z;
  injury_related_transactions : Z;
  il_activations : Z;
  il_transfers : Z;
  rehab_assignments : Z
}.

End Daily.

(** [by_day.get(key, Counter())]. *)
Definition by_day_get (by_day : gmap pystr Counter) (key : pystr) : Counter :=
  match by_day !! key with
  | Some c => c
  | None => Counter_empty
  end.

Definition daily_row (by_day : gmap pystr Counter) (d : PyDate.t) : Daily.row :=
  let key := PyDate.isoformat d in
  let c := by_day_get by_day key in
  {| Daily.date := key;
     Daily.year := PyDate.year d;
     Daily.injury_registrations := c_injury_registrations c;
     Daily.injury_related_transactions := c_injury_related_transactions c;
     Daily.il_activations := c_il_activations c;
     Daily.il_transfers := c_il_transfers c;
     Daily.rehab_assignments := c_rehab_assignments c |}.

Definition build_daily_series (injury_rows : list FlatRow) (start_date end_date : PyDate.t)
    : result (list Daily.row) :=
  by_day <- foldM tally injury_rows ∅ ;;
  days <- daterange start_date end_date ;;
  Ok (List.map (daily_row by_day) days).

(** ** Tables *)

Definition RAW_COLUMNS : list pystr :=
  List.map str
    [ "transaction_id"; "api_date"; "effective_date"; "resolution_date";
      "event_date"; "year"; "type_code"; "type_desc"; "description";
      "person_id"; "person_name"; "from_team_id"; "from_team_name";
      "to_team_id"; "to_team_name"; "is_injury_related"; "injury_event_type";
      "is_il_placement"; "is_il_activation"; "is_il_transfer";
      "is_rehab_assignment"; "is_covid_il"; "il_days_bucket" ]%string.

Definition INJURY_COLUMNS : list pystr :=
  RAW_COLUMNS ++ [ str "count_as_new_injury_registration" ].

Definition DAILY_COLUMNS : list pystr :=
  List.map str
    [ "date"; "year"; "injury_registrations"; "injury_related_transactions";
      "il_activations"; "il_transfers"; "rehab_assignments" ]%string.

Definition opt_int (o : option Z) : pyval :=
  match o with
  | Some z => PInt z
  | None => PNone
  end.

Definition opt_str (o : option pystr) : pyval :=
  match o with
  | Some s => PStr s
  | None => PNone
  end.

(** A flat row as the dict it is: its items, in the order of the dict
    display of [flatten_transaction]. *)
Definition flat_row_items (r : FlatRow) : list (pystr * pyval) :=
  [ (str "transaction_id", transaction_id r);
    (str "api_date", api_date r);
    (str "effective_date", effective_date r);
    (str "resolution_date", resolution_date r);
    (str "event_date", event_date r);
    (str "year", opt_int (year r));
    (str "type_code", type_code r);
    (str "type_desc", type_desc r);
    (str "description", description r);
    (str "person_id", person_id r);
    (str "person_name", person_name r);
    (str "from_team_id", from_team_id r);
    (str "from_team_name", from_team_name r);
    (str "to_team_id", to_team_id r);
    (str "to_team_name", to_team_name r);
    (str "is_injury_related", PInt (is_injury_related (flags r)));
    (str "injury_event_type", PStr (injury_event_type (flags r)));
    (str "is_il_placement", PInt (is_il_placement (flags r)));
    (str "is_il_activation", PInt (is_il_activation (flags r)));
    (str "is_il_transfer", PInt (is_il_transfer (flags r)));
    (str "is_rehab_assignment", PInt (is_rehab_assignment (flags r)));
    (str "is_covid_il", PInt (is_covid_il (flags r)));
    (str "il_days_bucket", opt_str (il_days_bucket (flags r)));
    (str "count_as_new_injury_registration",
     PInt (count_as_new_injury_registration (flags r))) ].

Definition daily_row_items (r : Daily.row) : list (pystr * pyval) :=
  [ (str "date", PStr (Daily.date r));
    (str "year", PInt (Daily.year r));
    (str "injury_registrations", PInt (Daily.injury_registrations r));
    (str "injury_related_transactions", PInt (Daily.injury_related_transactions r));
    (str "il_activations", PInt (Daily.il_activations r));
    (str "il_transfers", PInt (Daily.il_transfers r));
    (str "rehab_assignments", PInt (Daily.rehab_assignments r)) ].

(** What [write_csv] hands to [csv.DictWriter]: the name of the file under
    [args.outdir], the field names, and for every row the values
    [{k: row.get(k) for k in columns}] in the order of the columns.  The
    text of the file (quoting, [str] of a number) is not modelled. *)
Record CsvFile : Type := {
  csv_name : pystr;
  csv_fieldnames : list pystr;
  csv_rows : list (list pyval)
}.

(** A code point UTF-8 has no encoding for: a lone surrogate, which
    [json.load] builds from an escape such as [\ud800]. *)
Definition is_surrogate (c : N) : bool := (55296 <=? c)%N && (c <=? 57343)%N.

(** Whether the text of a cell can be written to a file opened with
    [encoding="utf-8"].  The writer writes a string as it is; of a list or
    a dict it writes [str(v)], in which a surrogate is escaped. *)
Definition cell_encodes (v : pyval) : bool :=
  match v with
  | PStr s => forallb (fun c => negb (is_surrogate c)) s
  | _ => true
  end.

(** ** Comparing values

    [list.sort] compares the keys with [<], and a tuple or a list compares
    its items with [==] before it asks [<] of the first pair that differs.
    Both are modelled on the values of [json.load]. *)

(** A number as [<] and [==] read it: an [int] and a [bool] are compared
    with a [float] exactly, every finite number being some [m * 2^e]. *)
Inductive number : Type :=
| NumNan
| NumInf (negative : bool)
| NumFin (m e : Z).

Definition number_of_float (f : float) : number :=
  match Prim2SF f with
  | S754_zero _ => NumFin 0 0
  | S754_infinity s => NumInf s
  | S754_nan => NumNan
  | S754_finite s m e => NumFin (if s then Z.neg m else Z.pos m) e
  end.

Definition as_number (v : pyval) : option number :=
  match v with
  | PBool b => Some (NumFin (int_of_bool b) 0)
  | PInt z => Some (NumFin z 0)
  | PFloat f => Some (number_of_float f)
  | _ => None
  end.

(** [m * 2^e] counted in units of [2^e0], for [e0 <= e]. *)
Definition scaled (m e e0 : Z) : Z := m * 2 ^ (e - e0).

Definition number_ltb (a b : number) : bool :=
  match a, b with
  | NumNan, _ | _, NumNan => false
  | NumInf s, NumInf t => s && negb t
  | NumInf s, NumFin _ _ => s
  | NumFin _ _, NumInf t => negb t
  | NumFin m1 e1, NumFin m2 e2 =>
      let e0 := Z.min e1 e2 in
      scaled m1 e1 e0 <? scaled m2 e2 e0
  end.

(** Every NaN of a payload is one object, the constant the [json] module
    keeps, and where a container or the sort asks [==] an object equals
    itself: NaN equals NaN there, and nothing else. *)
Definition number_eqb (a b : number) : bool :=
  match a, b with
  | NumNan, NumNan => true
  | NumInf s, NumInf t => Bool.eqb s t
  | NumFin m1 e1, NumFin m2 e2 =>
      let e0 := Z.min e1 e2 in
      scaled m1 e1 e0 =? scaled m2 e2 e0
  | _, _ => false
  end.

(** [a == b], as the items of a tuple, a list or a dict are compared. *)
Fixpoint py_eqb (a b : pyval) : bool :=
  match a, b with
  | PNone, PNone => true
  | PStr s, PStr t => bool_decide (s = t)
  | PList l, PList m =>
      (fix items (l m : list pyval) : bool :=
         match l, m with
         | [], [] => true
         | x :: l', y :: m' => py_eqb x y && items l' m'
         | _, _ => false
         end) l m
  | PDict i, PDict j =>
      (length i =? length j)%nat &&
      (fix values (i : list (pystr * pyval)) : bool :=
         match i with
         | [] => true
         | (k, v) :: i' =>
             match items_get j k with
             | Some w => py_eqb v w
             | None => false
             end && values i'
         end) i
  | _, _ =>
      match as_number a, as_number b with
      | Some x, Some y => number_eqb x y
      | _, _ => false
      end
  end.

(** [a < b]: between two numbers, two strings or two lists; [TypeError]
    between values of two kinds, two dicts or two [None]. *)
Fixpoint py_lt (a b : pyval) : result bool :=
  match a, b with
  | PStr s, PStr t => Ok (str_ltb s t)
  | PList l, PList m =>
      (fix items (l m : list pyval) : result bool :=
         match l, m with
         | [], [] => Ok false
         | [], _ :: _ => Ok true
         | _ :: _, [] => Ok false
         | x :: l', y :: m' => if py_eqb x y then items l' m' else py_lt x y
         end) l m
  | _, _ =>
      match as_number a, as_number b with
      | Some x, Some y => Ok (number_ltb x y)
      | _, _ => Raise TypeError
      end
  end.

(** [a < b] on two keys, as tuples of two items compare. *)
Definition tuple_lt (a b : pyval * pyval) : result bool :=
  if py_eqb (fst a) (fst b) then
    if py_eqb (snd a) (snd b) then Ok false else py_lt (snd a) (snd b)
  else py_lt (fst a) (fst b).

(** A NaN in the value, at any depth. *)
Fixpoint has_nan (v : pyval) : bool :=
  match v with
  | PFloat f => match number_of_float f with NumNan => true | _ => false end
  | PList l => existsb has_nan l
  | PDict items => existsb (fun kv => has_nan (snd kv)) items
  | _ => false
  end.

(** ** Sorting the rows

    [list.sort] on fewer than 64 elements (CPython 3.11): the run at the
    head of the list is found by [count_run], reversed if it descends, and
    the other elements are inserted into it one by one by [binarysort].
    The first comparison that raises ends the sort. *)

Section ListSort.
Context {A : Type}.

(** [x < y] on the keys of two elements. *)
Variable lt : A -> A -> result bool.

(** The run goes on while no element is smaller than the one before. *)
Fixpoint run_ascending (prev : A) (l : list A) (n : nat) : result nat :=
  match l with
  | [] => Ok n
  | x :: l' =>
      b <- lt x prev ;;
      if b then Ok n else run_ascending x l' (S n)
  end.

(** The run goes on while every element is smaller than the one before. *)
Fixpoint run_descending (prev : A) (l : list A) (n : nat) : result nat :=
  match l with
  | [] => Ok n
  | x :: l' =>
      b <- lt x prev ;;
      if b then run_descending x l' (S n) else Ok n
  end.

(** The length of the run at the head of the list, and whether it
    descends. *)
Definition count_run (l : list A) : result (nat * bool) :=
  match l with
  | [] => Ok (O, false)
  | [x] => Ok (1%nat, false)
  | x :: y :: l' =>
      b <- lt y x ;;
      if b then n <- run_descending y l' 2 ;; Ok (n, true)
      else n <- run_ascending y l' 2 ;; Ok (n, false)
  end.

(** The loop of [binarysort] that looks for the place of [pivot] in the
    sorted elements [pre], between the indices [l] and [r]: after the
    elements that are not greater. *)
Fixpoint bisect (fuel : nat) (pre : list A) (pivot : A) (l r : nat) : result nat :=
  match fuel with
  | O => Ok l
  | S fuel' =>
      let p := (l + (r - l) / 2)%nat in
      match nth_error pre p with
      | None => Ok l
      | Some y =>
          b <- lt pivot y ;;
          let l' := if b then l else S p in
          let r' := if b then p else r in
          if (l' <? r')%nat then bisect fuel' pre pivot l' r' else Ok l'
      end
  end.

(** [binarysort]: the elements of [rest] inserted into [pre], in order. *)
Fixpoint binarysort (pre rest : list A) : result (list A) :=
  match rest with
  | [] => Ok pre
  | pivot :: rest' =>
      l <- bisect (length pre) pre pivot 0 (length pre) ;;
      binarysort (firstn l pre ++ pivot :: skipn l pre) rest'
  end.

Definition insertion_sort (l : list A) : result (list A) :=
  match l with
  | [] | [_] => Ok l
  | _ =>
      run <- count_run l ;;
      let head := firstn (fst run) l in
      binarysort (if snd run then rev head else head) (skipn (fst run) l)
  end.

End ListSort.

(** The key of [all_rows.sort]. *)
Definition sort_key (r : FlatRow) : pyval * pyval :=
  (py_or (event_date r) (PStr []), py_or (transaction_id r) (PInt 0)).

(** A row with its key, as [list.sort] holds them while it sorts. *)
Abbreviation keyed_row := ((pyval * pyval) * FlatRow)%type.

Definition keyed_lt (x y : keyed_row) : result bool := tuple_lt (fst x) (fst y).

(** ** The host of the run

    What the run asks of the operating system and of the interpreter
    beyond the functions modelled here. *)
Class Host : Type := {
  (** The call of [time.sleep] to the clock, for a pause it accepts:
      [OSError] when the system refuses the deadline. *)
  host_sleep : float -> result unit;
  (** [path.parent.mkdir] and [path.open] for the file of that name under
      that directory: [OSError] when the file cannot be made. *)
  host_create : pystr -> pystr -> result unit;
  (** [list.sort] on 64 rows or more of which a key holds a NaN: the
      runs are merged then, and a NaN, which [<] does not order, makes the
      outcome depend on the merges; they are not modelled. *)
  host_merge_sort : list keyed_row -> result (list keyed_row)
}.

Section Hosted.
Context {host : Host}.

(** [all_rows.sort(key=...)].  The keys are computed first.  Below 64
    rows the sort is [insertion_sort].  From 64 rows on it merges runs:
    on keys without NaN every comparison sort that is stable returns the
    same list, or meets two keys [<] raises on, and the model is again
    [insertion_sort]. *)
Definition sort_rows (rows : list FlatRow) : result (list FlatRow) :=
  let keyed := List.map (fun r => (sort_key r, r)) rows in
  sorted <-
    (if (length keyed <? 64)%nat
        || forallb (fun kr : keyed_row => negb (has_nan (snd (fst kr)))) keyed
     then insertion_sort keyed_lt keyed
     else host_merge_sort keyed) ;;
  Ok (List.map snd sorted).

(** [write_csv(path, rows, columns)] for the file [name] under [dir].
    The rows are written one by one; a string that UTF-8 cannot encode
    ends the run with the rows before it written. *)
Definition write_csv (dir name : pystr) (rows : list (list (pystr * pyval)))
    (columns : list pystr) : result CsvFile :=
  _ <- host_create dir name ;;
  let cells :=
    List.map
      (fun row =>
         List.map
           (fun k => match items_get row k with Some v => v | None => PNone end)
           columns)
      rows in
  if forallb (forallb cell_encodes) cells
  then Ok {| csv_name := name; csv_fieldnames := columns; csv_rows := cells |}
  else Raise UnicodeEncodeError.

End Hosted.

(** ** The orchestrator *)

Record Args : Type := {
  start_year : Z;
  end_year : Z;
  outdir : pystr;
  sleep : float
}.

Record Output : Type := {
  raw_file : CsvFile;
  injury_file : CsvFile;
  daily_file : CsvFile
}.

Definition BASE_URL : pystr := str "https://statsapi.mlb.com/api/v1/transactions".

(** [str(n)] for an [int]. *)
Definition str_of_int (n : Z) : pystr := str (DecimalString.NilZero.string_of_int (Z.to_int n)).

(** [len(v)]. *)
Definition py_len (v : pyval) : result Z :=
  match v with
  | PStr s => Ok (Z.of_nat (length s))
  | PList l => Ok (Z.of_nat (length l))
  | PDict items => Ok (Z.of_nat (length items))
  | _ => Raise TypeError
  end.

(** [for tx in v]: the elements of a list, the characters of a string, the
    keys of a dict. *)
Definition py_iter (v : pyval) : result (list pyval) :=
  match v with
  | PStr s => Ok (List.map (fun c => PStr [c]) s)
  | PList l => Ok l
  | PDict items => Ok (List.map (fun kv => PStr (fst kv)) items)
  | _ => Raise TypeError
  end.

(** The row dicts of [injury_rows] are the dicts of [all_rows]: the
    assignment to [r["count_as_new_injury_registration"]] is seen through
    both lists. *)
Definition set_count (r : FlatRow) : FlatRow :=
  let f := flags r in
  {| transaction_id := transaction_id r;
     api_date := api_date r;
     effective_date := effective_date r;
     resolution_date := resolution_date r;
     event_date := event_date r;
     year := year r;
     type_code := type_code r;
     type_desc := type_desc r;
     description := description r;
     person_id := person_id r;
     person_name := person_name r;
     from_team_id := from_team_id r;
     from_team_name := from_team_name r;
     to_team_id := to_team_id r;
     to_team_name := to_team_name r;
     flags :=
       {| is_injury_related := is_injury_related f;
          injury_event_type := injury_event_type f;
          is_il_placement := is_il_placement f;
          is_il_activation := is_il_activation f;
          is_il_transfer := is_il_transfer f;
          is_rehab_assignment := is_rehab_assignment f;
          is_covid_il := is_covid_il f;
          il_days_bucket := il_days_bucket f;
          count_as_new_injury_registration :=
            int_or_0 (count_as_new_injury_registration f) |} |}.

Definition is_injury_row (r : FlatRow) : bool :=
  int_or_0 (is_injury_related (flags r)) =? 1.

(** [time.sleep(secs)] as far as it can raise (CPython 3.11): the seconds
    are scaled to nanoseconds and must fit a 64-bit count, then be
    non-negative; the clock of the host does the rest.  The time that
    passes is not modelled. *)
Definition time_sleep {host : Host} (secs : float) : result unit :=
  let d := PrimFloat.mul secs 1e9%float in
  let bound := 9223372036854775808%float in
  if PrimFloat.is_nan secs then Raise ValueError
  else if PrimFloat.ltb d (PrimFloat.opp bound) || PrimFloat.ltb bound d
  then Raise OverflowError
  else if PrimFloat.ltb secs 0%float || PrimFloat.eqb d bound then Raise ValueError
  else host_sleep secs.

Section Main.
Context {U : UnicodeDB} {host : Host}.

(** [urllib.parse.urlencode]. *)
Variable urlencode : list (pystr * pyval) -> pystr.

(** The network: what the [n]-th request of the run returns, the parsed
    JSON body or the exception of [urlopen] or [json.load]. *)
Variable urlopen_json : nat -> pystr -> result pyval.

Definition build_url (start_date end_date : pystr) (sport_id : Z) : pystr :=
  BASE_URL ++ str "?" ++
  urlencode [ (str "startDate", PStr start_date);
              (str "endDate", PStr end_date);
              (str "sportId", PInt sport_id) ].

(** The retry loop of [fetch_json], with [left] attempts to go; [n] counts
    the requests of the run.  The pauses between two attempts, of 1.5 and
    of 3 seconds, pass. *)
Fixpoint fetch_attempts (url : pystr) (left : nat) (n : nat) : result (pyval * nat) :=
  match left with
  | O => Raise RuntimeError
  | S left' =>
      match urlopen_json n url with
      | Ok payload => Ok (payload, S n)
      | Raise _ => fetch_attempts url left' (S n)
      end
  end.

Definition fetch_json (url : pystr) (n : nat) : result (pyval * nat) :=
  fetch_attempts url 3 n.

(** The loop over the years of [main], with [todo] years to go and
    [pause] for [args.sleep]. *)
Fixpoint fetch_years (pause : float) (todo : nat) (year : Z) (n : nat)
    (all_rows : list FlatRow) : result (list FlatRow) :=
  match todo with
  | O => Ok all_rows
  | S todo' =>
      let start := str_of_int year ++ str "-01-01" in
      let end_ := str_of_int year ++ str "-12-31" in
      let url := build_url start end_ 1 in
      fetched <- fetch_json url n ;;
      txs <- py_get_default (fst fetched) (str "transactions") (PList []) ;;
      _ <- py_len txs ;;
      txs <- py_iter txs ;;
      rows <- mapM flatten_transaction txs ;;
      _ <- time_sleep pause ;;
      fetch_years pause todo' (year + 1) (snd fetched) (all_rows ++ rows)
  end.

Definition main (args : Args) : result Output :=
  if end_year args <? start_year args then Raise SystemExit
  else
    all_rows <- fetch_years (sleep args)
                  (Z.to_nat (end_year args + 1 - start_year args))
                  (start_year args) 0 [] ;;
    all_rows <- sort_rows all_rows ;;
    let injury_rows := List.map set_count (List.filter is_injury_row all_rows) in
    let all_rows := List.map (fun r => if is_injury_row r then set_count r else r) all_rows in
    start_date <- PyDate.make (start_year args) 1 1 ;;
    end_date <- PyDate.make (end_year args) 12 31 ;;
    daily_rows <- build_daily_series injury_rows start_date end_date ;;
    let span := str_of_int (start_year args) ++ str "_" ++ str_of_int (end_year args)
                ++ str ".csv" in
    let raw_path := str "mlb_transactions_flat_" ++ span in
    let injury_path := str "mlb_injury_transactions_" ++ span in
    let daily_path := str "mlb_injuries_daily_" ++ span in
    raw <- write_csv (outdir args) raw_path (List.map flat_row_items all_rows) RAW_COLUMNS ;;
    injury <- write_csv (outdir args) injury_path (List.map flat_row_items injury_rows)
                INJURY_COLUMNS ;;
    daily <- write_csv (outdir args) daily_path (List.map daily_row_items daily_rows)
               DAILY_COLUMNS ;;
    Ok {| raw_file := raw; injury_file := injury; daily_file := daily |}.

End Main.

(** ** Definitions used by the statements *)

(** A character database that knows nothing outside ASCII, to run the
    functions on concrete inputs. *)
Definition ascii_db : UnicodeDB :=
  {| uni_isalnum := fun _ => false;
     uni_decimal := fun _ => None;
     uni_lower := fun _ _ c => [c] |}.

(** The six values of [injury_event_type]. *)
Definition EVENT_TYPES : list pystr :=
  List.map str
    [ "il_transfer"; "il_placement"; "il_activation"; "rehab_assignment";
      "injury_other"; "non_injury" ]%string.

(** The event type the priority order selects from the flags. *)
Definition event_type_by_priority (f : Flags) : pystr :=
  if is_il_transfer f =? 1 then str "il_transfer"
  else if is_il_placement f =? 1 then str "il_placement"
  else if is_il_activation f =? 1 then str "il_activation"
  else if is_rehab_assignment f =? 1 then str "rehab_assignment"
  else if is_injury_related f =? 1 then str "injury_other"
  else str "non_injury".

(** The texts a pattern can consume, word boundaries and the newline rule
    of the dot left aside: every match of the matcher consumes one. *)
Fixpoint accepts (r : regex) (seg : pystr) : Prop :=
  match r with
  | REmpty => seg = []
  | RLit p => exists c, seg = [c] /\ lit_matches p c = true
  | RWordB => seg = []
  | RAnyLazy => True
  | RSeq r1 r2 => exists s1 s2, seg = s1 ++ s2 /\ accepts r1 s1 /\ accepts r2 s2
  | RAlt r1 r2 => accepts r1 seg \/ accepts r2 seg
  | RGroup _ r1 => accepts r1 seg
  end.

(** Not one of the three letters that [re.IGNORECASE] pairs with an ASCII
    letter and [str.lower] leaves away from it: U+0130 lowers to an i and a
    combining dot, U+0131 and U+017F are lower case already. *)
Definition plain_case (c : N) : bool :=
  negb ((c =? U_I_DOT)%N || (c =? U_DOTLESS_I)%N || (c =? U_LONG_S)%N).

(** A pattern character of the script: ASCII, no capital letter. *)
Definition pattern_char (p : N) : bool := (p <? 128)%N && negb (is_ascii_upper p).

(** Every specific flag forces the generic one. *)
Definition specific_flags_imply_related (f : Flags) : Prop :=
  (is_il_placement f = 1 \/ is_il_transfer f = 1 \/ is_il_activation f = 1 \/
   is_rehab_assignment f = 1 \/ is_covid_il f = 1) ->
  is_injury_related f = 1.

Definition non_injury_iff_unrelated (f : Flags) : Prop :=
  injury_event_type f = str "non_injury" <-> is_injury_related f = 0.

(** A description the classifier can read: missing, falsy, or a string. *)
Definition description_ok (tx : list (pystr * pyval)) : Prop :=
  truthy (dict_get tx "description") = false \/
  exists s, dict_get tx "description" = PStr s.

(** The first value of the list that is not [None]; [None] when there is
    none. *)
Fixpoint first_non_null (l : list pyval) : pyval :=
  match l with
  | [] => PNone
  | PNone :: l' => first_non_null l'
  | v :: _ => v
  end.

(** The first truthy value of the list; the last value when there is
    none. *)
Fixpoint first_truthy_or_last (l : list pyval) : pyval :=
  match l with
  | [] => PNone
  | [v] => v
  | v :: l' => if truthy v then v else first_truthy_or_last l'
  end.

(** The three dates of a record, in the order [choose_event_date] reads
    them. *)
Definition record_dates (tx : list (pystr * pyval)) : list pyval :=
  [ dict_get tx "date"; dict_get tx "effectiveDate"; dict_get tx "resolutionDate" ].

(** [a] is an earlier day than [b]. *)
Definition date_lt (a b : PyDate.t) : Prop := PyDate.ltb a b = true.

(** [d] is a day of the calendar from [start] to [end_], both included. *)
Definition in_span (start end_ d : PyDate.t) : Prop :=
  PyDate.valid d /\ PyDate.leb start d = true /\ PyDate.leb d end_ = true.

(** A value that can be a key of a dict. *)
Definition hashable (v : pyval) : bool :=
  match v with
  | PList _ | PDict _ => false
  | _ => true
  end.

(** The event date of the row is falsy or can be a key of [by_day]; every
    row of [flatten_transaction] is such a row. *)
Definition date_keyable (row : FlatRow) : Prop :=
  truthy (event_date row) = false \/ hashable (event_date row) = true.

(** The string under which [by_day] counts the row, if any. *)
Definition row_key (row : FlatRow) : option pystr :=
  match event_date row with
  | PStr (c :: s) => Some (c :: s)
  | _ => None
  end.

(** The row is an event of the day [d]. *)
Definition on_day (d : PyDate.t) (row : FlatRow) : bool :=
  bool_decide (row_key row = Some (PyDate.isoformat d)).

(** The row is an event of one of the [days]. *)
Definition on_days (days : list PyDate.t) (row : FlatRow) : bool :=
  existsb (fun d => on_day d row) days.

(** The five counters of a row of the daily table are zero. *)
Definition zero_counters (o : Daily.row) : Prop :=
  Daily.injury_registrations o = 0 /\
  Daily.injury_related_transactions o = 0 /\
  Daily.il_activations o = 0 /\
  Daily.il_transfers o = 0 /\
  Daily.rehab_assignments o = 0.

(** The sum of a column of numbers. *)
Definition sum_Z (l : list Z) : Z := fold_right Z.add 0 l.

(** The rows that count as a new registration. *)
Definition is_registration (row : FlatRow) : bool :=
  count_as_new_injury_registration (flags row) =? 1.

(** A row whose count flag is 0 or 1, as the classifier sets it. *)
Definition count_is_flag (row : FlatRow) : Prop :=
  count_as_new_injury_registration (flags row) = 0 \/
  count_as_new_injury_registration (flags row) = 1.

(** What the loop over [injury_rows] leaves under a key: the counter of
    the rows with that event date, counted in order. *)
Definition count_rows (key : pystr) (rows : list FlatRow) (c : Counter) : Counter :=
  fold_left (fun c r => if decide (row_key r = Some key) then count_row r c else c) rows c.

(** The registrations counted under a key. *)
Definition registrations_of (key : pystr) (rows : list FlatRow) : Z :=
  sum_Z (List.map (fun r => if decide (row_key r = Some key)
                            then int_or_0 (count_as_new_injury_registration (flags r))
                            else 0) rows).

(** Two records to run the aggregation on: a placement dated 2015-01-02
    and a placement with no date. *)
Definition sample_rows : list FlatRow :=
  match
    mapM (@flatten_transaction ascii_db)
      [ PDict [ (str "id", PInt 1);
                (str "date", PStr (str "2015-01-02"));
                (str "description",
                 PStr (str "Player X placed on the 10-day injured list")) ];
        PDict [ (str "id", PInt 2);
                (str "description",
                 PStr (str "Player Y placed on the 60-day injured list")) ] ]
  with
  | Ok rows => rows
  | Raise _ => []
  end.


(** A key that [<] orders among the keys of its kind: a number other
    than NaN, or a string. *)
Definition plain (v : pyval) : bool :=
  match v with
  | PStr _ => true
  | _ =>
      match as_number v with
      | Some NumNan | None => false
      | Some _ => true
      end
  end.

(** The values in one line: the numbers in their order, from minus
    infinity to infinity, then the strings in theirs, then the rest. *)
Inductive okey : Type :=
| KNegInf
| KFin (m e : Z)
| KPosInf
| KStr (s : pystr)
| KOther.

Definition canon (v : pyval) : okey :=
  match v with
  | PStr s => KStr s
  | _ =>
      match as_number v with
      | Some (NumFin m e) => KFin m e
      | Some (NumInf true) => KNegInf
      | Some (NumInf false) => KPosInf
      | _ => KOther
      end
  end.


(** The key of a row in that line, its date as the string it is. *)
Definition canon_key (k : pyval * pyval) : pystr * okey :=
  (match fst k with PStr s => s | _ => [] end, canon (snd k)).


(** A key of [all_rows.sort] with a string for date and such an id. *)
Definition plain_key (k : pyval * pyval) : bool :=
  match fst k with
  | PStr _ => plain (snd k)
  | _ => false
  end.



(** A row with its key, the key being plain. *)
Definition plain_row : Type := { kr : keyed_row | plain_key (fst kr) = true }.

(** The merges of [list.sort] rearrange the rows they are given. *)
Definition sort_rearranges (host : Host) : Prop :=
  forall l l', host_merge_sort l = Ok l' -> Permutation l l'.

(** A host to run [main] on: the clock accepts every pause, every file
    can be made, and long lists are sorted as short ones are. *)
Definition sample_host : Host :=
  {| host_sleep := fun _ => Ok tt;
     host_create := fun _ _ => Ok tt;
     host_merge_sort := insertion_sort keyed_lt |}.

(** The values of a row under the columns of the flat table. *)
Definition raw_values (r : FlatRow) : list pyval :=
  List.map (fun k => match items_get (flat_row_items r) k with Some v => v | None => PNone end)
    RAW_COLUMNS.

(** A run to evaluate [main] on: the season 2015, and a network that
    answers every request with three transactions, out of order and one of
    them with no date. *)
Definition sample_args : Args :=
  {| start_year := 2015; end_year := 2015; outdir := str "data"; sleep := 0.25%float |}.

Definition sample_transactions : pyval :=
  PList [ PDict [ (str "id", PInt 3);
                  (str "date", PStr (str "2015-05-02"));
                  (str "description",
                   PStr (str "Player X placed on the 10-day injured list")) ];
          PDict [ (str "id", PInt 2);
                  (str "description", PStr (str "Player Y signed")) ];
          PDict [ (str "id", PInt 1);
                  (str "date", PStr (str "2015-04-01"));
                  (str "description",
                   PStr (str "Player Z activated from the 10-day injured list")) ] ].

Definition sample_payload : pyval :=
  PDict [ (str "copyright", PStr (str "MLB"));
          (str "transactions", sample_transactions) ].

Definition sample_urlencode (params : list (pystr * pyval)) : pystr :=
  str "startDate=2015-01-01&endDate=2015-12-31&sportId=1".

Definition sample_network (n : nat) (url : pystr) : result pyval := Ok sample_payload.



(** The URL [main] requests for the year [y]. *)
Definition year_url (urlencode : list (pystr * pyval) -> pystr) (y : Z) : pystr :=
  build_url urlencode (str_of_int y ++ str "-01-01") (str_of_int y ++ str "-12-31") 1.

(** The request [n] of the run fails. *)
Definition request_fails (net : nat -> pystr -> result pyval) (n : nat) (url : pystr) : Prop :=
  exists e, net n url = Raise e.

(** An [int] flag of the classifier: 0 or 1. *)
Definition is_flag (z : Z) : Prop := z = 0 \/ z = 1.

Section RowShape.
Context {U : UnicodeDB}.

(** The description of the row is a string and its flags are the
    classification of that string. *)
Definition classified (r : FlatRow) : Prop :=
  exists s, description r = PStr s /\ classify_injury (PStr s) = Ok (flags r).

(** The event date of the row is falsy and the row has no year, or it is
    a string that is not empty and the year is [int] of its first four
    characters. *)
Definition dated (r : FlatRow) : Prop :=
  (truthy (event_date r) = false /\ year r = None) \/
  (exists c s y, event_date r = PStr (c :: s) /\
                 int_of_str (firstn 4 (c :: s)) = Ok y /\ year r = Some y).

End RowShape.

(** The values of a row under the columns of the injury table and of a
    daily row under the columns of the daily table. *)
Definition injury_values (r : FlatRow) : list pyval :=
  List.map (fun k => match items_get (flat_row_items r) k with Some v => v | None => PNone end)
    INJURY_COLUMNS.

Definition daily_values (o : Daily.row) : list pyval :=
  List.map (fun k => match items_get (daily_row_items o) k with Some v => v | None => PNone end)
    DAILY_COLUMNS.

(** The first and the last day of the series of a run. *)
Definition first_day (args : Args) : PyDate.t := PyDate.mk (start_year args) 1 1.
Definition last_day (args : Args) : PyDate.t := PyDate.mk (end_year args) 12 31.

(** The rows that are events of the day [d], in the order of [rows]. *)
Definition rows_on (d : PyDate.t) (rows : list FlatRow) : list FlatRow :=
  List.filter (on_day d) rows.

(** The row of the daily table for the day [d], read off the rows of the
    day: how many they are, and the sums of their flags. *)
Definition day_stats (rows : list FlatRow) (d : PyDate.t) : Daily.row :=
  let on := rows_on d rows in
  {| Daily.date := PyDate.isoformat d;
     Daily.year := PyDate.year d;
     Daily.injury_registrations :=
       sum_Z (List.map (fun r => count_as_new_injury_registration (flags r)) on);
     Daily.injury_related_transactions := Z.of_nat (length on);
     Daily.il_activations := sum_Z (List.map (fun r => is_il_activation (flags r)) on);
     Daily.il_transfers := sum_Z (List.map (fun r => is_il_transfer (flags r)) on);
     Daily.rehab_assignments := sum_Z (List.map (fun r => is_rehab_assignment (flags r)) on) |}.

(** The counters of a row of the daily table are counts of rows of the
    day: none is negative, and registrations and transfers together, the
    activations and the rehab assignments are each at most the number of
    injury transactions of the day. *)
Definition counters_bounded (o : Daily.row) : Prop :=
  0 <= Daily.injury_registrations o /\ 0 <= Daily.il_transfers o /\
  0 <= Daily.il_activations o /\ 0 <= Daily.rehab_assignments o /\
  Daily.injury_registrations o + Daily.il_transfers o <= Daily.injury_related_transactions o /\
  Daily.il_activations o <= Daily.injury_related_transactions o /\
  Daily.rehab_assignments o <= Daily.injury_related_transactions o.

(** Two transactions to run the flattener on: a placement dated
    2015-01-02 and a placement with no date. *)
Definition sample_records : list pyval :=
  [ PDict [ (str "id", PInt 1);
            (str "date", PStr (str "2015-01-02"));
            (str "description", PStr (str "Player X placed on the 10-day injured list")) ];
    PDict [ (str "id", PInt 2);
            (str "description", PStr (str "Player Y placed on the 60-day injured list")) ] ].

(** The pattern has no capturing group. *)
Fixpoint no_group (r : regex) : bool :=
  match r with
  | REmpty | RLit _ | RWordB | RAnyLazy => true
  | RSeq r1 r2 | RAlt r1 r2 => no_group r1 && no_group r2
  | RGroup _ _ => false
  end.

(** The values [il_days_bucket] takes. *)
Definition BUCKETS : list (option pystr) :=
  [ None; Some (str "7-day"); Some (str "10-day"); Some (str "15-day");
    Some (str "60-day"); Some (str "covid-19"); Some (str "concussion") ].

(** What [classify_injury] returns on a description with no text. *)
Definition NO_INJURY : Flags :=
  {| is_injury_related := 0;
     injury_event_type := str "non_injury";
     is_il_placement := 0;
     is_il_activation := 0;
     is_il_transfer := 0;
     is_rehab_assignment := 0;
     is_covid_il := 0;
     il_days_bucket := None;
     count_as_new_injury_registration := 0 |}.

(** A description with no text: a falsy value, or a string of white
    space. *)
Definition blank (v : pyval) : Prop :=
  truthy v = false \/ exists d, v = PStr d /\ forallb isspace d = true.

(** The value of a decimal literal read so far, one digit more. *)
Definition digit_value (acc : Z) (c : N) : Z := acc * 10 + (Z.of_N c - 48).

(** [date.toordinal()]: the number of the day, 0001-01-01 being day 1:
    the days of the years before, of the months before in the year, and
    the day of the month. *)
Definition days_before_year (y : Z) : Z :=
  (y - 1) * 365 + (y - 1) / 4 - (y - 1) / 100 + (y - 1) / 400.

Definition days_before_month (y m : Z) : Z :=
  sum_Z (List.map (fun k => PyDate.days_in_month y (Z.of_nat k)) (seq 1 (Z.to_nat (m - 1)))).

Definition toordinal (d : PyDate.t) : Z :=
  days_before_year (PyDate.year d) + days_before_month (PyDate.year d) (PyDate.month d)
  + PyDate.day d.

(** The days of the year [y]. *)
Definition days_in_year (y : Z) : Z := if PyDate.is_leap y then 366 else 365.

(** A transaction with a date, and one whose date is a number. *)
Definition sample_record : pyval :=
  PDict [ (str "id", PInt 1);
          (str "date", PStr (str "2015-01-02"));
          (str "description", PStr (str "Player X placed on the 10-day injured list")) ].

Definition misdated_record : pyval :=
  PDict [ (str "id", PInt 1);
          (str "date", PInt 20150102);
          (str "description", PStr (str "Player X placed on the 10-day injured list")) ].

(** The years of a loop of [todo] turns that starts at [year]. *)
Definition years_from (year : Z) (todo : nat) : list Z :=
  List.map (fun k => year + Z.of_nat k) (seq 0 todo).

Section Payload.
Context {U : UnicodeDB}.

(** The rows of a payload: its [transactions], none when it has no
    such key, flattened in their order. *)
Definition flatten_payload (payload : pyval) : result (list FlatRow) :=
  txs <- py_get_default payload (str "transactions") (PList []) ;;
  _ <- py_len txs ;;
  txs <- py_iter txs ;;
  mapM flatten_transaction txs.

End Payload.

(** The lower case of an ASCII character: what [str.lower] does to it. *)
Definition ascii_fold (c : N) : N := if is_ascii_upper c then (c + 32)%N else c.

(** A string of ASCII characters. *)
Definition is_ascii (s : pystr) : bool := forallb (fun c => (c <? 128)%N) s.

(** A state of the matcher with the ASCII letters of its texts in lower
    case. *)
Definition fold_state (st : mstate) : mstate :=
  MState (option_map ascii_fold (ms_prev st))
         (List.map ascii_fold (ms_rest st))
         (ms_pos st)
         (List.map (fun g : nat * pystr => (fst g, List.map ascii_fold (snd g))) (ms_groups st)).

(** The text holds the phrases in order, one after the end of the
    other: for each list of [phrases], one of its alternatives. *)
Fixpoint in_order (phrases : list (list pystr)) (text : pystr) : Prop :=
  match phrases with
  | [] => True
  | alts :: phrases' =>
      exists pre kw post, In kw alts /\ text = pre ++ kw ++ post /\ in_order phrases' post
  end.

(** The two names of the list. *)
Definition IL_LISTS : list pystr := [ str "injured list"; str "disabled list" ].

(** What a part of a pattern consumes is, case aside, one of [alts]. *)
Definition consumes (r : regex) (alts : list pystr) : Prop :=
  Forall (fun kw => forallb pattern_char kw = true) alts /\
  forall seg, accepts r seg ->
    exists kw, In kw alts /\ Forall2 (fun p c => lit_matches p c = true) kw seg.

(** The phrases of the parts of a pattern that are neither [\b] nor
    [.*?]. *)
Fixpoint phrases_of (spec : list (option (list pystr))) : list (list pystr) :=
  match spec with
  | [] => []
  | Some alts :: spec' => alts :: phrases_of spec'
  | None :: spec' => phrases_of spec'
  end.

(** A network that never answers. *)
Definition dead_network (n : nat) (url : pystr) : result pyval := Raise ValueError.

(** * The classifier *)

Section ClassifierFacts.
Context {U : UnicodeDB}.

(** On a string the classifier returns, and every flag is a function of
    the stripped text. *)
Lemma classify_injury_str (d : pystr) :
  exists f,
    classify_injury (PStr d) = Ok f /\
    is_injury_related f =
      int_of_bool (existsb (fun k => contains k (lower (strip d))) INJURY_KEYWORDS) /\
    is_il_placement f = int_of_bool (found (re_search IL_PLACEMENT_RE (strip d))) /\
    is_il_transfer f = int_of_bool (found (re_search IL_TRANSFER_RE (strip d))) /\
    is_il_activation f = int_of_bool (found (re_search IL_ACTIVATION_RE (strip d))) /\
    is_rehab_assignment f = int_of_bool (found (re_search REHAB_ASSIGNMENT_RE (strip d))) /\
    is_covid_il f = int_of_bool (contains (str "covid-19 injured list") (lower (strip d))) /\
    injury_event_type f = event_type_by_priority f /\
    count_as_new_injury_registration f =
      int_of_bool (found (re_search IL_PLACEMENT_RE (strip d))
                   && negb (found (re_search IL_TRANSFER_RE (strip d)))).
Proof.
  assert (Hs : py_strip (py_or (PStr d) (PStr [])) = Ok (strip d)) by (destruct d; reflexivity).
  unfold classify_injury. rewrite Hs. cbv beta iota delta [bind].
  eexists. split; [reflexivity|].
  cbv beta iota delta [is_injury_related is_il_placement is_il_transfer is_il_activation
    is_rehab_assignment is_covid_il injury_event_type count_as_new_injury_registration
    event_type_by_priority].
  repeat split.
  destruct (found (re_search IL_TRANSFER_RE (strip d)));
    destruct (found (re_search IL_PLACEMENT_RE (strip d)));
    destruct (found (re_search IL_ACTIVATION_RE (strip d)));
    destruct (found (re_search REHAB_ASSIGNMENT_RE (strip d)));
    destruct (existsb (fun k => contains k (lower (strip d))) INJURY_KEYWORDS);
    reflexivity.
Qed.

Lemma int_of_bool_1 (b : bool) : int_of_bool b = 1 <-> b = true.
Proof. destruct b; simpl; split; intros H; try reflexivity; discriminate. Qed.

Lemma int_of_bool_0 (b : bool) : int_of_bool b = 0 <-> b = false.
Proof. destruct b; simpl; split; intros H; try reflexivity; discriminate. Qed.

(** C1: for every description string [classify_injury] returns, and its
    [injury_event_type] is the one value among the six that the priority
    order transfer, placement, activation, rehab, injury keyword selects:
    the first category whose flag is set, [non_injury] when none is. *)
Theorem classify_injury_event_type_priority (d : pystr) :
  exists f,
    classify_injury (PStr d) = Ok f /\
    injury_event_type f = event_type_by_priority f /\
    In (injury_event_type f) EVENT_TYPES /\
    NoDup EVENT_TYPES.
Proof.
  destruct (classify_injury_str d) as (f & Hf & _ & _ & _ & _ & _ & _ & Hty & _).
  exists f. split; [exact Hf|]. split; [exact Hty|]. split.
  - rewrite Hty. unfold event_type_by_priority, EVENT_TYPES.
    repeat match goal with |- context [if ?b then _ else _] => destruct b end;
      simpl; tauto.
  - unfold EVENT_TYPES. apply NoDup_ListNoDup. vm_compute.
    repeat (constructor; [intros H; repeat (destruct H as [H|H]; [discriminate H|]); exact H|]).
    constructor.
Qed.

(** C2: for every description string, [count_as_new_injury_registration]
    is 1 exactly when [is_il_placement] is 1 and [is_il_transfer] is 0, and
    is 0 otherwise; it is never 1 when [is_il_placement] is 0. *)
Theorem count_as_new_iff_placement_not_transfer (d : pystr) :
  exists f,
    classify_injury (PStr d) = Ok f /\
    (count_as_new_injury_registration f = 1 <->
       is_il_placement f = 1 /\ is_il_transfer f = 0) /\
    (count_as_new_injury_registration f = 1 \/ count_as_new_injury_registration f = 0) /\
    (is_il_placement f = 0 -> count_as_new_injury_registration f <> 1).
Proof.
  destruct (classify_injury_str d) as (f & Hf & _ & Hp & Ht & _ & _ & _ & _ & Hc).
  exists f. split; [exact Hf|]. rewrite Hc, Hp, Ht.
  destruct (found (re_search IL_PLACEMENT_RE (strip d)));
    destruct (found (re_search IL_TRANSFER_RE (strip d))); simpl;
    repeat split; intros; try tauto; try lia; try (right; reflexivity); try (left; reflexivity).
Qed.

(** C8: the description "Player X placed on the 10-day injured list
    retroactive to date" is an injury-related placement, no transfer, of
    the 10-day list, and counts as a new registration. *)
Theorem classify_placement_example :
  classify_injury
    (PStr (str "Player X placed on the 10-day injured list retroactive to date")) =
  Ok {| is_injury_related := 1;
        injury_event_type := str "il_placement";
        is_il_placement := 1;
        is_il_activation := 0;
        is_il_transfer := 0;
        is_rehab_assignment := 0;
        is_covid_il := 0;
        il_days_bucket := Some (str "10-day");
        count_as_new_injury_registration := 1 |}.
Proof. vm_compute. reflexivity. Qed.

End ClassifierFacts.

(** ** Matches and keywords *)

Section MatcherFacts.
Context {U : UnicodeDB}.

Lemma any_lazy_sound k prev rest pos groups m :
  any_lazy k prev rest pos groups = Some m ->
  exists seg st', rest = seg ++ ms_rest st' /\ k st' = Some m.
Proof.
  revert prev pos. induction rest as [|c rest IH]; intros prev pos; simpl.
  - destruct (k (MState prev [] pos groups)) eqn:Hk; [|discriminate].
    intros [= <-]. exists [], (MState prev [] pos groups). auto.
  - destruct (k (MState prev (c :: rest) pos groups)) eqn:Hk.
    + intros [= <-]. exists [], (MState prev (c :: rest) pos groups). auto.
    + destruct (c =? 10)%N; [discriminate|]. intros H.
      destruct (IH _ _ H) as (seg & st' & -> & Hst).
      exists (c :: seg), st'. auto.
Qed.

Lemma rmatch_sound r : forall k st m,
  rmatch r k st = Some m ->
  exists seg st', ms_rest st = seg ++ ms_rest st' /\ accepts r seg /\ k st' = Some m.
Proof.
  induction r as [|p| | |r1 IH1 r2 IH2|r1 IH1 r2 IH2|n r1 IH1]; intros k st m; simpl.
  - intros H. exists [], st. auto.
  - destruct (ms_rest st) as [|c rest'] eqn:Hrest; [discriminate|].
    destruct (lit_matches p c) eqn:Hp; [|discriminate]. intros H.
    exists [c], (advance st c rest'). simpl. eauto.
  - destruct (at_boundary st); [|discriminate]. intros H. exists [], st. auto.
  - intros H. destruct (any_lazy_sound _ _ _ _ _ _ H) as (seg & st' & Hseg & Hk).
    exists seg, st'. auto.
  - intros H. destruct (IH1 _ _ _ H) as (s1 & st1 & E1 & A1 & H1).
    destruct (IH2 _ _ _ H1) as (s2 & st2 & E2 & A2 & H2).
    exists (s1 ++ s2), st2. rewrite E1, E2, app_assoc. eauto 8.
  - destruct (rmatch r1 k st) eqn:H1.
    + intros [= <-]. destruct (IH1 _ _ _ H1) as (s & st' & ? & ? & ?). eauto 8.
    + intros H2. destruct (IH2 _ _ _ H2) as (s & st' & ? & ? & ?). eauto 8.
  - intros H. destruct (IH1 _ _ _ H) as (s & st' & E & A & Hk).
    exists s, (set_group n st st'). auto.
Qed.

Lemma search_from_sound r rest : forall prev pos m,
  search_from r prev rest pos = Some m ->
  exists pre seg post, rest = pre ++ seg ++ post /\ accepts r seg.
Proof.
  induction rest as [|c rest IH]; intros prev pos m; simpl.
  - destruct (rmatch r Some (MState prev [] pos [])) eqn:H; [|discriminate].
    intros _. destruct (rmatch_sound _ _ _ _ H) as (seg & st' & E & A & _).
    simpl in E. exists [], seg, (ms_rest st'). auto.
  - destruct (rmatch r Some (MState prev (c :: rest) pos [])) eqn:H.
    + intros _. destruct (rmatch_sound _ _ _ _ H) as (seg & st' & E & A & _).
      simpl in E. exists [], seg, (ms_rest st'). auto.
    + intros H'. destruct (IH _ _ _ H') as (pre & seg & post & -> & A).
      exists (c :: pre), seg, post. auto.
Qed.

Lemma found_search r text :
  found (re_search r text) = true ->
  exists pre seg post, text = pre ++ seg ++ post /\ accepts r seg.
Proof.
  unfold re_search. destruct (search_from r None text 0) eqn:H; [|discriminate].
  intros _. eapply search_from_sound; eauto.
Qed.

End MatcherFacts.

Lemma accepts_rseq_part (r : regex) (rs : list regex) : forall seg,
  In r rs -> accepts (rseq rs) seg ->
  exists a x b, seg = a ++ x ++ b /\ accepts r x.
Proof.
  induction rs as [|r0 rs IH]; intros seg Hin; simpl in *; [contradiction|].
  intros (s1 & s2 & -> & A1 & A2). destruct Hin as [->|Hin].
  - exists [], s1, s2. auto.
  - destruct (IH _ Hin A2) as (a & x & b & -> & A). exists (s1 ++ a), x, b.
    rewrite <- app_assoc. auto.
Qed.

Lemma accepts_rlit (s : pystr) : forall seg,
  accepts (rlit s) seg -> Forall2 (fun p c => lit_matches p c = true) s seg.
Proof.
  induction s as [|p s IH]; intros seg; simpl.
  - intros ->. constructor.
  - intros (s1 & s2 & -> & (c & -> & Hc) & A2). simpl. constructor; auto.
Qed.

Lemma accepts_il_list (x : pystr) :
  accepts il_list x ->
  Forall2 (fun p c => lit_matches p c = true) (str "injured list") x \/
  Forall2 (fun p c => lit_matches p c = true) (str "disabled list") x.
Proof.
  intros H. unfold il_list in H.
  destruct H as (s1 & s2 & -> & [A1|A1] & A2);
    apply accepts_rlit in A1; apply accepts_rlit in A2; [left|right].
  - change (str "injured list") with (str "injured" ++ str " list").
    apply Forall2_app; assumption.
  - change (str "disabled list") with (str "disabled" ++ str " list").
    apply Forall2_app; assumption.
Qed.

Section LowerFacts.
Context {U : UnicodeDB}.

Lemma lower_char_matched text i p c :
  pattern_char p = true -> plain_case c = true -> lit_matches p c = true ->
  lower_char text i c = [p].
Proof.
  unfold pattern_char, plain_case, lit_matches, lower_char, is_ascii_upper, is_ascii_lower,
    U_I_DOT, U_DOTLESS_I, U_LONG_S, U_KELVIN.
  intros Hp Hc.
  apply andb_true_iff in Hp as [Hp1 Hp2]. apply N.ltb_lt in Hp1.
  apply negb_true_iff in Hp2. rewrite Hp2.
  apply negb_true_iff in Hc. apply orb_false_iff in Hc as [Hc Hc3].
  apply orb_false_iff in Hc as [Hc1 Hc2].
  apply N.eqb_neq in Hc1, Hc2, Hc3.
  apply andb_false_iff in Hp2.
  destruct ((97 <=? p)%N && (p <=? 122)%N) eqn:Hlow.
  - apply andb_true_iff in Hlow as [L1 L2]. apply N.leb_le in L1, L2.
    intros H. repeat (apply orb_true_iff in H as [H|H]).
    + apply N.eqb_eq in H. subst c.
      replace ((65 <=? p)%N && (p <=? 90)%N) with false
        by (symmetry; apply andb_false_iff; right; apply N.leb_gt; lia).
      replace (p <? 128)%N with true by (symmetry; apply N.ltb_lt; lia). reflexivity.
    + apply N.eqb_eq in H. subst c.
      replace ((65 <=? p - 32)%N && (p - 32 <=? 90)%N) with true
        by (symmetry; apply andb_true_iff; split; apply N.leb_le; lia).
      f_equal. lia.
    + apply andb_true_iff in H as [_ H]. apply orb_true_iff in H as [H|H];
        apply N.eqb_eq in H; contradiction.
    + apply andb_true_iff in H as [_ H]. apply N.eqb_eq in H. contradiction.
    + apply andb_true_iff in H as [H1 H]. apply N.eqb_eq in H1, H. subst. reflexivity.
  - intros H. apply N.eqb_eq in H. subst c.
    replace ((65 <=? p)%N && (p <=? 90)%N) with false
      by (symmetry; apply andb_false_iff; destruct Hp2 as [Hp2|Hp2];
          [left|right]; exact Hp2).
    replace (p <? 128)%N with true by (symmetry; apply N.ltb_lt; lia). reflexivity.
Qed.

Lemma lower_from_matched text kw : forall x i,
  forallb pattern_char kw = true -> forallb plain_case x = true ->
  Forall2 (fun p c => lit_matches p c = true) kw x ->
  lower_from text i x = kw.
Proof.
  induction kw as [|p kw IH]; intros x i Hkw Hx HF; inversion HF; subst; simpl in *.
  - reflexivity.
  - apply andb_true_iff in Hkw as [Hp Hkw]. apply andb_true_iff in Hx as [Hc Hx].
    rewrite (lower_char_matched _ _ p) by assumption. simpl. f_equal. auto.
Qed.

Lemma lower_from_app text : forall a b i,
  lower_from text i (a ++ b) = lower_from text i a ++ lower_from text (i + length a) b.
Proof.
  induction a as [|c a IH]; intros b i; simpl.
  - rewrite Nat.add_0_r. reflexivity.
  - rewrite IH, <- app_assoc, Nat.add_succ_r. reflexivity.
Qed.

End LowerFacts.

Lemma startswith_app (kw b : pystr) : startswith (kw ++ b) kw = true.
Proof.
  induction kw as [|p kw IH]; simpl; [destruct b; reflexivity|].
  rewrite N.eqb_refl. exact IH.
Qed.

Lemma contains_startswith (kw hay : pystr) :
  startswith hay kw = true -> contains kw hay = true.
Proof. intros H. destruct hay; cbn [contains]; rewrite H; reflexivity. Qed.

Lemma contains_app (kw a b : pystr) : contains kw (a ++ kw ++ b) = true.
Proof.
  induction a as [|c a IH]; simpl.
  - apply contains_startswith, startswith_app.
  - rewrite IH. apply orb_true_r.
Qed.

Lemma forallb_app_inv {A} (f : A -> bool) (a b : list A) :
  forallb f (a ++ b) = true -> forallb f a = true /\ forallb f b = true.
Proof. rewrite forallb_app. apply andb_true_iff. Qed.

Lemma lstrip_suffix (s : pystr) : exists pre, s = pre ++ lstrip s.
Proof.
  induction s as [|c s [pre IH]]; simpl.
  - exists []. reflexivity.
  - destruct (isspace c).
    + exists (c :: pre). simpl. congruence.
    + exists []. reflexivity.
Qed.

Lemma strip_infix (s : pystr) : exists pre post, s = pre ++ strip s ++ post.
Proof.
  unfold strip. destruct (lstrip_suffix s) as [pre E].
  destruct (lstrip_suffix (rev (lstrip s))) as [post' E'].
  exists pre, (rev post'). rewrite <- rev_app_distr, <- E', rev_involutive. exact E.
Qed.

Lemma forallb_strip (f : N -> bool) (s : pystr) :
  forallb f s = true -> forallb f (strip s) = true.
Proof.
  destruct (strip_infix s) as (pre & post & E). rewrite E at 1.
  intros H. apply forallb_app_inv in H as [_ H]. apply forallb_app_inv in H as [H _]. exact H.
Qed.

Section KeywordFacts.
Context {U : UnicodeDB}.

(** A stretch of plain text that a literal of a pattern matches shows in
    the lower-cased text as the literal itself. *)
Lemma matched_literal_in_lower (kw text pre x post : pystr) :
  forallb pattern_char kw = true -> forallb plain_case text = true ->
  text = pre ++ x ++ post ->
  Forall2 (fun p c => lit_matches p c = true) kw x ->
  contains kw (lower text) = true.
Proof.
  intros Hkw Htext E HF. unfold lower.
  assert (Hx : forallb plain_case x = true).
  { rewrite E in Htext. apply forallb_app_inv in Htext as [_ H].
    apply forallb_app_inv in H as [H _]. exact H. }
  rewrite E at 2. rewrite !lower_from_app.
  rewrite (lower_from_matched text kw x _ Hkw Hx HF).
  apply contains_app.
Qed.

Lemma il_list_in_lower (text pre seg post : pystr) (rs : list regex) :
  forallb plain_case text = true ->
  In il_list rs -> text = pre ++ seg ++ post -> accepts (rseq rs) seg ->
  existsb (fun k => contains k (lower text)) INJURY_KEYWORDS = true.
Proof.
  intros Htext Hin E A.
  destruct (accepts_rseq_part _ _ _ Hin A) as (a & x & b & -> & Ax).
  assert (E' : text = (pre ++ a) ++ x ++ (b ++ post))
    by (rewrite E, <- !app_assoc; reflexivity).
  unfold INJURY_KEYWORDS. simpl existsb.
  destruct (accepts_il_list _ Ax) as [HF|HF].
  - rewrite (matched_literal_in_lower (str "injured list") _ _ _ _ eq_refl Htext E' HF).
    reflexivity.
  - rewrite (matched_literal_in_lower (str "disabled list") _ _ _ _ eq_refl Htext E' HF).
    apply orb_true_iff. right. reflexivity.
Qed.

End KeywordFacts.

Section RelatedFacts.
Context {U : UnicodeDB}.

Lemma il_pattern_in_keywords (text : pystr) (rs : list regex) :
  forallb plain_case text = true -> In il_list rs ->
  found (re_search (rseq rs) text) = true ->
  existsb (fun k => contains k (lower text)) INJURY_KEYWORDS = true.
Proof.
  intros Htext Hin Hfound.
  destruct (found_search _ _ Hfound) as (pre & seg & post & E & A).
  exact (il_list_in_lower _ _ _ _ _ Htext Hin E A).
Qed.

Lemma rehab_in_keywords (text : pystr) :
  forallb plain_case text = true ->
  found (re_search REHAB_ASSIGNMENT_RE text) = true ->
  existsb (fun k => contains k (lower text)) INJURY_KEYWORDS = true.
Proof.
  intros Htext Hfound.
  destruct (found_search _ _ Hfound) as (pre & seg & post & E & A).
  unfold REHAB_ASSIGNMENT_RE in A.
  assert (Hin : In (rlit (str "rehab assignment"))
                   [RWordB; rlit (str "rehab assignment"); RWordB])
    by (right; left; reflexivity).
  destruct (accepts_rseq_part _ _ _ Hin A) as (a & x & b & -> & Ax).
  apply accepts_rlit in Ax.
  assert (E' : text = (pre ++ a) ++ x ++ (b ++ post))
    by (rewrite E, <- !app_assoc; reflexivity).
  unfold INJURY_KEYWORDS. cbn [existsb].
  rewrite (matched_literal_in_lower (str "rehab assignment") _ _ _ _ eq_refl Htext E' Ax).
  rewrite !orb_true_r. reflexivity.
Qed.

Lemma covid_in_keywords (text : pystr) :
  contains (str "covid-19 injured list") (lower text) = true ->
  existsb (fun k => contains k (lower text)) INJURY_KEYWORDS = true.
Proof.
  intros H. unfold INJURY_KEYWORDS. cbn [existsb]. rewrite H.
  rewrite !orb_true_r. reflexivity.
Qed.

(** C10, amended: for every description string without the letters
    U+0130, U+0131 and U+017F, a set placement, transfer, activation, rehab
    or covid flag forces [is_injury_related], and [injury_event_type] is
    [non_injury] exactly when [is_injury_related] is 0. *)
Theorem specific_flag_implies_injury_related (d : pystr) :
  forallb plain_case d = true ->
  exists f,
    classify_injury (PStr d) = Ok f /\
    specific_flags_imply_related f /\
    non_injury_iff_unrelated f.
Proof.
  intros Hd. apply forallb_strip in Hd.
  destruct (classify_injury_str d) as (f & Hf & Hrel & Hp & Ht & Ha & Hr & Hc & Hty & _).
  exists f. split; [exact Hf|].
  assert (K : specific_flags_imply_related f).
  { unfold specific_flags_imply_related. rewrite Hrel, Hp, Ht, Ha, Hr, Hc.
    rewrite !int_of_bool_1. intros [H|[H|[H|[H|H]]]].
    - apply (il_pattern_in_keywords _ _ Hd) in H; [exact H|].
      repeat (first [left; reflexivity | right]).
    - apply (il_pattern_in_keywords _ _ Hd) in H; [exact H|].
      repeat (first [left; reflexivity | right]).
    - apply (il_pattern_in_keywords _ _ Hd) in H; [exact H|].
      repeat (first [left; reflexivity | right]).
    - apply rehab_in_keywords; assumption.
    - apply covid_in_keywords; assumption. }
  split; [exact K|].
  unfold non_injury_iff_unrelated, specific_flags_imply_related in *.
  rewrite Hty. unfold event_type_by_priority.
  rewrite Hrel, Hp, Ht, Ha, Hr, Hc in *.
  destruct (found (re_search IL_TRANSFER_RE (strip d)));
    destruct (found (re_search IL_PLACEMENT_RE (strip d)));
    destruct (found (re_search IL_ACTIVATION_RE (strip d)));
    destruct (found (re_search REHAB_ASSIGNMENT_RE (strip d)));
    destruct (contains (str "covid-19 injured list") (lower (strip d)));
    destruct (existsb (fun k => contains k (lower (strip d))) INJURY_KEYWORDS);
    cbn [int_of_bool Z.eqb Pos.eqb] in *;
    (split; [intros E; try reflexivity; try (vm_compute in E; discriminate E)
            | intros E; try reflexivity; try discriminate E]);
    exfalso; (assert (E1 : 1 = 1) by reflexivity);
    (assert (K' : 0 = 1) by (apply K; tauto)); discriminate K'.
Qed.

End RelatedFacts.

Lemma long_s_placement_not_injury_related :
  ~ (exists (U : UnicodeDB) (f : Flags),
       classify_injury (PStr (str "placed on the injured li" ++ [U_LONG_S] ++ str "t")) = Ok f /\
       specific_flags_imply_related f).
Proof.
  intros (U & f & Hf & H). vm_compute in Hf. injection Hf as <-.
  unfold specific_flags_imply_related in H. cbn in H.
  assert (E : 0 = 1) by (apply H; left; reflexivity). discriminate E.
Qed.

Lemma specific_flag_implies_injury_related_witness :
  forallb plain_case (str "Player X activated from the 60-day injured list") = true /\
  exists f,
    @classify_injury ascii_db
      (PStr (str "Player X activated from the 60-day injured list")) = Ok f /\
    specific_flags_imply_related f /\
    non_injury_iff_unrelated f.
Proof.
  split; [reflexivity|].
  apply (@specific_flag_implies_injury_related ascii_db). reflexivity.
Defined.

(** * The flattener *)

Section FlattenerFacts.
Context {U : UnicodeDB}.

Lemma classify_injury_ok (v : pyval) :
  truthy v = false \/ (exists s, v = PStr s) ->
  exists f, classify_injury (py_or v (PStr [])) = Ok f.
Proof.
  intros [Hv|[s ->]]; unfold py_or at 1.
  - rewrite Hv. destruct (classify_injury_str []) as (f & Hf & _). eauto.
  - destruct (truthy (PStr s)).
    + destruct (classify_injury_str s) as (f & Hf & _). eauto.
    + destruct (classify_injury_str []) as (f & Hf & _). eauto.
Qed.

Lemma classify_injury_raises (v : pyval) :
  truthy v = true -> (forall s, v <> PStr s) ->
  classify_injury (py_or v (PStr [])) = Raise AttributeError.
Proof.
  intros Hv Hs. unfold py_or. rewrite Hv.
  unfold classify_injury, py_or. rewrite Hv.
  destruct v; try reflexivity. exfalso. eapply Hs. reflexivity.
Qed.

(** C6, amended: in the row [flatten_transaction] returns, the event
    date is the first truthy value among the record date, the effective date
    and the resolution date, and the value of the resolution date when none
    is truthy; the year is the integer read from the first four characters
    of a truthy event date, and absent when the event date is falsy. *)
Theorem event_date_is_first_truthy (tx : list (pystr * pyval)) (r : FlatRow) :
  flatten_transaction (PDict tx) = Ok r ->
  event_date r = first_truthy_or_last (record_dates tx) /\
  (truthy (event_date r) = true ->
   exists s y, event_date r = PStr s /\ int_of_str (firstn 4 s) = Ok y /\ year r = Some y) /\
  (truthy (event_date r) = false -> year r = None).
Proof.
  intros Hr. unfold flatten_transaction in Hr.
  destruct (if truthy (choose_event_date tx)
            then y <- int_of_first4 (choose_event_date tx);; Ok (Some y)
            else Ok None) as [yr|e] eqn:Hyr; [|discriminate Hr].
  cbn [bind] in Hr.
  destruct (classify_injury (py_or (dict_get tx "description") (PStr []))) as [f|e] eqn:Hf;
    [|discriminate Hr].
  cbn [bind] in Hr. injection Hr as <-. cbn [event_date year].
  split; [|split].
  - unfold choose_event_date, record_dates, first_truthy_or_last, py_or. reflexivity.
  - intros Ht. rewrite Ht in Hyr.
    destruct (choose_event_date tx) eqn:Hd; try discriminate Hyr.
    cbn [int_of_first4] in Hyr.
    destruct (int_of_str (firstn 4 s)) as [y|e] eqn:Hy; [|discriminate Hyr].
    cbn [bind] in Hyr. injection Hyr as <-. eauto.
  - intros Ht. rewrite Ht in Hyr. congruence.
Qed.

End FlattenerFacts.

(** C5: a record with a malformed date is not tolerated.  The date of
    this record does not start with a number: [int] of its first four
    characters raises [ValueError], whatever the character database, and
    [flatten_transaction] returns no row. *)
Theorem malformed_date_raises (U : UnicodeDB) :
  flatten_transaction
    (PDict [ (str "id", PInt 1);
             (str "date", PStr (str "n/a"));
             (str "description", PStr (str "Player X placed on the 10-day injured list")) ])
  = Raise ValueError.
Proof. vm_compute. reflexivity. Qed.

(** An empty record date is not [None] and is not chosen: the event date
    is the effective date. *)
Lemma empty_date_is_skipped :
  ~ (exists (U : UnicodeDB) (r : FlatRow),
       let tx := [ (str "date", PStr []); (str "effectiveDate", PStr (str "2015-04-05")) ] in
       flatten_transaction (PDict tx) = Ok r /\
       event_date r = first_non_null (record_dates tx)).
Proof.
  intros (U & r & Hr & He). vm_compute in Hr. injection Hr as <-.
  vm_compute in He. discriminate He.
Qed.

Lemma event_date_is_first_truthy_witness :
  let tx := [ (str "date", PStr []); (str "effectiveDate", PStr (str "2015-04-05")) ] in
  exists r,
    @flatten_transaction ascii_db (PDict tx) = Ok r /\
    event_date r = first_truthy_or_last (record_dates tx) /\
    (truthy (event_date r) = true ->
     exists s y, event_date r = PStr s /\ @int_of_str ascii_db (firstn 4 s) = Ok y /\
                 year r = Some y) /\
    (truthy (event_date r) = false -> year r = None).
Proof.
  intros tx.
  destruct (@flatten_transaction ascii_db (PDict tx)) as [r|e] eqn:Hr;
    [|vm_compute in Hr; discriminate Hr].
  exists r. split; [reflexivity|].
  exact (@event_date_is_first_truthy ascii_db tx r Hr).
Defined.

(** * Dates *)

Module PyDateFacts.
Import PyDate.

Lemma valid_bounds (d : t) :
  valid d ->
  1 <= year d <= 9999 /\ 1 <= month d <= 12 /\ 1 <= day d <= days_in_month (year d) (month d).
Proof.
  unfold valid, validb, MINYEAR, MAXYEAR. intros H.
  repeat (apply andb_true_iff in H as [H ?]).
  repeat match goal with H : (_ <=? _) = true |- _ => apply Z.leb_le in H end. lia.
Qed.

Lemma bounds_valid (d : t) :
  1 <= year d <= 9999 -> 1 <= month d <= 12 ->
  1 <= day d <= days_in_month (year d) (month d) -> valid d.
Proof.
  intros Hy Hm Hd. unfold valid, validb, MINYEAR, MAXYEAR.
  repeat (apply andb_true_iff; split); apply Z.leb_le; lia.
Qed.

Lemma days_in_month_bounds (y m : Z) : 28 <= days_in_month y m <= 31.
Proof.
  unfold days_in_month.
  destruct (m =? 2); [destruct (is_leap y); lia|].
  destruct ((m =? 4) || (m =? 6) || (m =? 9) || (m =? 11)); lia.
Qed.

Lemma days_in_december (y : Z) : days_in_month y 12 = 31.
Proof. reflexivity. Qed.

Lemma ltb_rank (a b : t) :
  valid a -> valid b -> (ltb a b = true <-> rank a < rank b).
Proof.
  intros Ha Hb. apply valid_bounds in Ha, Hb.
  pose proof (days_in_month_bounds (year a) (month a)).
  pose proof (days_in_month_bounds (year b) (month b)).
  unfold ltb, rank.
  rewrite !orb_true_iff, !andb_true_iff, !orb_true_iff, !andb_true_iff,
    !Z.ltb_lt, !Z.eqb_eq. lia.
Qed.

Lemma leb_rank (a b : t) :
  valid a -> valid b -> (leb a b = true <-> rank a <= rank b).
Proof.
  intros Ha Hb. unfold leb. rewrite negb_true_iff.
  pose proof (ltb_rank b a Hb Ha) as H.
  destruct (ltb b a); split; intros; try discriminate; try reflexivity; lia.
Qed.

Lemma rank_inj (a b : t) : valid a -> valid b -> rank a = rank b -> a = b.
Proof.
  intros Ha Hb. apply valid_bounds in Ha, Hb.
  pose proof (days_in_month_bounds (year a) (month a)).
  pose proof (days_in_month_bounds (year b) (month b)).
  destruct a as [ya ma da], b as [yb mb db]. unfold rank. simpl in *.
  intros E. assert (ya = yb /\ ma = mb /\ da = db) as (-> & -> & ->) by lia. reflexivity.
Qed.

(** The day after a valid date other than [date.max]: valid, later, and
    with no valid date in between. *)
Lemma add_day_next (d : t) :
  valid d -> d <> max ->
  exists d', add_day d = Ok d' /\ valid d' /\ rank d < rank d' /\
             forall x, valid x -> rank d < rank x -> rank d' <= rank x.
Proof.
  intros Hd Hmax. pose proof (valid_bounds d Hd) as (Hy & Hm & Hday).
  pose proof (days_in_month_bounds (year d) (month d)) as Hdim.
  unfold add_day, MAXYEAR.
  destruct (day d <? days_in_month (year d) (month d)) eqn:E1.
  - apply Z.ltb_lt in E1. eexists. split; [reflexivity|]. split; [|split].
    + apply bounds_valid; simpl; lia.
    + unfold rank. simpl. lia.
    + intros x Hx. apply valid_bounds in Hx.
      pose proof (days_in_month_bounds (year x) (month x)).
      unfold rank. simpl. lia.
  - apply Z.ltb_ge in E1. assert (Eday : day d = days_in_month (year d) (month d)) by lia.
    destruct (month d <? 12) eqn:E2.
    + apply Z.ltb_lt in E2. eexists. split; [reflexivity|]. split; [|split].
      * apply bounds_valid; simpl; try lia.
        pose proof (days_in_month_bounds (year d) (month d + 1)). lia.
      * unfold rank. simpl. lia.
      * intros x Hx Hlt. pose proof (valid_bounds x Hx) as (Hxy & Hxm & Hxd).
        pose proof (days_in_month_bounds (year x) (month x)).
        unfold rank in *. simpl.
        destruct (Z.eq_dec (year x) (year d)) as [Ey|Ny]; [|lia].
        destruct (Z.eq_dec (month x) (month d)) as [Em|Nm]; [|lia].
        rewrite Ey, Em in Hxd. lia.
    + apply Z.ltb_ge in E2. assert (Em : month d = 12) by lia.
      destruct (year d <? 9999) eqn:E3.
      * apply Z.ltb_lt in E3. eexists. split; [reflexivity|]. split; [|split].
        -- apply bounds_valid; simpl; try lia.
           pose proof (days_in_month_bounds (year d + 1) 1). lia.
        -- unfold rank. simpl. lia.
        -- intros x Hx Hlt. pose proof (valid_bounds x Hx) as (Hxy & Hxm & Hxd).
           pose proof (days_in_month_bounds (year x) (month x)).
           unfold rank in *. simpl.
           destruct (Z.eq_dec (year x) (year d)) as [Ey|Ny]; [|lia].
           destruct (Z.eq_dec (month x) (month d)) as [Emx|Nm]; [|lia].
           rewrite Ey, Emx in Hxd. lia.
      * apply Z.ltb_ge in E3. exfalso. apply Hmax.
        rewrite Em, days_in_december in Eday.
        destruct d as [y m dd]. simpl in *. unfold max. f_equal; lia.
Qed.

Lemma add_day_max : add_day max = Raise OverflowError.
Proof. reflexivity. Qed.

Lemma valid_max : valid max.
Proof. reflexivity. Qed.

Lemma rank_le_max (d : t) : valid d -> rank d <= rank max.
Proof.
  intros Hd. apply valid_bounds in Hd.
  pose proof (days_in_month_bounds (year d) (month d)).
  unfold rank, max. simpl. lia.
Qed.

Lemma length_digits (w : nat) (n : Z) : length (digits w n) = w.
Proof.
  revert n. induction w as [|w IH]; intros n; simpl; [reflexivity|].
  rewrite length_app, IH. simpl. lia.
Qed.

Lemma digits_inj (w : nat) : forall a b,
  0 <= a < 10 ^ Z.of_nat w -> 0 <= b < 10 ^ Z.of_nat w ->
  digits w a = digits w b -> a = b.
Proof.
  induction w as [|w IH]; intros a b Ha Hb E.
  - simpl in Ha, Hb. lia.
  - simpl in E. apply app_inj_tail in E as [E1 E2].
    rewrite Nat2Z.inj_succ, Z.pow_succ_r in Ha, Hb by lia.
    assert (a / 10 = b / 10).
    { apply IH; [| |exact E1]; split;
        try (apply Z.div_pos; lia); apply Z.div_lt_upper_bound; lia. }
    assert (a mod 10 = b mod 10).
    { pose proof (Z.mod_pos_bound a 10 ltac:(lia)).
      pose proof (Z.mod_pos_bound b 10 ltac:(lia)).
      apply (f_equal Z.of_N) in E2. rewrite !Z2N.id in E2 by lia. lia. }
    rewrite (Z.div_mod a 10), (Z.div_mod b 10) by lia. congruence.
Qed.

Lemma app_inj_length {A} (a a' b b' : list A) :
  length a = length a' -> a ++ b = a' ++ b' -> a = a' /\ b = b'.
Proof.
  revert a'. induction a as [|x a IH]; intros [|x' a'] Hl E; simpl in *; try discriminate.
  - auto.
  - injection E as -> E. injection Hl as Hl. destruct (IH _ Hl E) as [-> ->]. auto.
Qed.

Lemma isoformat_inj (a b : t) : valid a -> valid b -> isoformat a = isoformat b -> a = b.
Proof.
  intros Ha Hb E. apply valid_bounds in Ha, Hb.
  pose proof (days_in_month_bounds (year a) (month a)).
  pose proof (days_in_month_bounds (year b) (month b)).
  unfold isoformat in E.
  apply app_inj_length in E as [Ey E]; [|rewrite !length_digits; reflexivity].
  apply (app_inj_length [45%N] [45%N]) in E as [_ E]; [|reflexivity].
  apply app_inj_length in E as [Em E]; [|rewrite !length_digits; reflexivity].
  apply (app_inj_length [45%N] [45%N]) in E as [_ Ed]; [|reflexivity].
  apply digits_inj in Ey; [|simpl; lia|simpl; lia].
  apply digits_inj in Em; [|simpl; lia|simpl; lia].
  apply digits_inj in Ed; [|simpl; lia|simpl; lia].
  destruct a, b. simpl in *. congruence.
Qed.

Lemma isoformat_nonempty (d : t) : isoformat d <> [].
Proof. unfold isoformat. intros E. apply (f_equal (@length N)) in E.
  rewrite !length_app, !length_digits in E. simpl in E. lia. Qed.

End PyDateFacts.

(** * The daily series *)

Section DaterangeFacts.
Import PyDate PyDateFacts.

Lemma daterange_loop_spec (fuel : nat) : forall cur end_,
  valid cur -> valid end_ -> end_ <> max ->
  Z.max 0 (rank end_ - rank cur + 1) < Z.of_nat fuel ->
  exists ds,
    daterange_loop fuel cur end_ = Ok ds /\
    Forall valid ds /\
    StronglySorted (fun a b => rank a < rank b) ds /\
    (forall x, In x ds <-> valid x /\ rank cur <= rank x <= rank end_).
Proof.
  induction fuel as [|fuel IH]; intros cur end_ Hcur Hend Hmax Hfuel; [lia|].
  cbn [daterange_loop].
  destruct (leb cur end_) eqn:Hle.
  - apply leb_rank in Hle; try assumption.
    assert (Hne : cur <> max).
    { intros ->. apply Hmax. apply rank_inj; [assumption|apply valid_max|].
      pose proof (rank_le_max end_ Hend). lia. }
    destruct (add_day_next cur Hcur Hne) as (next & Hnext & Hv & Hlt & Hmin).
    rewrite Hnext. cbn [bind].
    destruct (IH next end_ Hv Hend Hmax ltac:(lia)) as (ds & Hds & Hall & Hsort & Hin).
    rewrite Hds. cbn [bind]. exists (cur :: ds). split; [reflexivity|].
    split; [constructor; assumption|]. split.
    + constructor; [exact Hsort|]. apply Forall_forall. intros x Hx.
      apply list_elem_of_In, Hin in Hx. lia.
    + intros x. cbn [In]. rewrite Hin. split.
      * intros [<-|(Hx & H1 & H2)]; [split; [assumption|lia]|split; [assumption|lia]].
      * intros (Hx & H1 & H2).
        destruct (Z.eq_dec (rank cur) (rank x)) as [E|N].
        -- left. apply rank_inj; assumption.
        -- right. split; [assumption|]. split; [apply Hmin; [assumption|lia]|lia].
  - exists []. split; [reflexivity|]. split; [constructor|]. split; [constructor|].
    intros x. split; [intros []|]. intros (Hx & H1 & H2).
    assert (leb cur end_ = true) by (apply leb_rank; [assumption|assumption|lia]).
    congruence.
Qed.

(** [daterange] runs to its end on every span that stops before
    [date.max]: its days are the days of the span, each once, in order. *)
Lemma daterange_spec (start end_ : t) :
  valid start -> valid end_ -> end_ <> max ->
  exists ds,
    daterange start end_ = Ok ds /\
    StronglySorted date_lt ds /\
    (forall d, In d ds <-> in_span start end_ d).
Proof.
  intros Hs He Hmax. unfold daterange.
  destruct (daterange_loop_spec (S (Z.to_nat (rank end_ - rank start + 1))) start end_
              Hs He Hmax ltac:(lia)) as (ds & Hds & Hall & Hsort & Hin).
  exists ds. split; [exact Hds|]. split.
  - clear Hds Hin. induction Hsort as [|a l Hs' IH Hfa]; [constructor|].
    inversion Hall; subst. constructor; [apply IH; assumption|].
    rewrite Forall_forall in *. intros x Hx. apply ltb_rank; auto.
  - intros d. rewrite Hin. unfold in_span. split.
    + intros (Hd & H1 & H2). repeat split; [assumption| |]; apply leb_rank; auto.
    + intros (Hd & H1 & H2). apply leb_rank in H1, H2; auto.
Qed.

Lemma daterange_loop_to_max (fuel : nat) : forall start,
  valid start -> Z.max 0 (rank max - rank start + 1) < Z.of_nat fuel ->
  daterange_loop fuel start max = Raise OverflowError.
Proof.
  induction fuel as [|fuel IH]; intros start Hs Hfuel; [lia|].
  cbn [daterange_loop].
  assert (Hle : leb start max = true)
    by (apply leb_rank; [assumption|apply valid_max|apply rank_le_max; assumption]).
  rewrite Hle.
  destruct (Z.eq_dec (rank start) (rank max)) as [E|N].
  { apply rank_inj in E; [subst; reflexivity|assumption|apply valid_max]. }
  assert (Hne : start <> max) by congruence.
  destruct (add_day_next start Hs Hne) as (next & Hnext & Hv & Hlt & _).
  pose proof (rank_le_max start Hs). pose proof (rank_le_max next Hv).
  rewrite Hnext. cbn [bind]. rewrite IH; [reflexivity|assumption|lia].
Qed.

(** Past [date.max] there is no day: a span that ends there raises. *)
Lemma daterange_to_max (start : t) :
  valid start -> daterange start max = Raise OverflowError.
Proof. intros Hs. apply daterange_loop_to_max; [assumption|lia]. Qed.

End DaterangeFacts.
Section TallyFacts.

Lemma tally_ok (by_day : gmap pystr Counter) (row : FlatRow) :
  date_keyable row -> exists m, tally by_day row = Ok m.
Proof.
  unfold date_keyable, tally. intros [H|H].
  - rewrite H. cbn. eauto.
  - destruct (negb (truthy (event_date row))); [eauto|].
    destruct (event_date row); try discriminate H; eauto.
Qed.

Lemma tally_get (by_day m : gmap pystr Counter) (row : FlatRow) (key : pystr) :
  tally by_day row = Ok m ->
  by_day_get m key =
    if decide (row_key row = Some key) then count_row row (by_day_get by_day key)
    else by_day_get by_day key.
Proof.
  unfold tally, row_key.
  destruct (event_date row) as [|b|z|f|s|l|items] eqn:Hd; cbn [truthy negb].
  - intros [= <-]. rewrite decide_False by discriminate. reflexivity.
  - destruct b; cbn [negb]; intros [= <-]; rewrite decide_False by discriminate; reflexivity.
  - destruct (negb (negb (z =? 0))); intros [= <-];
      rewrite decide_False by discriminate; reflexivity.
  - destruct (negb (negb (PrimFloat.eqb f PrimFloat.zero))); intros [= <-];
      rewrite decide_False by discriminate; reflexivity.
  - destruct s as [|c s]; cbn [negb].
    + intros [= <-]. rewrite decide_False by discriminate. reflexivity.
    + intros [= <-]. unfold by_day_get.
      destruct (decide (Some (c :: s) = Some key)) as [E|N].
      * injection E as <-. rewrite lookup_alter_eq.
        destruct (by_day !! (c :: s)) eqn:Hl.
        -- rewrite Hl. reflexivity.
        -- rewrite lookup_insert_eq. reflexivity.
      * assert (c :: s <> key) by congruence.
        rewrite lookup_alter_ne by assumption.
        destruct (by_day !! (c :: s)); [reflexivity|].
        rewrite lookup_insert_ne by assumption. reflexivity.
  - destruct l; cbn [negb]; [intros [= <-]|discriminate].
    rewrite decide_False by discriminate. reflexivity.
  - destruct items; cbn [negb]; [intros [= <-]|discriminate].
    rewrite decide_False by discriminate. reflexivity.
Qed.

Lemma foldM_tally_get (rows : list FlatRow) : forall m0 m key,
  foldM tally rows m0 = Ok m ->
  by_day_get m key = count_rows key rows (by_day_get m0 key).
Proof.
  induction rows as [|r rows IH]; intros m0 m key; cbn [foldM].
  - intros [= <-]. reflexivity.
  - destruct (tally m0 r) as [m1|e] eqn:Ht; [|discriminate]. cbn [bind]. intros H.
    rewrite (IH _ _ key H), (tally_get _ _ _ key Ht). reflexivity.
Qed.

Lemma foldM_tally_ok (rows : list FlatRow) : forall m0,
  Forall date_keyable rows -> exists m, foldM tally rows m0 = Ok m.
Proof.
  induction rows as [|r rows IH]; intros m0 H; cbn [foldM]; [eauto|].
  inversion H; subst. destruct (tally_ok m0 r) as [m1 ->]; [assumption|].
  cbn [bind]. apply IH. assumption.
Qed.

Lemma count_rows_none (key : pystr) (rows : list FlatRow) (c : Counter) :
  (forall r, In r rows -> row_key r <> Some key) -> count_rows key rows c = c.
Proof.
  unfold count_rows. revert c. induction rows as [|r rows IH]; intros c H; [reflexivity|].
  cbn [fold_left]. rewrite decide_False by (apply H; left; reflexivity).
  apply IH. intros r' Hr'. apply H. right. exact Hr'.
Qed.

Lemma count_rows_registrations (key : pystr) (rows : list FlatRow) : forall c,
  c_injury_registrations (count_rows key rows c) =
  c_injury_registrations c + registrations_of key rows.
Proof.
  unfold count_rows, registrations_of.
  induction rows as [|r rows IH]; intros c; cbn [fold_left List.map sum_Z fold_right]; [lia|].
  rewrite IH. destruct (decide (row_key r = Some key)); cbn; unfold sum_Z; lia.
Qed.

End TallyFacts.

Section SeriesFacts.
Import PyDate PyDateFacts.

Lemma build_daily_series_eq (rows : list FlatRow) (start end_ : t) (m : gmap pystr Counter)
    (days : list t) :
  foldM tally rows ∅ = Ok m -> daterange start end_ = Ok days ->
  build_daily_series rows start end_ = Ok (List.map (daily_row m) days).
Proof. intros Hm Hd. unfold build_daily_series. rewrite Hm, Hd. reflexivity. Qed.

Lemma by_day_get_empty (key : pystr) : by_day_get ∅ key = Counter_empty.
Proof. unfold by_day_get. rewrite lookup_empty. reflexivity. Qed.

Lemma on_day_false (d : t) (row : FlatRow) :
  on_day d row = false -> row_key row <> Some (isoformat d).
Proof. unfold on_day. intros H E. rewrite bool_decide_eq_false in H. contradiction. Qed.

(** C3, amended: for every list of injury rows whose event dates are
    falsy or hashable, and every span of valid dates with start <= end and
    end before 9999-12-31, [build_daily_series] returns one row for every
    calendar day of the span, in ascending order of date, with the date in
    ISO form and its year; the five counters of a day with no event are
    zero; the span 2015-01-01 to 2015-01-03 gives 3 rows. *)
Theorem build_daily_series_dense (rows : list FlatRow) (start end_ : t) :
  Forall date_keyable rows -> valid start -> valid end_ ->
  leb start end_ = true -> end_ <> max ->
  exists days out,
    build_daily_series rows start end_ = Ok out /\
    StronglySorted date_lt days /\
    (forall d, In d days <-> in_span start end_ d) /\
    Forall2 (fun d o =>
               Daily.date o = isoformat d /\ Daily.year o = year d /\
               ((forall row, In row rows -> on_day d row = false) -> zero_counters o))
            days out /\
    (start = mk 2015 1 1 -> end_ = mk 2015 1 3 -> length out = 3%nat).
Proof.
  intros Hrows Hs He Hle Hmax.
  destruct (foldM_tally_ok rows ∅ Hrows) as [m Hm].
  destruct (daterange_spec start end_ Hs He Hmax) as (days & Hd & Hsort & Hin).
  exists days, (List.map (daily_row m) days).
  split; [apply build_daily_series_eq; assumption|].
  split; [exact Hsort|]. split; [exact Hin|]. split.
  - clear Hd Hsort Hin. induction days as [|d days IH]; [constructor|].
    cbn [List.map]. constructor; [|exact IH].
    split; [reflexivity|]. split; [reflexivity|].
    intros Hnone. unfold zero_counters, daily_row.
    cbn [Daily.injury_registrations Daily.injury_related_transactions Daily.il_activations
         Daily.il_transfers Daily.rehab_assignments].
    rewrite (foldM_tally_get rows ∅ m (isoformat d) Hm), by_day_get_empty.
    rewrite count_rows_none; [repeat split|].
    intros r Hr. apply on_day_false, Hnone, Hr.
  - intros -> ->. vm_compute in Hd. injection Hd as <-. reflexivity.
Qed.

Lemma sum_Z_app (a b : list Z) : sum_Z (a ++ b) = sum_Z a + sum_Z b.
Proof. unfold sum_Z. induction a as [|x a IH]; cbn; [reflexivity|]. rewrite IH. lia. Qed.

Lemma sum_Z_map_add {A} (f g : A -> Z) (l : list A) :
  sum_Z (List.map (fun x => f x + g x) l) = sum_Z (List.map f l) + sum_Z (List.map g l).
Proof. unfold sum_Z. induction l as [|x l IH]; cbn; [reflexivity|]. rewrite IH. lia. Qed.

Lemma sum_Z_map_zero {A} (l : list A) : sum_Z (List.map (fun _ => 0) l) = 0.
Proof. unfold sum_Z. induction l as [|x l IH]; cbn; [reflexivity|]. exact IH. Qed.

(** Over days with distinct ISO forms, a row is counted on one day at
    most. *)
Lemma sum_over_days (days : list t) (row : FlatRow) (n : Z) :
  Forall valid days -> List.NoDup days ->
  sum_Z (List.map (fun d => if decide (row_key row = Some (isoformat d)) then n else 0) days) =
  if on_days days row then n else 0.
Proof.
  intros Hv Hnd. induction days as [|d days IH]; [reflexivity|].
  inversion Hv as [|? ? Hvd Hvs]; subst. inversion Hnd as [|? ? Hnotin Hnd']; subst.
  cbn [List.map on_days existsb]. change (sum_Z (?x :: ?l)) with (x + sum_Z l).
  rewrite (IH Hvs Hnd'). unfold on_day at 1.
  destruct (decide (row_key row = Some (isoformat d))) as [E|N].
  - rewrite bool_decide_eq_true_2 by exact E. cbn [orb].
    assert (Hno : existsb (fun d0 => on_day d0 row) days = false).
    { apply not_true_is_false. intros Hex. apply existsb_exists in Hex as (d' & Hd' & Hon).
      unfold on_day in Hon. apply bool_decide_eq_true in Hon.
      assert (Hiso : isoformat d = isoformat d') by congruence.
      rewrite Forall_forall in Hvs.
      apply isoformat_inj in Hiso; [|assumption|apply Hvs, list_elem_of_In; assumption].
      subst. contradiction. }
    unfold on_days. rewrite Hno. cbv beta iota. apply Z.add_0_r.
  - rewrite bool_decide_eq_false_2 by exact N. cbn [orb]. cbv beta iota. apply Z.add_0_l.
Qed.

Lemma registrations_over_days (days : list t) (rows : list FlatRow) :
  Forall valid days -> List.NoDup days ->
  sum_Z (List.map (fun d => registrations_of (isoformat d) rows) days) =
  sum_Z (List.map (fun r => if on_days days r
                            then int_or_0 (count_as_new_injury_registration (flags r))
                            else 0) rows).
Proof.
  intros Hv Hnd. unfold registrations_of.
  induction rows as [|r rows IH]; cbn [List.map].
  - rewrite sum_Z_map_zero. reflexivity.
  - change (sum_Z (?x :: ?l)) with (x + sum_Z l) at 2. rewrite <- IH.
    rewrite <- (sum_over_days days r _ Hv Hnd), <- sum_Z_map_add. reflexivity.
Qed.

Lemma registrations_count (days : list t) (rows : list FlatRow) :
  Forall count_is_flag rows ->
  sum_Z (List.map (fun r => if on_days days r
                            then int_or_0 (count_as_new_injury_registration (flags r))
                            else 0) rows) =
  Z.of_nat (length (List.filter (fun r => is_registration r && on_days days r) rows)).
Proof.
  intros H. induction H as [|r rows Hr Hrows IH]; [reflexivity|].
  cbn [List.map List.filter]. change (sum_Z (?x :: ?l)) with (x + sum_Z l). rewrite IH.
  unfold is_registration, int_or_0.
  destruct Hr as [E|E]; rewrite E; destruct (on_days days r);
    cbn [Z.eqb Pos.eqb andb]; cbv beta iota; cbn [length]; lia.
Qed.

Lemma strongly_sorted_NoDup (days : list t) :
  StronglySorted date_lt days -> List.NoDup days.
Proof.
  induction 1 as [|d days Hs IH Hfa]; constructor; [|exact IH].
  intros Hin. rewrite Forall_forall in Hfa.
  apply list_elem_of_In, Hfa in Hin. unfold date_lt, ltb in Hin.
  rewrite !Z.ltb_irrefl, !andb_false_r in Hin. discriminate Hin.
Qed.

(** C4, amended: for every list of injury rows with hashable event dates
    and 0/1 count flags, and every span of valid dates that ends before
    9999-12-31, the sum of [injury_registrations] over the daily series is
    the number of rows whose [count_as_new_injury_registration] is 1 and
    whose event date is the ISO form of a day of the span. *)
Theorem daily_registrations_sum (rows : list FlatRow) (start end_ : t) :
  Forall date_keyable rows -> Forall count_is_flag rows ->
  valid start -> valid end_ -> end_ <> max ->
  exists days out,
    daterange start end_ = Ok days /\
    (forall d, In d days <-> in_span start end_ d) /\
    build_daily_series rows start end_ = Ok out /\
    sum_Z (List.map Daily.injury_registrations out) =
    Z.of_nat (length (List.filter (fun r => is_registration r && on_days days r) rows)).
Proof.
  intros Hrows Hflags Hs He Hmax.
  destruct (foldM_tally_ok rows ∅ Hrows) as [m Hm].
  destruct (daterange_spec start end_ Hs He Hmax) as (days & Hd & Hsort & Hin).
  exists days, (List.map (daily_row m) days).
  split; [exact Hd|]. split; [exact Hin|].
  split; [apply build_daily_series_eq; assumption|].
  rewrite List.map_map.
  assert (Hv : Forall valid days).
  { apply Forall_forall. intros d Hd'. apply list_elem_of_In, Hin in Hd'. apply Hd'. }
  rewrite <- registrations_count by assumption.
  rewrite <- (registrations_over_days days rows Hv (strongly_sorted_NoDup _ Hsort)).
  f_equal. apply List.map_ext. intros d. unfold daily_row.
  cbn [Daily.injury_registrations].
  rewrite (foldM_tally_get rows ∅ m (isoformat d) Hm), by_day_get_empty.
  rewrite count_rows_registrations. reflexivity.
Qed.

End SeriesFacts.

(** The day after 9999-12-31 is no date: the series of a span that ends
    there is not returned. *)
Lemma series_to_date_max_raises :
  ~ (exists out, build_daily_series [] (PyDate.mk 9999 12 30) (PyDate.mk 9999 12 31) = Ok out).
Proof. intros [out H]. vm_compute in H. discriminate H. Qed.

Lemma build_daily_series_dense_witness :
  let start := PyDate.mk 2015 1 1 in
  let end_ := PyDate.mk 2015 1 3 in
  Forall date_keyable sample_rows /\ PyDate.valid start /\ PyDate.valid end_ /\
  PyDate.leb start end_ = true /\ end_ <> PyDate.max /\
  exists days out,
    build_daily_series sample_rows start end_ = Ok out /\
    StronglySorted date_lt days /\
    (forall d, In d days <-> in_span start end_ d) /\
    Forall2 (fun d o =>
               Daily.date o = PyDate.isoformat d /\ Daily.year o = PyDate.year d /\
               ((forall row, In row sample_rows -> on_day d row = false) -> zero_counters o))
            days out /\
    (start = PyDate.mk 2015 1 1 -> end_ = PyDate.mk 2015 1 3 -> length out = 3%nat).
Proof.
  intros start end_.
  assert (H1 : Forall date_keyable sample_rows).
  { constructor; [right; reflexivity|]. constructor; [left; reflexivity|]. constructor. }
  assert (H2 : end_ <> PyDate.max) by discriminate.
  split; [exact H1|]. split; [reflexivity|]. split; [reflexivity|].
  split; [reflexivity|]. split; [exact H2|].
  exact (build_daily_series_dense sample_rows start end_ H1 eq_refl eq_refl eq_refl H2).
Defined.

(** A placement with no date is a registration of the injury table that
    no day of the series counts. *)
Lemma undated_registration_not_counted :
  ~ (exists out,
       build_daily_series sample_rows (PyDate.mk 2015 1 1) (PyDate.mk 2015 1 3) = Ok out /\
       sum_Z (List.map Daily.injury_registrations out) =
       Z.of_nat (length (List.filter is_registration sample_rows))).
Proof.
  intros (out & Hout & Hsum). vm_compute in Hout. injection Hout as <-.
  vm_compute in Hsum. discriminate Hsum.
Qed.

Lemma daily_registrations_sum_witness :
  let start := PyDate.mk 2015 1 1 in
  let end_ := PyDate.mk 2015 1 3 in
  Forall date_keyable sample_rows /\ Forall count_is_flag sample_rows /\
  PyDate.valid start /\ PyDate.valid end_ /\ end_ <> PyDate.max /\
  exists days out,
    daterange start end_ = Ok days /\
    (forall d, In d days <-> in_span start end_ d) /\
    build_daily_series sample_rows start end_ = Ok out /\
    sum_Z (List.map Daily.injury_registrations out) =
    Z.of_nat (length (List.filter (fun r => is_registration r && on_days days r) sample_rows)).
Proof.
  intros start end_.
  assert (H1 : Forall date_keyable sample_rows).
  { constructor; [right; reflexivity|]. constructor; [left; reflexivity|]. constructor. }
  assert (H2 : Forall count_is_flag sample_rows).
  { constructor; [right; reflexivity|]. constructor; [right; reflexivity|]. constructor. }
  assert (H3 : end_ <> PyDate.max) by discriminate.
  split; [exact H1|]. split; [exact H2|]. split; [reflexivity|]. split; [reflexivity|].
  split; [exact H3|].
  exact (daily_registrations_sum sample_rows start end_ H1 H2 eq_refl eq_refl H3).
Defined.

(** * The order of the flat table *)


Lemma str_ltb_cons (x y : N) (a b : pystr) :
  str_ltb (x :: a) (y :: b) = true <-> (x < y)%N \/ (x = y /\ str_ltb a b = true).
Proof.
  cbn [str_ltb]. rewrite orb_true_iff, andb_true_iff, N.ltb_lt, N.eqb_eq. reflexivity.
Qed.










Section InsertionSortFacts.
Context {A : Type}.
Variable lt : A -> A -> result bool.

Lemma insert_at_perm (k : nat) (x : A) (pre : list A) :
  Permutation (x :: pre) (firstn k pre ++ x :: skipn k pre).
Proof.
  rewrite <- (firstn_skipn k pre) at 1. apply Permutation_middle.
Qed.

Lemma binarysort_perm (rest : list A) : forall pre l,
  binarysort lt pre rest = Ok l -> Permutation (pre ++ rest) l.
Proof.
  induction rest as [|x rest IH]; intros pre l; cbn [binarysort].
  - intros [= <-]. rewrite app_nil_r. reflexivity.
  - destruct (bisect lt _ pre x 0 _) as [k|e]; [|discriminate]. cbn [bind].
    intros H. apply IH in H. rewrite <- H.
    rewrite <- Permutation_middle, <- (insert_at_perm k x pre). reflexivity.
Qed.

(** [list.sort] rearranges the list. *)
Lemma insertion_sort_perm (l l' : list A) :
  insertion_sort lt l = Ok l' -> Permutation l l'.
Proof.
  unfold insertion_sort. destruct l as [|x [|y l]]; try (intros [= <-]; reflexivity).
  destruct (count_run lt (x :: y :: l)) as [run|e]; [|discriminate]. cbn [bind].
  intros H. apply binarysort_perm in H. rewrite <- H.
  rewrite <- (firstn_skipn (fst run) (x :: y :: l)) at 1.
  apply Permutation_app_tail. destruct (snd run); [apply Permutation_rev|reflexivity].
Qed.

End InsertionSortFacts.

(** The sort of a list of images is the image of the sort, when the
    comparisons agree. *)
Section SortImage.
Context {A B : Type}.
Variable f : B -> A.
Variable ltA : A -> A -> result bool.
Variable ltB : B -> B -> result bool.
Hypothesis lt_image : forall a b, ltA (f a) (f b) = ltB a b.







End SortImage.







(** On keys that [<] orders, the sort returns, and returns a sorted
    list. *)
Section SortedFacts.
Context {B : Type}.
Variable ltb : B -> B -> bool.
Hypothesis le_trans : forall a b c, le a b -> le b c -> le a c.
Hypothesis ltb_asym : forall a b, ltb a b = true -> ltb b a = false.










End SortedFacts.

(** A run of the sort that returns made the comparisons of the order
    its answers agree with. *)
Section SortRefine.
Context {B : Type}.
Variable lt : B -> B -> result bool.
Variable ltb : B -> B -> bool.
Hypothesis lt_ltb : forall a b r, lt a b = Ok r -> r = ltb a b.







End SortRefine.








(** In the list a sort returns, every element was compared with the one
    before it. *)
Section SortLinks.
Context {B : Type}.
Variable lt : B -> B -> result bool.









End SortLinks.



Section SortFacts.
Context {host : Host}.

Let key_of (x : plain_row) : pystr * okey := canon_key (fst (proj1_sig x)).
Let keyed (x : plain_row) : Prop := fst (proj1_sig x) = sort_key (snd (proj1_sig x)).
Let date (x : plain_row) : pystr := fst (key_of x).

(** [all_rows.sort(key=...)] leaves the rows it was given. *)
Lemma sort_rows_perm (rows sorted : list FlatRow) :
  sort_rearranges host -> sort_rows rows = Ok sorted -> Permutation rows sorted.
Proof.
  intros HP. unfold sort_rows. cbv zeta.
  match goal with |- context [if ?c then _ else _] => destruct c end.
  - destruct (insertion_sort _ _) as [l|e] eqn:Hl; [|discriminate]. cbn [bind].
    intros [= <-]. apply insertion_sort_perm in Hl.
    apply (Permutation_map snd) in Hl. rewrite List.map_map in Hl. cbn [snd] in Hl.
    rewrite List.map_id in Hl. exact Hl.
  - destruct (host_merge_sort _) as [l|e] eqn:Hl; [|discriminate]. cbn [bind].
    intros [= <-]. apply HP in Hl.
    apply (Permutation_map snd) in Hl. rewrite List.map_map in Hl. cbn [snd] in Hl.
    rewrite List.map_id in Hl. exact Hl.
Qed.







End SortFacts.

Lemma int_or_0_id (x : Z) : int_or_0 x = x.
Proof. unfold int_or_0. destruct (Z.eqb_spec x 0); congruence. Qed.

(** The assignment in the loop over [injury_rows] stores the value the
    row holds already. *)
Lemma set_count_id (r : FlatRow) : set_count r = r.
Proof.
  unfold set_count. rewrite int_or_0_id. destruct r as [? ? ? ? ? ? ? ? ? ? ? ? ? ? ? f].
  destruct f. reflexivity.
Qed.

Lemma map_set_count_id (l : list FlatRow) :
  List.map (fun r => if is_injury_row r then set_count r else r) l = l.
Proof.
  induction l as [|r l IH]; cbn [List.map]; [reflexivity|].
  rewrite IH, set_count_id. destruct (is_injury_row r); reflexivity.
Qed.


(** * The API client *)

Section ClientFacts.
Variable net : nat -> pystr -> result pyval.

Lemma fetch_attempts_spec (url : pystr) (left : nat) : forall n,
  match fetch_attempts net url left n with
  | Ok f =>
      exists k, (k < left)%nat /\ snd f = S (n + k) /\ net (n + k)%nat url = Ok (fst f) /\
                forall j, (j < k)%nat -> request_fails net (n + j) url
  | Raise e =>
      e = RuntimeError /\ forall j, (j < left)%nat -> request_fails net (n + j) url
  end.
Proof.
  induction left as [|left IH]; intros n; cbn [fetch_attempts].
  - split; [reflexivity|]. intros j Hj. lia.
  - destruct (net n url) as [p|e] eqn:Hn.
    + exists 0%nat. cbn [fst snd]. rewrite Nat.add_0_r.
      split; [lia|]. split; [reflexivity|]. split; [exact Hn|]. intros j Hj. lia.
    + specialize (IH (S n)). destruct (fetch_attempts net url left (S n)) as [f|e'].
      * destruct IH as (k & Hk & Hs & Hok & Hfail). exists (S k).
        replace (n + S k)%nat with (S n + k)%nat by lia.
        split; [lia|]. split; [exact Hs|]. split; [exact Hok|].
        intros [|j] Hj.
        -- rewrite Nat.add_0_r. exists e. exact Hn.
        -- replace (n + S j)%nat with (S n + j)%nat by lia. apply Hfail. lia.
      * destruct IH as [-> Hfail]. split; [reflexivity|].
        intros [|j] Hj.
        -- rewrite Nat.add_0_r. exists e. exact Hn.
        -- replace (n + S j)%nat with (S n + j)%nat by lia. apply Hfail. lia.
Qed.

(** X1: [fetch_json] makes at most three requests and returns the body of
    the first that succeeds, the requests before it having failed; it
    raises, and then [RuntimeError] whatever the failures were, exactly
    when all three fail. *)
Theorem fetch_json_first_success (url : pystr) (n : nat) :
  match fetch_json net url n with
  | Ok f =>
      exists k, (k < 3)%nat /\ snd f = S (n + k) /\ net (n + k)%nat url = Ok (fst f) /\
                forall j, (j < k)%nat -> request_fails net (n + j) url
  | Raise e =>
      e = RuntimeError /\ forall j, (j < 3)%nat -> request_fails net (n + j) url
  end.
Proof. unfold fetch_json. apply fetch_attempts_spec. Qed.

End ClientFacts.

(** * The shape of a flattened row *)

Section RowFacts.
Context {U : UnicodeDB}.

Lemma int_of_bool_flag (b : bool) : is_flag (int_of_bool b).
Proof. destruct b; [right|left]; reflexivity. Qed.

Lemma classify_injury_flags (d : pystr) (f : Flags) :
  classify_injury (PStr d) = Ok f ->
  is_flag (is_injury_related f) /\ is_flag (is_il_placement f) /\
  is_flag (is_il_activation f) /\ is_flag (is_il_transfer f) /\
  is_flag (is_rehab_assignment f) /\ is_flag (is_covid_il f) /\
  is_flag (count_as_new_injury_registration f) /\
  count_as_new_injury_registration f + is_il_transfer f <= 1.
Proof.
  destruct (classify_injury_str d) as (f' & E & H1 & H2 & H3 & H4 & H5 & H6 & _ & H8).
  rewrite E. intros [= <-].
  rewrite H1, H2, H3, H4, H5, H6, H8.
  repeat (split; [apply int_of_bool_flag|]).
  destruct (found (re_search IL_PLACEMENT_RE (strip d)));
    destruct (found (re_search IL_TRANSFER_RE (strip d))); cbn; lia.
Qed.

Lemma classified_description (v : pyval) (f : Flags) :
  classify_injury (py_or v (PStr [])) = Ok f -> exists s, py_or v (PStr []) = PStr s.
Proof.
  intros Hf. destruct (truthy v) eqn:Ht.
  - destruct v as [| | | |s| |]; try (exists s; unfold py_or; rewrite Ht; reflexivity).
    all: rewrite classify_injury_raises in Hf; [discriminate Hf|exact Ht|discriminate].
  - exists []. unfold py_or. rewrite Ht. reflexivity.
Qed.

Lemma flatten_transaction_shape (tx : pyval) (r : FlatRow) :
  flatten_transaction tx = Ok r ->
  (exists items, tx = PDict items) /\ classified r /\ dated r.
Proof.
  destruct tx as [| | | | |l|items]; try discriminate. cbn [flatten_transaction].
  intros H. split; [exists items; reflexivity|].
  assert (Hc : forall y f, classify_injury (py_or (dict_get items "description") (PStr [])) = Ok f ->
               classified
                 {| transaction_id := dict_get items "id";
                    api_date := dict_get items "date";
                    effective_date := dict_get items "effectiveDate";
                    resolution_date := dict_get items "resolutionDate";
                    event_date := choose_event_date items;
                    year := y;
                    type_code := dict_get items "typeCode";
                    type_desc := dict_get items "typeDesc";
                    description := py_or (dict_get items "description") (PStr []);
                    person_id := safe_get (dict_get items "person") "id";
                    person_name := safe_get (dict_get items "person") "fullName";
                    from_team_id := safe_get (dict_get items "fromTeam") "id";
                    from_team_name := safe_get (dict_get items "fromTeam") "name";
                    to_team_id := safe_get (dict_get items "toTeam") "id";
                    to_team_name := safe_get (dict_get items "toTeam") "name";
                    flags := f |}).
  { intros y f Hf. destruct (classified_description _ _ Hf) as [s Hs].
    exists s. cbn [description flags]. split; [exact Hs|]. rewrite <- Hs. exact Hf. }
  destruct (truthy (choose_event_date items)) eqn:Ht.
  - destruct (choose_event_date items) as [| | | |s| |] eqn:Hd; try discriminate H.
    cbn [int_of_first4] in H.
    destruct (int_of_str (firstn 4 s)) as [y|e] eqn:Hy; [|discriminate H]. cbn [bind] in H.
    destruct (classify_injury _) as [f|e] eqn:Hf; [|discriminate H]. cbn [bind] in H.
    injection H as <-. split; [apply Hc; reflexivity|].
    right. cbn [event_date year]. destruct s as [|c s]; [discriminate Ht|].
    exists c, s, y. split; [reflexivity|]. split; [exact Hy|reflexivity].
  - cbn [bind] in H.
    destruct (classify_injury _) as [f|e] eqn:Hf; [|discriminate H]. cbn [bind] in H.
    injection H as <-. split; [apply Hc; reflexivity|].
    left. cbn [event_date year]. split; [exact Ht|reflexivity].
Qed.

End RowFacts.

(** * The run *)

Lemma mapM_Forall {A B} (f : A -> result B) (P : B -> Prop) (l : list A) : forall l',
  (forall a b, f a = Ok b -> P b) -> mapM f l = Ok l' -> Forall P l'.
Proof.
  induction l as [|a l IH]; intros l' Hf; cbn [mapM].
  - intros [= <-]. constructor.
  - destruct (f a) as [b|e] eqn:Hb; [|discriminate]. cbn [bind].
    destruct (mapM f l) as [bs|e]; [|discriminate]. cbn [bind].
    intros [= <-]. constructor; [eapply Hf; exact Hb|]. apply IH; [exact Hf|reflexivity].
Qed.

Lemma map_set_count_filter (l : list FlatRow) :
  List.map set_count (List.filter is_injury_row l) = List.filter is_injury_row l.
Proof.
  induction (List.filter is_injury_row l) as [|r l' IH]; cbn [List.map]; [reflexivity|].
  rewrite IH, set_count_id. reflexivity.
Qed.

Lemma make_ok (y m d : Z) (x : PyDate.t) :
  PyDate.make y m d = Ok x -> x = PyDate.mk y m d /\ PyDate.valid x.
Proof.
  unfold PyDate.make. destruct (negb _); [discriminate|].
  destruct (PyDate.validb (PyDate.mk y m d)) eqn:V; [|discriminate].
  intros [= <-]. split; [reflexivity|exact V].
Qed.

Section RunFacts.
Context {U : UnicodeDB} {host : Host}.
Variable urlencode : list (pystr * pyval) -> pystr.
Variable net : nat -> pystr -> result pyval.


Lemma write_csv_inv (dir name : pystr) (rows : list (list (pystr * pyval)))
    (columns : list pystr) (file : CsvFile) :
  write_csv dir name rows columns = Ok file ->
  host_create dir name = Ok tt /\
  csv_name file = name /\
  csv_fieldnames file = columns /\
  csv_rows file =
    List.map
      (fun row =>
         List.map (fun k => match items_get row k with Some v => v | None => PNone end) columns)
      rows /\
  forallb (forallb cell_encodes) (csv_rows file) = true.
Proof.
  unfold write_csv. destruct (host_create dir name) as [[]|e]; [|discriminate]. cbn [bind].
  destruct (forallb _ _) eqn:E; [|discriminate]. intros [= <-].
  cbn [csv_name csv_fieldnames csv_rows]. repeat split. exact E.
Qed.

(** What a completed run went through. *)
Lemma main_inv (args : Args) (out : Output) :
  main urlencode net args = Ok out ->
  start_year args <= end_year args /\
  PyDate.valid (first_day args) /\ PyDate.valid (last_day args) /\
  exists fetched sorted daily,
    fetch_years urlencode net (sleep args)
      (Z.to_nat (end_year args + 1 - start_year args)) (start_year args) 0 [] = Ok fetched /\
    sort_rows fetched = Ok sorted /\
    build_daily_series (List.filter is_injury_row sorted) (first_day args) (last_day args)
      = Ok daily /\
    csv_fieldnames (raw_file out) = RAW_COLUMNS /\
    csv_rows (raw_file out) = List.map raw_values sorted /\
    csv_fieldnames (injury_file out) = INJURY_COLUMNS /\
    csv_rows (injury_file out) = List.map injury_values (List.filter is_injury_row sorted) /\
    csv_fieldnames (daily_file out) = DAILY_COLUMNS /\
    csv_rows (daily_file out) = List.map daily_values daily.
Proof.
  unfold main. destruct (end_year args <? start_year args) eqn:Hlt; [discriminate|].
  apply Z.ltb_ge in Hlt.
  destruct (fetch_years _ _ _ _ _ _ _) as [fetched|e] eqn:Hf; [|discriminate]. cbn [bind].
  destruct (sort_rows fetched) as [sorted|e] eqn:Hs; [|discriminate]. cbn [bind].
  destruct (PyDate.make (start_year args) 1 1) as [d1|e] eqn:H1; [|discriminate]. cbn [bind].
  destruct (PyDate.make (end_year args) 12 31) as [d2|e] eqn:H2; [|discriminate]. cbn [bind].
  rewrite map_set_count_filter, map_set_count_id.
  destruct (build_daily_series _ _ _) as [daily|e] eqn:Hd; [|discriminate]. cbn [bind].
  cbv zeta.
  destruct (write_csv _ _ _ RAW_COLUMNS) as [raw|e] eqn:Hr; [|discriminate]. cbn [bind].
  destruct (write_csv _ _ _ INJURY_COLUMNS) as [inj|e] eqn:Hi; [|discriminate]. cbn [bind].
  destruct (write_csv _ _ _ DAILY_COLUMNS) as [day|e] eqn:Hy; [|discriminate]. cbn [bind].
  intros [= <-]. apply make_ok in H1 as [-> V1]. apply make_ok in H2 as [-> V2].
  apply write_csv_inv in Hr as (_ & _ & Hr1 & Hr2 & _).
  apply write_csv_inv in Hi as (_ & _ & Hi1 & Hi2 & _).
  apply write_csv_inv in Hy as (_ & _ & Hy1 & Hy2 & _).
  split; [exact Hlt|]. split; [exact V1|]. split; [exact V2|].
  exists fetched, sorted, daily.
  split; [reflexivity|]. split; [exact Hs|]. split; [exact Hd|].
  cbn [raw_file injury_file daily_file].
  rewrite Hr1, Hr2, Hi1, Hi2, Hy1, Hy2, !List.map_map. repeat split.
Qed.

(** The rows a completed loop over the years has added are rows of
    [flatten_transaction]. *)
Lemma fetch_years_rows (pause : float) (todo : nat) : forall year n acc rows,
  fetch_years urlencode net pause todo year n acc = Ok rows ->
  exists new, rows = acc ++ new /\ Forall (fun r => classified r /\ dated r) new.
Proof.
  induction todo as [|todo IH]; intros year n acc rows; cbn [fetch_years]; cbv zeta.
  - intros [= <-]. exists []. rewrite app_nil_r. split; [reflexivity|constructor].
  - destruct (fetch_json net _ n) as [f|e]; [|discriminate]. cbn [bind].
    destruct (py_get_default (fst f) _ _) as [txs|e]; [|discriminate]. cbn [bind].
    destruct (py_len txs) as [len|e]; [|discriminate]. cbn [bind].
    destruct (py_iter txs) as [l|e]; [|discriminate]. cbn [bind].
    destruct (mapM flatten_transaction l) as [new|e] eqn:Hm; [|discriminate]. cbn [bind].
    destruct (time_sleep pause) as [u|e]; [|discriminate]. cbn [bind].
    intros H0. apply IH in H0 as (new' & -> & F). exists (new ++ new').
    split; [rewrite app_assoc; reflexivity|]. apply Forall_app. split; [|exact F].
    eapply mapM_Forall; [|exact Hm]. intros tx r Hb.
    apply flatten_transaction_shape in Hb as (_ & Hc & Hd). split; assumption.
Qed.

Lemma sort_rows_Forall (P : FlatRow -> Prop) (rows sorted : list FlatRow) :
  sort_rearranges host ->
  sort_rows rows = Ok sorted -> Forall P rows -> Forall P sorted.
Proof.
  intros HP Hs F. apply sort_rows_perm in Hs; [|exact HP].
  rewrite Forall_forall in *. intros r Hr. apply F.
  apply list_elem_of_In. apply list_elem_of_In in Hr.
  eapply Permutation_in; [symmetry; exact Hs|exact Hr].
Qed.

(** The rows of the tables of a completed run are rows of
    [flatten_transaction]. *)
Lemma main_rows (args : Args) (fetched sorted : list FlatRow) :
  sort_rearranges host ->
  fetch_years urlencode net (sleep args)
    (Z.to_nat (end_year args + 1 - start_year args)) (start_year args) 0 [] = Ok fetched ->
  sort_rows fetched = Ok sorted ->
  Forall (fun r => classified r /\ dated r) sorted.
Proof.
  intros HP Hf Hs. apply fetch_years_rows in Hf as (new & -> & F).
  eapply sort_rows_Forall; [exact HP|exact Hs|exact F].
Qed.

End RunFacts.

(** * The order of the flat table of a run *)

Section SortedTable.
Context {U : UnicodeDB} {host : Host}.
Variable urlencode : list (pystr * pyval) -> pystr.
Variable urlopen_json : nat -> pystr -> result pyval.


End SortedTable.





(** * The counters of a day *)

Section DayFacts.

Lemma count_rows_stats (d : PyDate.t) (rows : list FlatRow) : forall c,
  count_rows (PyDate.isoformat d) rows c =
  {| c_injury_related_transactions :=
       c_injury_related_transactions c + Z.of_nat (length (rows_on d rows));
     c_injury_registrations :=
       c_injury_registrations c +
       sum_Z (List.map (fun r => count_as_new_injury_registration (flags r)) (rows_on d rows));
     c_il_activations :=
       c_il_activations c +
       sum_Z (List.map (fun r => is_il_activation (flags r)) (rows_on d rows));
     c_il_transfers :=
       c_il_transfers c +
       sum_Z (List.map (fun r => is_il_transfer (flags r)) (rows_on d rows));
     c_rehab_assignments :=
       c_rehab_assignments c +
       sum_Z (List.map (fun r => is_rehab_assignment (flags r)) (rows_on d rows)) |}.
Proof.
  unfold count_rows, rows_on.
  induction rows as [|r rows IH]; intros c; cbn [fold_left List.filter].
  - cbn [length List.map]. change (sum_Z []) with 0. change (Z.of_nat 0) with 0.
    rewrite !Z.add_0_r. destruct c; reflexivity.
  - rewrite IH.
    destruct (decide (row_key r = Some (PyDate.isoformat d))) as [E|N].
    + assert (Hon : on_day d r = true) by (apply bool_decide_eq_true_2; exact E).
      rewrite Hon. cbn [length List.map]. change (sum_Z (?x :: ?l)) with (x + sum_Z l).
      unfold count_row. cbn [c_injury_related_transactions c_injury_registrations
        c_il_activations c_il_transfers c_rehab_assignments].
      rewrite !int_or_0_id. f_equal; lia.
    + assert (Hon : on_day d r = false) by (apply bool_decide_eq_false_2; exact N).
      rewrite Hon. reflexivity.
Qed.

Lemma daily_row_stats (rows : list FlatRow) (m : gmap pystr Counter) (d : PyDate.t) :
  foldM tally rows ∅ = Ok m -> daily_row m d = day_stats rows d.
Proof.
  intros Hm. unfold daily_row, day_stats. cbv zeta.
  rewrite (foldM_tally_get rows ∅ m (PyDate.isoformat d) Hm), by_day_get_empty.
  rewrite count_rows_stats. reflexivity.
Qed.

Lemma build_daily_series_inv (rows : list FlatRow) (start end_ : PyDate.t)
    (out : list Daily.row) :
  build_daily_series rows start end_ = Ok out ->
  exists days, daterange start end_ = Ok days /\ out = List.map (day_stats rows) days.
Proof.
  unfold build_daily_series.
  destruct (foldM tally rows ∅) as [m|e] eqn:Hm; [|discriminate]. cbn [bind].
  destruct (daterange start end_) as [days|e]; [|discriminate]. cbn [bind].
  intros [= <-]. exists days. split; [reflexivity|].
  apply List.map_ext. intros d. apply daily_row_stats. exact Hm.
Qed.

End DayFacts.

Section SeriesOrderFacts.

Lemma tally_raise (m : gmap pystr Counter) (row : FlatRow) (e : exn) :
  tally m row = Raise e -> e = TypeError /\ ~ date_keyable row.
Proof.
  unfold tally, date_keyable. destruct (truthy (event_date row)) eqn:Ht; cbn [negb].
  - destruct (event_date row); try discriminate; intros [= <-];
      (split; [reflexivity|]); intros [H|H]; discriminate H.
  - discriminate.
Qed.

Lemma foldM_tally_raise (rows : list FlatRow) : forall m e,
  foldM tally rows m = Raise e -> e = TypeError /\ ~ Forall date_keyable rows.
Proof.
  induction rows as [|r rows IH]; intros m e; cbn [foldM]; [discriminate|].
  destruct (tally m r) as [m'|e'] eqn:Ht; cbn [bind].
  - intros H. apply IH in H as [-> Hn]. split; [reflexivity|].
    intros F. apply Hn. inversion F; assumption.
  - intros [= <-]. apply tally_raise in Ht as [-> Hn]. split; [reflexivity|].
    intros F. apply Hn. inversion F; assumption.
Qed.

Lemma sum_Z_map_perm {A} (f : A -> Z) (l l' : list A) :
  Permutation l l' -> sum_Z (List.map f l) = sum_Z (List.map f l').
Proof.
  induction 1 as [|x l l' _ IH|x y l|l l' l'' _ IH1 _ IH2]; cbn [List.map].
  - reflexivity.
  - change (sum_Z (?a :: ?b)) with (a + sum_Z b). rewrite IH. reflexivity.
  - change (sum_Z (?a :: ?b)) with (a + sum_Z b).
    change (sum_Z (?a :: ?b)) with (a + sum_Z b). lia.
  - congruence.
Qed.

Lemma filter_perm {A} (f : A -> bool) (l l' : list A) :
  Permutation l l' -> Permutation (List.filter f l) (List.filter f l').
Proof.
  induction 1 as [|x l l' _ IH|x y l|l l' l'' _ IH1 _ IH2]; cbn [List.filter].
  - constructor.
  - destruct (f x); [constructor|]; exact IH.
  - destruct (f x), (f y); try reflexivity. apply perm_swap.
  - etransitivity; eassumption.
Qed.

Lemma day_stats_perm (rows rows' : list FlatRow) (d : PyDate.t) :
  Permutation rows rows' -> day_stats rows d = day_stats rows' d.
Proof.
  intros P. unfold day_stats. cbv zeta.
  assert (Q : Permutation (rows_on d rows) (rows_on d rows')) by (apply filter_perm; exact P).
  rewrite (Permutation_length Q).
  rewrite !(sum_Z_map_perm _ _ _ Q). reflexivity.
Qed.

Lemma Forall_keyable_perm (rows rows' : list FlatRow) :
  Permutation rows rows' -> Forall date_keyable rows -> Forall date_keyable rows'.
Proof.
  intros P F. rewrite Forall_forall in *. intros r Hr. apply F.
  apply list_elem_of_In. apply list_elem_of_In in Hr.
  eapply Permutation_in; [symmetry; exact P|exact Hr].
Qed.

Lemma tally_ok_inv (m0 m : gmap pystr Counter) (r : FlatRow) :
  tally m0 r = Ok m -> date_keyable r.
Proof.
  unfold tally, date_keyable.
  destruct (truthy (event_date r)); [|left; reflexivity]. cbn [negb].
  destruct (event_date r); try discriminate; right; reflexivity.
Qed.

Lemma foldM_tally_ok_inv (rows : list FlatRow) : forall m0 m,
  foldM tally rows m0 = Ok m -> Forall date_keyable rows.
Proof.
  induction rows as [|r rows IH]; intros m0 m Hm; [constructor|].
  cbn [foldM] in Hm. destruct (tally m0 r) as [m1|e] eqn:Ht; [|discriminate Hm].
  cbn [bind] in Hm. constructor; [eapply tally_ok_inv; exact Ht|eapply IH; exact Hm].
Qed.

(** X2: the daily series counts rows by day and does not look at their
    order: reordering the injury rows changes neither the series nor the
    exception. *)
Theorem build_daily_series_order_free (rows rows' : list FlatRow) (start end_ : PyDate.t) :
  Permutation rows rows' ->
  build_daily_series rows start end_ = build_daily_series rows' start end_.
Proof.
  intros P. unfold build_daily_series.
  destruct (foldM tally rows ∅) as [m|e] eqn:Hm;
    destruct (foldM tally rows' ∅) as [m'|e'] eqn:Hm'; cbn [bind].
  - destruct (daterange start end_) as [days|e]; [|reflexivity]. cbn [bind]. f_equal.
    apply List.map_ext. intros d.
    rewrite (daily_row_stats rows m d Hm), (daily_row_stats rows' m' d Hm').
    apply day_stats_perm. exact P.
  - exfalso. apply foldM_tally_raise in Hm' as [_ Hn]. apply Hn.
    apply (Forall_keyable_perm rows rows' P). eapply foldM_tally_ok_inv. exact Hm.
  - exfalso. apply foldM_tally_raise in Hm as [_ Hn]. apply Hn.
    apply (Forall_keyable_perm rows' rows); [symmetry; exact P|].
    eapply foldM_tally_ok_inv. exact Hm'.
  - apply foldM_tally_raise in Hm as [-> _]. apply foldM_tally_raise in Hm' as [-> _].
    reflexivity.
Qed.

End SeriesOrderFacts.

Lemma sum_flags_bounds {A} (f g : A -> Z) (l : list A) :
  Forall (fun x => is_flag (f x) /\ is_flag (g x) /\ f x + g x <= 1) l ->
  0 <= sum_Z (List.map f l) /\ 0 <= sum_Z (List.map g l) /\
  sum_Z (List.map f l) + sum_Z (List.map g l) <= Z.of_nat (length l).
Proof.
  induction 1 as [|x l (Hf & Hg & Hfg) _ IH]; cbn [List.map length].
  - change (sum_Z []) with 0. lia.
  - change (sum_Z (?a :: ?b)) with (a + sum_Z b).
    change (sum_Z (?a :: ?b)) with (a + sum_Z b).
    unfold is_flag in Hf, Hg. lia.
Qed.

Section ShapeTheorems.
Context {U : UnicodeDB}.

(** X3: only a dict is flattened, and every row [flatten_transaction]
    returns is well formed: its description is a string and its flags are
    the classification of that string, each of them 0 or 1, the count flag
    and the transfer flag never both 1; its event date is falsy and the
    year missing, or the event date is a string that is not empty and the
    year is [int] of its first four characters. *)
Theorem flatten_transaction_well_formed (tx : pyval) (r : FlatRow) :
  flatten_transaction tx = Ok r ->
  (exists items, tx = PDict items) /\
  classified r /\ dated r /\
  is_flag (is_injury_related (flags r)) /\ is_flag (is_il_placement (flags r)) /\
  is_flag (is_il_activation (flags r)) /\ is_flag (is_il_transfer (flags r)) /\
  is_flag (is_rehab_assignment (flags r)) /\ is_flag (is_covid_il (flags r)) /\
  is_flag (count_as_new_injury_registration (flags r)) /\
  count_as_new_injury_registration (flags r) + is_il_transfer (flags r) <= 1.
Proof.
  intros H. apply flatten_transaction_shape in H as (Hd & Hc & Hy).
  split; [exact Hd|]. split; [exact Hc|]. split; [exact Hy|].
  destruct Hc as (s & _ & Hf). apply classify_injury_flags in Hf. exact Hf.
Qed.

Lemma classified_flags (r : FlatRow) :
  classified r ->
  (is_flag (count_as_new_injury_registration (flags r)) /\
   is_flag (is_il_transfer (flags r)) /\
   count_as_new_injury_registration (flags r) + is_il_transfer (flags r) <= 1) /\
  (is_flag (is_il_activation (flags r)) /\ is_flag (is_rehab_assignment (flags r))).
Proof.
  intros (s & _ & Hf). apply classify_injury_flags in Hf.
  destruct Hf as (_ & _ & Ha & Ht & Hr & _ & Hc & Hct). repeat split; assumption.
Qed.

(** X4: on rows of [flatten_transaction] the counters of every day are
    consistent: none is negative, the registrations and the transfers
    together are at most the injury transactions of the day, and so are
    the activations and the rehab assignments. *)
Theorem daily_counters_bounded (txs : list pyval) (rows : list FlatRow)
    (start end_ : PyDate.t) (out : list Daily.row) :
  mapM flatten_transaction txs = Ok rows ->
  build_daily_series rows start end_ = Ok out ->
  Forall counters_bounded out.
Proof.
  intros Hrows Hout.
  assert (Hc : Forall classified rows).
  { eapply mapM_Forall; [|exact Hrows]. intros tx r Hr.
    apply flatten_transaction_shape in Hr. apply Hr. }
  apply build_daily_series_inv in Hout as (days & _ & ->).
  apply Forall_forall. intros o Ho. apply list_elem_of_In, in_map_iff in Ho.
  destruct Ho as (d & <- & _).
  assert (Hon : Forall classified (rows_on d rows)).
  { rewrite Forall_forall in *. intros r Hr. apply Hc.
    apply list_elem_of_In. apply list_elem_of_In, filter_In in Hr. apply Hr. }
  unfold counters_bounded, day_stats. cbv zeta.
  cbn [Daily.injury_registrations Daily.il_transfers Daily.il_activations
       Daily.rehab_assignments Daily.injury_related_transactions].
  pose proof (sum_flags_bounds
                (fun r => count_as_new_injury_registration (flags r))
                (fun r => is_il_transfer (flags r)) (rows_on d rows)) as B1.
  pose proof (sum_flags_bounds
                (fun r => is_il_activation (flags r)) (fun _ => 0) (rows_on d rows)) as B2.
  pose proof (sum_flags_bounds
                (fun r => is_rehab_assignment (flags r)) (fun _ => 0) (rows_on d rows)) as B3.
  assert (H1 := B1). assert (H2 := B2). assert (H3 := B3). clear B1 B2 B3.
  cbv beta in H1, H2, H3.
  assert (F1 : Forall (fun r => (is_flag (count_as_new_injury_registration (flags r)) /\
                                 is_flag (is_il_transfer (flags r)) /\
                                 count_as_new_injury_registration (flags r) +
                                 is_il_transfer (flags r) <= 1) /\
                                (is_flag (is_il_activation (flags r)) /\
                                 is_flag (is_rehab_assignment (flags r))))
                      (rows_on d rows)).
  { eapply Forall_impl; [exact Hon|]. intros r Hr. apply classified_flags. exact Hr. }
  specialize (H1 ltac:(eapply Forall_impl; [exact F1|]; intros r Hr; apply Hr)).
  specialize (H2 ltac:(eapply Forall_impl; [exact F1|]; intros r [_ [[E|E] _]];
                       rewrite E; unfold is_flag; lia)).
  specialize (H3 ltac:(eapply Forall_impl; [exact F1|]; intros r [_ [_ [E|E]]];
                       rewrite E; unfold is_flag; lia)).
  rewrite sum_Z_map_zero in H2, H3.
  lia.
Qed.

End ShapeTheorems.

(** X5: [build_daily_series] is a group-by on the event date: when it
    returns, its rows are, for the days [daterange] yields and in that
    order, the ISO date, the year, the number of injury rows whose event
    date is that ISO date, and the sums of their count, activation,
    transfer and rehab flags. *)
Theorem build_daily_series_by_day (rows : list FlatRow) (start end_ : PyDate.t)
    (out : list Daily.row) :
  build_daily_series rows start end_ = Ok out ->
  exists days, daterange start end_ = Ok days /\ out = List.map (day_stats rows) days.
Proof. apply build_daily_series_inv. Qed.

(** * The tables of a run *)

Lemma is_injury_row_flag (r : FlatRow) :
  is_injury_row r = (is_injury_related (flags r) =? 1).
Proof. unfold is_injury_row. rewrite int_or_0_id. reflexivity. Qed.

Lemma filter_injury_rows (l : list FlatRow) :
  List.filter is_injury_row l = List.filter (fun r => is_injury_related (flags r) =? 1) l.
Proof. apply List.filter_ext. intros r. apply is_injury_row_flag. Qed.

Section TableFacts.
Context {U : UnicodeDB} {host : Host}.
Variable urlencode : list (pystr * pyval) -> pystr.
Variable net : nat -> pystr -> result pyval.

Lemma last_day_before_max (args : Args) (out : Output) :
  main urlencode net args = Ok out -> last_day args <> PyDate.max.
Proof.
  intros H E. apply main_inv in H as (_ & V1 & _ & fetched & sorted & daily & _ & _ & Hd & _).
  apply build_daily_series_inv in Hd as (days & Hdays & _).
  rewrite E, daterange_to_max in Hdays; [discriminate Hdays|exact V1].
Qed.

(** X6: a run completes only for years [1 <= start_year <= end_year <=
    9998]: an end year of 9999 makes the last step of [daterange] leave
    the calendar, and no table is returned. *)
Theorem main_year_range (args : Args) (out : Output) :
  main urlencode net args = Ok out ->
  1 <= start_year args /\ start_year args <= end_year args /\ end_year args <= 9998.
Proof.
  intros H. apply main_inv in H as (Hle & V1 & V2 & fetched & sorted & daily & _ & _ & Hd & _).
  pose proof (PyDateFacts.valid_bounds _ V1) as [[V1' _] _].
  pose proof (PyDateFacts.valid_bounds _ V2) as [[_ V2'] _].
  cbn [first_day last_day PyDate.year] in V1', V2'.
  split; [exact V1'|]. split; [exact Hle|].
  destruct (Z.eq_dec (end_year args) 9999) as [E|N]; [|lia].
  exfalso. apply build_daily_series_inv in Hd as (days & Hdays & _).
  unfold last_day in Hdays. rewrite E in Hdays.
  change (PyDate.mk 9999 12 31) with PyDate.max in Hdays.
  rewrite daterange_to_max in Hdays; [discriminate Hdays|].
  exact V1.
Qed.

(** X7: the injury table of a completed run is the flat table restricted
    to the rows whose [is_injury_related] is 1, in the same order, each
    row with its count flag as one more column; [list.sort] rearranging
    the rows it is given, every row of both tables is a well formed row of
    [flatten_transaction]. *)
Theorem main_injury_table (args : Args) (out : Output) :
  sort_rearranges host ->
  main urlencode net args = Ok out ->
  exists sorted,
    csv_rows (raw_file out) = List.map raw_values sorted /\
    csv_rows (injury_file out) =
      List.map injury_values
        (List.filter (fun r => is_injury_related (flags r) =? 1) sorted) /\
    (forall r, injury_values r =
               raw_values r ++ [PInt (count_as_new_injury_registration (flags r))]) /\
    Forall (fun r => classified r /\ dated r) sorted.
Proof.
  intros HP H. apply main_inv in H
    as (_ & _ & _ & fetched & sorted & daily & Hf & Hs & _ & _ & Hraw & _ & Hinj & _).
  exists sorted. split; [exact Hraw|]. split; [rewrite Hinj, filter_injury_rows; reflexivity|].
  split; [intros r; reflexivity|].
  eapply main_rows; eassumption.
Qed.

(** X8: the daily table of a completed run has one row for each day from
    January 1 of [start_year] to December 31 of [end_year], in calendar
    order, and the row of a day holds its ISO date, its year, and the
    counts of the rows of the injury table whose event date is that ISO
    date. *)
Theorem main_daily_table (args : Args) (out : Output) :
  main urlencode net args = Ok out ->
  exists sorted days,
    csv_rows (injury_file out) =
      List.map injury_values
        (List.filter (fun r => is_injury_related (flags r) =? 1) sorted) /\
    StronglySorted date_lt days /\
    (forall d, In d days <-> in_span (first_day args) (last_day args) d) /\
    csv_rows (daily_file out) =
      List.map
        (fun d =>
           daily_values
             (day_stats (List.filter (fun r => is_injury_related (flags r) =? 1) sorted) d))
        days /\
    (forall o, daily_values o =
               [ PStr (Daily.date o); PInt (Daily.year o);
                 PInt (Daily.injury_registrations o);
                 PInt (Daily.injury_related_transactions o);
                 PInt (Daily.il_activations o); PInt (Daily.il_transfers o);
                 PInt (Daily.rehab_assignments o) ]).
Proof.
  intros H. pose proof (last_day_before_max args out H) as Hmax.
  apply main_inv in H
    as (_ & V1 & V2 & fetched & sorted & daily & Hf & Hs & Hd & _ & _ & _ & Hinj & _ & Hday).
  destruct (daterange_spec _ _ V1 V2 Hmax) as (days & Hdays & Hsort & Hin).
  apply build_daily_series_inv in Hd as (days' & Hdays' & ->).
  rewrite Hdays in Hdays'. injection Hdays' as <-.
  exists sorted, days. rewrite <- filter_injury_rows.
  split; [exact Hinj|]. split; [exact Hsort|]. split; [exact Hin|].
  split; [rewrite Hday, List.map_map; reflexivity|]. intros o. reflexivity.
Qed.

End TableFacts.

(** * Registrations and event types *)

Section CountFacts.
Context {U : UnicodeDB}.

Lemma count_iff_placement_type (d : pystr) (f : Flags) :
  classify_injury (PStr d) = Ok f ->
  (count_as_new_injury_registration f = 1 <-> injury_event_type f = str "il_placement") /\
  (is_il_transfer f = 1 <-> injury_event_type f = str "il_transfer").
Proof.
  destruct (classify_injury_str d) as (f' & E & _ & H2 & H3 & H4 & H5 & _ & H7 & H8).
  rewrite E. intros [= <-]. rewrite H7, H8. unfold event_type_by_priority.
  rewrite H2, H3, H4, H5.
  destruct (found (re_search IL_PLACEMENT_RE (strip d)));
    destruct (found (re_search IL_TRANSFER_RE (strip d)));
    destruct (found (re_search IL_ACTIVATION_RE (strip d)));
    destruct (found (re_search REHAB_ASSIGNMENT_RE (strip d)));
    destruct (is_injury_related f' =? 1);
    cbn; (split; split; intros H; try reflexivity; try discriminate H).
Qed.

(** X9: the count flag and the event type agree: a description counts as
    a new registration exactly when its event type is [il_placement], and
    its transfer flag is 1 exactly when the type is [il_transfer]; so no
    transfer is counted. *)
Theorem count_flag_iff_placement_type (d : pystr) :
  exists f,
    classify_injury (PStr d) = Ok f /\
    (count_as_new_injury_registration f = 1 <-> injury_event_type f = str "il_placement") /\
    (is_il_transfer f = 1 <-> injury_event_type f = str "il_transfer") /\
    (injury_event_type f = str "il_transfer" -> count_as_new_injury_registration f = 0).
Proof.
  destruct (classify_injury_str d) as (f & E & _).
  exists f. split; [exact E|].
  destruct (count_iff_placement_type d f E) as [Hc Ht].
  split; [exact Hc|]. split; [exact Ht|].
  intros Hty. destruct (classify_injury_flags d f E) as (_ & _ & _ & _ & _ & _ & [H0|H1] & _).
  - exact H0.
  - apply Hc in H1. rewrite H1 in Hty. discriminate Hty.
Qed.

End CountFacts.

Lemma day_stats_registrations (rows : list FlatRow) (d : PyDate.t) :
  Daily.injury_registrations (day_stats rows d) = registrations_of (PyDate.isoformat d) rows.
Proof.
  unfold day_stats, registrations_of, rows_on. cbv zeta. cbn [Daily.injury_registrations].
  induction rows as [|r rows IH]; [reflexivity|]. cbn [List.filter List.map].
  change (sum_Z (?a :: ?b)) with (a + sum_Z b). rewrite <- IH.
  destruct (decide (row_key r = Some (PyDate.isoformat d))) as [E|N].
  - assert (Hon : on_day d r = true) by (apply bool_decide_eq_true_2; exact E).
    rewrite Hon, int_or_0_id. reflexivity.
  - assert (Hon : on_day d r = false) by (apply bool_decide_eq_false_2; exact N).
    rewrite Hon. symmetry. apply Z.add_0_l.
Qed.

Section TotalFacts.
Context {U : UnicodeDB} {host : Host}.
Variable urlencode : list (pystr * pyval) -> pystr.
Variable net : nat -> pystr -> result pyval.

Lemma dated_keyable (r : FlatRow) : dated r -> date_keyable r.
Proof.
  intros [[H _]|(c & s & y & H & _)]; [left; exact H|]. right. rewrite H. reflexivity.
Qed.

Lemma classified_count_is_flag (r : FlatRow) : classified r -> count_is_flag r.
Proof. intros H. apply classified_flags in H as [[H _] _]. exact H. Qed.

(** X10: over the daily table of a completed run, [list.sort]
    rearranging the rows it is given, [injury_registrations] adds up to
    the number of rows of the injury table whose count flag is 1, that is
    whose event type is [il_placement], and whose event date is the ISO
    date of a day of the table. *)
Theorem main_registrations_total (args : Args) (out : Output) :
  sort_rearranges host ->
  main urlencode net args = Ok out ->
  exists injury days,
    csv_rows (injury_file out) = List.map injury_values injury /\
    (forall d, In d days <-> in_span (first_day args) (last_day args) d) /\
    csv_rows (daily_file out) = List.map (fun d => daily_values (day_stats injury d)) days /\
    sum_Z (List.map (fun d => Daily.injury_registrations (day_stats injury d)) days) =
      Z.of_nat (length (List.filter (fun r => is_registration r && on_days days r) injury)) /\
    Forall (fun r => is_registration r = true <->
                     injury_event_type (flags r) = str "il_placement") injury.
Proof.
  intros HP H. pose proof (last_day_before_max urlencode net args out H) as Hmax.
  apply main_inv in H
    as (_ & V1 & V2 & fetched & sorted & daily & Hf & Hs & Hd & _ & _ & _ & Hinj & _ & Hday).
  destruct (daterange_spec _ _ V1 V2 Hmax) as (days & Hdays & Hsort & Hin).
  apply build_daily_series_inv in Hd as (days' & Hdays' & ->).
  rewrite Hdays in Hdays'. injection Hdays' as <-.
  pose proof (main_rows urlencode net args fetched sorted HP Hf Hs) as Hrows.
  assert (Hi : Forall (fun r => classified r /\ dated r) (List.filter is_injury_row sorted)).
  { rewrite Forall_forall in *. intros r Hr. apply Hrows.
    apply list_elem_of_In. apply list_elem_of_In, filter_In in Hr. apply Hr. }
  exists (List.filter is_injury_row sorted), days.
  split; [exact Hinj|]. split; [exact Hin|].
  split; [rewrite Hday, List.map_map; reflexivity|]. split.
  - assert (Hv : Forall PyDate.valid days).
    { apply Forall_forall. intros d Hd'. apply list_elem_of_In, Hin in Hd'. apply Hd'. }
    rewrite <- registrations_count.
    + rewrite <- (registrations_over_days days _ Hv (strongly_sorted_NoDup _ Hsort)).
      f_equal. apply List.map_ext. intros d. apply day_stats_registrations.
    + eapply Forall_impl; [exact Hi|]. intros r [Hc _]. apply classified_count_is_flag, Hc.
  - eapply Forall_impl; [exact Hi|]. intros r [(s & _ & Hc) _].
    apply count_iff_placement_type in Hc as [Hc _]. unfold is_registration.
    rewrite Z.eqb_eq. exact Hc.
Qed.

End TotalFacts.

(** * The groups of a match *)

Section GroupFacts.
Context {U : UnicodeDB}.

Lemma any_lazy_groups k prev rest pos groups m :
  any_lazy k prev rest pos groups = Some m ->
  exists st', ms_groups st' = groups /\ k st' = Some m.
Proof.
  revert prev pos. induction rest as [|c rest IH]; intros prev pos; cbn [any_lazy].
  - destruct (k (MState prev [] pos groups)) eqn:Hk; [|discriminate].
    intros [= <-]. eexists. split; [|exact Hk]. reflexivity.
  - destruct (k (MState prev (c :: rest) pos groups)) eqn:Hk.
    + intros [= <-]. eexists. split; [|exact Hk]. reflexivity.
    + destruct (c =? 10)%N; [discriminate|]. apply IH.
Qed.

(** A pattern without groups leaves the groups as they are. *)
Lemma rmatch_no_group r : forall k st m,
  no_group r = true -> rmatch r k st = Some m ->
  exists st', ms_groups st' = ms_groups st /\ k st' = Some m.
Proof.
  induction r as [| p | | | r1 IH1 r2 IH2 | r1 IH1 r2 IH2 | n r1 IH1];
    intros k st m Hn; cbn [rmatch]; cbn [no_group] in Hn.
  - intros H. exists st. split; [reflexivity|exact H].
  - destruct (ms_rest st) as [|c rest']; [discriminate|].
    destruct (lit_matches p c); [|discriminate].
    intros H. eexists. split; [|exact H]. reflexivity.
  - destruct (at_boundary st); [|discriminate].
    intros H. exists st. split; [reflexivity|exact H].
  - apply any_lazy_groups.
  - apply andb_true_iff in Hn as [Hn1 Hn2]. intros H.
    apply IH1 in H as (st1 & E1 & H); [|exact Hn1].
    apply IH2 in H as (st2 & E2 & H); [|exact Hn2].
    exists st2. split; [congruence|exact H].
  - apply andb_true_iff in Hn as [Hn1 Hn2].
    destruct (rmatch r1 k st) as [m1|] eqn:H1.
    + intros [= <-]. apply IH1 in H1; assumption.
    + intros H. apply IH2 in H; assumption.
  - discriminate Hn.
Qed.

(** A literal made of digits matches itself only. *)
Lemma rmatch_digits (s : pystr) : forall k st m,
  forallb is_ascii_digit s = true -> rmatch (rlit s) k st = Some m ->
  exists st', k st' = Some m /\ ms_rest st = s ++ ms_rest st' /\
              ms_pos st' = (ms_pos st + length s)%nat /\ ms_groups st' = ms_groups st.
Proof.
  induction s as [|p s IH]; intros k st m Hd; cbn [rlit rmatch].
  - intros H. exists st. split; [exact H|]. split; [reflexivity|].
    split; [cbn; lia|reflexivity].
  - cbn [forallb] in Hd. apply andb_true_iff in Hd as [Hp Hd].
    destruct (ms_rest st) as [|c rest'] eqn:Hr; [discriminate|].
    destruct (lit_matches p c) eqn:Hl; [|discriminate].
    assert (c = p) as ->.
    { unfold lit_matches in Hl. unfold is_ascii_digit in Hp.
      unfold is_ascii_upper, is_ascii_lower in Hl.
      apply andb_true_iff in Hp as [Hp1 Hp2]. apply N.leb_le in Hp1, Hp2.
      replace ((65 <=? p)%N && (p <=? 90)%N) with false in Hl
        by (symmetry; apply andb_false_iff; left; apply N.leb_gt; lia).
      replace ((97 <=? p)%N && (p <=? 122)%N) with false in Hl
        by (symmetry; apply andb_false_iff; left; apply N.leb_gt; lia).
      apply N.eqb_eq in Hl. exact Hl. }
    intros H. apply IH in H as (st' & Hk & Hrest & Hpos & Hg); [|exact Hd].
    exists st'. split; [exact Hk|]. cbn [advance ms_rest ms_pos ms_groups] in *.
    split; [rewrite Hrest; reflexivity|]. split; [cbn [length]; lia|exact Hg].
Qed.

Lemma firstn_app_length {A} (s rest : list A) (a b : nat) :
  b = (a + length s)%nat -> firstn (b - a) (s ++ rest) = s.
Proof.
  intros ->. replace (a + length s - a)%nat with (length s) by lia.
  rewrite firstn_app, Nat.sub_diag, firstn_all. cbn. apply app_nil_r.
Qed.

(** A match of the day pattern captures one of its four numbers. *)
Lemma day_class_group (st m : mstate) :
  ms_groups st = [] ->
  rmatch IL_DAY_CLASS_RE Some st = Some m ->
  In (group_get (ms_groups m) 1)
     [ Some (str "7"); Some (str "10"); Some (str "15"); Some (str "60") ].
Proof.
  intros Hg0. unfold IL_DAY_CLASS_RE. cbn [rseq].
  change (rmatch (RSeq RWordB ?r) Some st) with (rmatch RWordB (rmatch r Some) st).
  cbn [rmatch]. destruct (at_boundary st); [|discriminate].
  set (tail := RSeq (rlit (str "-day ")) (RSeq il_list (RSeq RWordB REmpty))).
  set (k := fun st' => rmatch tail Some (set_group 1 st st')).
  assert (Hk : forall s st', forallb is_ascii_digit s = true ->
                 ms_rest st = s ++ ms_rest st' ->
                 ms_pos st' = (ms_pos st + length s)%nat ->
                 k st' = Some m -> group_get (ms_groups m) 1 = Some s).
  { intros s st' _ Hrest Hpos H. unfold k in H.
    apply rmatch_no_group in H as (st2 & E & H); [|reflexivity].
    injection H as <-. rewrite E. cbn [set_group ms_groups group_get Nat.eqb].
    rewrite Hrest, (firstn_app_length s (ms_rest st') (ms_pos st) (ms_pos st') Hpos).
    reflexivity. }
  intros H.
  change (match rmatch (rlit (str "7")) k st with
          | Some m' => Some m'
          | None =>
              match rmatch (rlit (str "10")) k st with
              | Some m' => Some m'
              | None =>
                  match rmatch (rlit (str "15")) k st with
                  | Some m' => Some m'
                  | None => rmatch (rlit (str "60")) k st
                  end
              end
          end = Some m) in H.
  destruct (rmatch (rlit (str "7")) k st) as [m1|] eqn:H7.
  { injection H as ->. apply rmatch_digits in H7 as (st' & H' & Hr & Hp & _); [|reflexivity].
    rewrite (Hk (str "7") _ eq_refl Hr Hp H'). left. reflexivity. }
  destruct (rmatch (rlit (str "10")) k st) as [m1|] eqn:H10.
  { injection H as ->. apply rmatch_digits in H10 as (st' & H' & Hr & Hp & _); [|reflexivity].
    rewrite (Hk (str "10") _ eq_refl Hr Hp H'). right. left. reflexivity. }
  destruct (rmatch (rlit (str "15")) k st) as [m1|] eqn:H15.
  { injection H as ->. apply rmatch_digits in H15 as (st' & H' & Hr & Hp & _); [|reflexivity].
    rewrite (Hk (str "15") _ eq_refl Hr Hp H'). right. right. left. reflexivity. }
  apply rmatch_digits in H as (st' & H' & Hr & Hp & _); [|reflexivity].
  rewrite (Hk (str "60") _ eq_refl Hr Hp H'). right. right. right. left. reflexivity.
Qed.

Lemma search_from_match r rest : forall prev pos m,
  search_from r prev rest pos = Some m ->
  exists st, ms_groups st = [] /\ rmatch r Some st = Some m.
Proof.
  induction rest as [|c rest IH]; intros prev pos m; cbn [search_from].
  - destruct (rmatch r Some (MState prev [] pos [])) eqn:H; [|discriminate].
    intros [= <-]. eexists. split; [|exact H]. reflexivity.
  - destruct (rmatch r Some (MState prev (c :: rest) pos [])) eqn:H.
    + intros [= <-]. eexists. split; [|exact H]. reflexivity.
    + apply IH.
Qed.

End GroupFacts.

(** * The day bucket *)

Lemma startswith_inv (kw : pystr) : forall hay,
  startswith hay kw = true -> exists post, hay = kw ++ post.
Proof.
  induction kw as [|p kw IH]; intros hay H.
  - exists hay. reflexivity.
  - destruct hay as [|c hay]; [discriminate H|]. cbn [startswith] in H.
    apply andb_true_iff in H as [E H]. apply N.eqb_eq in E as ->.
    apply IH in H as [post ->]. exists post. reflexivity.
Qed.

Lemma contains_inv (kw : pystr) : forall hay,
  contains kw hay = true -> exists pre post, hay = pre ++ kw ++ post.
Proof.
  induction hay as [|c hay IH]; cbn [contains]; intros H.
  - rewrite orb_false_r in H. apply startswith_inv in H as [post ->].
    exists [], post. reflexivity.
  - apply orb_true_iff in H as [H|H].
    + apply startswith_inv in H as [post ->]. exists [], post. reflexivity.
    + apply IH in H as (pre & post & ->). exists (c :: pre), post. reflexivity.
Qed.

(** A text that contains a phrase contains the end of the phrase. *)
Lemma contains_tail (a b hay : pystr) :
  contains (a ++ b) hay = true -> contains b hay = true.
Proof.
  intros H. apply contains_inv in H as (pre & post & ->).
  rewrite <- app_assoc, app_assoc. apply contains_app.
Qed.

Section BucketFacts.
Context {U : UnicodeDB}.

Lemma classify_injury_bucket (d : pystr) :
  exists f,
    classify_injury (PStr d) = Ok f /\
    is_injury_related f =
      int_of_bool (existsb (fun k => contains k (lower (strip d))) INJURY_KEYWORDS) /\
    is_covid_il f = int_of_bool (contains (str "covid-19 injured list") (lower (strip d))) /\
    il_days_bucket f =
      match re_search IL_DAY_CLASS_RE (strip d) with
      | Some m =>
          match group_get (ms_groups m) 1 with
          | Some g => Some (g ++ str "-day")
          | None => Some (str "None-day")
          end
      | None =>
          if contains (str "covid-19 injured list") (lower (strip d)) then Some (str "covid-19")
          else if contains (str "concussion injured list") (lower (strip d))
                  || contains (str "concussion disabled list") (lower (strip d))
          then Some (str "concussion")
          else None
      end.
Proof.
  assert (Hs : py_strip (py_or (PStr d) (PStr [])) = Ok (strip d)) by (destruct d; reflexivity).
  unfold classify_injury. rewrite Hs. cbv beta iota delta [bind].
  eexists. split; [reflexivity|]. repeat split.
Qed.

Lemma concussion_in_keywords (text : pystr) :
  contains (str "concussion injured list") (lower text)
  || contains (str "concussion disabled list") (lower text) = true ->
  existsb (fun k => contains k (lower text)) INJURY_KEYWORDS = true.
Proof.
  intros H. unfold INJURY_KEYWORDS. cbn [existsb]. apply orb_true_iff in H as [H|H].
  - rewrite H. rewrite !orb_true_r. reflexivity.
  - change (str "concussion disabled list") with (str "concussion " ++ str "disabled list") in H.
    apply contains_tail in H. rewrite H. rewrite !orb_true_r. reflexivity.
Qed.

(** X11: [il_days_bucket] takes seven values only: [None], the four day
    classes ["7-day"], ["10-day"], ["15-day"], ["60-day"] (the number the
    day pattern captured), ["covid-19"] and ["concussion"]. *)
Theorem il_days_bucket_values (d : pystr) :
  exists f, classify_injury (PStr d) = Ok f /\ In (il_days_bucket f) BUCKETS.
Proof.
  destruct (classify_injury_bucket d) as (f & E & _ & _ & Hb).
  exists f. split; [exact E|]. rewrite Hb. unfold BUCKETS.
  destruct (re_search IL_DAY_CLASS_RE (strip d)) as [m|] eqn:Hm.
  - unfold re_search in Hm. apply search_from_match in Hm as (st & Hg & Hm).
    pose proof (day_class_group st m Hg Hm) as Hin. cbn [In] in Hin.
    destruct Hin as [<-|[<-|[<-|[<-|[]]]]]; cbn [In app]; auto 8.
  - destruct (contains (str "covid-19 injured list") (lower (strip d)));
      [cbn [In]; auto 8|].
    destruct (contains (str "concussion injured list") (lower (strip d))
              || contains (str "concussion disabled list") (lower (strip d)));
      cbn [In]; auto 8.
Qed.

(** X12: a covid description is an injury description with a bucket: when
    [is_covid_il] is 1, [is_injury_related] is 1 and [il_days_bucket] is
    not [None]; and a bucket ["covid-19"] or ["concussion"] is found on
    injury-related descriptions only. *)
Theorem covid_implies_related_and_bucket (d : pystr) :
  exists f,
    classify_injury (PStr d) = Ok f /\
    (is_covid_il f = 1 -> is_injury_related f = 1 /\ il_days_bucket f <> None) /\
    (il_days_bucket f = Some (str "covid-19") \/ il_days_bucket f = Some (str "concussion") ->
     is_injury_related f = 1).
Proof.
  destruct (classify_injury_bucket d) as (f & E & Hr & Hc & Hb).
  exists f. split; [exact E|]. rewrite Hr, Hc, Hb. split.
  - intros H. apply int_of_bool_1 in H. split.
    + rewrite (covid_in_keywords _ H). reflexivity.
    + rewrite H. destruct (re_search IL_DAY_CLASS_RE (strip d)) as [m|]; [|discriminate].
      destruct (group_get (ms_groups m) 1); discriminate.
  - destruct (re_search IL_DAY_CLASS_RE (strip d)) as [m|] eqn:Hm.
    + unfold re_search in Hm. apply search_from_match in Hm as (st & Hg & Hm).
      pose proof (day_class_group st m Hg Hm) as Hin. cbn [In] in Hin.
      destruct Hin as [<-|[<-|[<-|[<-|[]]]]]; intros [H|H]; discriminate H.
    + destruct (contains (str "covid-19 injured list") (lower (strip d))) eqn:Hcov.
      * intros _. rewrite (covid_in_keywords _ Hcov). reflexivity.
      * destruct (contains (str "concussion injured list") (lower (strip d))
                  || contains (str "concussion disabled list") (lower (strip d))) eqn:Hcon.
        -- intros _. rewrite (concussion_in_keywords _ Hcon). reflexivity.
        -- intros [H|H]; discriminate H.
Qed.

End BucketFacts.

(** * White space around a description *)

Lemma lstrip_spaces (ws x : pystr) :
  forallb isspace ws = true -> lstrip (ws ++ x) = lstrip x.
Proof.
  induction ws as [|c ws IH]; intros H; [reflexivity|].
  cbn [forallb] in H. apply andb_true_iff in H as [Hc H].
  cbn [app lstrip]. rewrite Hc. apply IH, H.
Qed.

Lemma lstrip_cases (d : pystr) :
  (forallb isspace d = true /\ lstrip d = []) \/
  (exists c t, lstrip d = c :: t /\ isspace c = false).
Proof.
  induction d as [|c d IH]; [left; split; reflexivity|].
  cbn [lstrip forallb]. destruct (isspace c) eqn:Hc.
  - destruct IH as [[H1 H2]|H]; [left; split; assumption|right; exact H].
  - right. exists c, d. split; [reflexivity|exact Hc].
Qed.

Lemma lstrip_app (d post : pystr) (c : N) (t : pystr) :
  lstrip d = c :: t -> lstrip (d ++ post) = lstrip d ++ post.
Proof.
  induction d as [|x d IH]; [discriminate|]. cbn [lstrip app].
  destruct (isspace x); [exact IH|]. intros _. reflexivity.
Qed.

Lemma forallb_rev {A} (f : A -> bool) (l : list A) :
  forallb f l = true -> forallb f (rev l) = true.
Proof.
  intros H. apply forallb_forall. intros x Hx. apply in_rev in Hx.
  rewrite forallb_forall in H. apply H, Hx.
Qed.

Lemma strip_spaces (d : pystr) : forallb isspace d = true -> strip d = [].
Proof.
  intros H. unfold strip.
  assert (E : lstrip d = []).
  { rewrite <- (app_nil_r d), lstrip_spaces by exact H. reflexivity. }
  rewrite E. reflexivity.
Qed.

(** [strip] removes the white space around a text and nothing else. *)
Lemma strip_pad (pre d post : pystr) :
  forallb isspace pre = true -> forallb isspace post = true ->
  strip (pre ++ d ++ post) = strip d.
Proof.
  intros Hpre Hpost. unfold strip. rewrite (lstrip_spaces pre _ Hpre).
  destruct (lstrip_cases d) as [[Hd E]|(c & t & E & Hc)].
  - rewrite E. rewrite <- (app_nil_r (d ++ post)), lstrip_spaces; [reflexivity|].
    rewrite forallb_app. rewrite Hd, Hpost. reflexivity.
  - rewrite (lstrip_app d post c t E). rewrite rev_app_distr.
    rewrite lstrip_spaces by (apply forallb_rev; exact Hpost). reflexivity.
Qed.

Section BlankFacts.
Context {U : UnicodeDB}.

Lemma classify_injury_empty : classify_injury (PStr []) = Ok NO_INJURY.
Proof. reflexivity. Qed.

Lemma classify_injury_text (d d' : pystr) :
  strip d = strip d' -> classify_injury (PStr d) = classify_injury (PStr d').
Proof.
  intros E.
  assert (Hs : forall x, py_strip (py_or (PStr x) (PStr [])) = Ok (strip x))
    by (intros x; destruct x; reflexivity).
  unfold classify_injury. rewrite !Hs, E. reflexivity.
Qed.

Lemma classify_injury_falsy (v : pyval) :
  truthy v = false -> classify_injury v = classify_injury (PStr []).
Proof.
  intros H. unfold classify_injury, py_or. rewrite H. reflexivity.
Qed.

(** X13: the classifier reads the text between the white space: white
    space before and after a description changes none of the flags. *)
Theorem classify_injury_ignores_padding (pre d post : pystr) :
  forallb isspace pre = true -> forallb isspace post = true ->
  classify_injury (PStr (pre ++ d ++ post)) = classify_injury (PStr d).
Proof.
  intros Hpre Hpost. apply classify_injury_text. apply strip_pad; assumption.
Qed.

(** X14: a description with no text, be it [None], another falsy value or
    a string of white space, is classified [non_injury] with every flag 0
    and no bucket. *)
Theorem classify_injury_blank (v : pyval) :
  blank v -> classify_injury v = Ok NO_INJURY.
Proof.
  intros [H|(d & -> & H)].
  - rewrite (classify_injury_falsy v H). apply classify_injury_empty.
  - rewrite (classify_injury_text d []); [apply classify_injury_empty|].
    rewrite (strip_spaces d H). reflexivity.
Qed.

(** X15: [classify_injury] returns exactly on the falsy values and on the
    strings; on any other value, a number or a container that is not
    empty, [.strip()] raises [AttributeError]. *)
Theorem classify_injury_domain (v : pyval) :
  ((exists f, classify_injury v = Ok f) <-> (truthy v = false \/ exists s, v = PStr s)) /\
  ((forall f, classify_injury v <> Ok f) -> classify_injury v = Raise AttributeError).
Proof.
  assert (Hor : classify_injury (py_or v (PStr [])) = classify_injury v).
  { unfold classify_injury, py_or. destruct (truthy v) eqn:Ht; [rewrite Ht|]; reflexivity. }
  assert (Hcases : (truthy v = false \/ exists s, v = PStr s) \/
                   (truthy v = true /\ forall s, v <> PStr s)).
  { destruct (truthy v) eqn:Ht; [|left; left; reflexivity].
    destruct v as [| | | |s| |]; try (right; split; [reflexivity|discriminate]).
    left. right. exists s. reflexivity. }
  destruct Hcases as [Hok|[Ht Hns]].
  - destruct (classify_injury_ok v Hok) as [f E]. rewrite Hor in E. split.
    + split; [intros _; exact Hok|intros _; exists f; exact E].
    + intros H. exfalso. apply (H f). exact E.
  - pose proof (classify_injury_raises v Ht Hns) as E. rewrite Hor in E. split.
    + split.
      * intros [f H]. rewrite E in H. discriminate H.
      * intros [H|[s H]]; [rewrite Ht in H; discriminate H|exfalso; exact (Hns s H)].
    + intros _. exact E.
Qed.

End BlankFacts.

(** * The exceptions of the flattener *)

Section FlattenErrors.
Context {U : UnicodeDB}.

Lemma int_of_str_raise (s : pystr) (e : exn) : int_of_str s = Raise e -> e = ValueError.
Proof.
  unfold int_of_str.
  destruct (transform_decimal_and_space s) as [a|]; [|intros [= <-]; reflexivity].
  destruct (skip_c_spaces a) as [|c body];
    [intros [= <-]; reflexivity|].
  destruct (c =? 43)%N; [|destruct (c =? 45)%N].
  all: cbv beta iota zeta.
  1, 2: destruct body as [|x body']; [intros [= <-]; reflexivity|].
  all: destruct (is_ascii_digit _); [|intros [= <-]; reflexivity].
  all: destruct (scan_digits _ _ _) as [[n rest]|]; [|intros [= <-]; reflexivity].
  all: destruct (skip_c_spaces rest); [discriminate|intros [= <-]; reflexivity].
Qed.

Lemma description_raises (items : list (pystr * pyval)) (e' : exn) :
  classify_injury (py_or (dict_get items "description") (PStr [])) = Raise e' ->
  e' = AttributeError /\ truthy (dict_get items "description") = true /\
  forall s, dict_get items "description" <> PStr s.
Proof.
  intros He.
  destruct (truthy (dict_get items "description")) eqn:Ht.
  - destruct (dict_get items "description") as [| | | |s| |] eqn:Hd.
    5: { destruct (classify_injury_ok (PStr s)) as [f Hf];
           [right; exists s; reflexivity|]. rewrite Hf in He. discriminate He. }
    all: rewrite classify_injury_raises in He by (first [exact Ht|discriminate]).
    all: injection He as <-; split; [reflexivity|]; split; [reflexivity|discriminate].
  - destruct (classify_injury_ok (dict_get items "description")) as [f Hf];
      [left; exact Ht|]. rewrite Hf in He. discriminate He.
Qed.

(** X16: the exceptions of [flatten_transaction], in the order the code
    meets them: [AttributeError] for a transaction that is not a dict;
    [TypeError] for a truthy event date that is not a string;
    [ValueError] for a date string whose first four characters are not
    an integer; [AttributeError] for a truthy description that is not a
    string. *)
Theorem flatten_transaction_errors (tx : pyval) (e : exn) :
  flatten_transaction tx = Raise e ->
  (e = AttributeError /\ forall items, tx <> PDict items) \/
  exists items,
    tx = PDict items /\
    ((e = TypeError /\ truthy (choose_event_date items) = true /\
      forall s, choose_event_date items <> PStr s) \/
     (e = ValueError /\
      exists s, choose_event_date items = PStr s /\ s <> [] /\
                int_of_str (firstn 4 s) = Raise ValueError) \/
     (e = AttributeError /\
      (truthy (choose_event_date items) = false \/
       exists s y, choose_event_date items = PStr s /\ int_of_str (firstn 4 s) = Ok y) /\
      truthy (dict_get items "description") = true /\
      forall s, dict_get items "description" <> PStr s)).
Proof.
  destruct tx as [| | | | | |items];
    try (intros [= <-]; left; split; [reflexivity|discriminate]).
  cbn [flatten_transaction]. intros H. right. exists items. split; [reflexivity|].
  destruct (truthy (choose_event_date items)) eqn:Ht.
  - destruct (choose_event_date items) as [| | | |s| |] eqn:Hd.
    5: { cbn [int_of_first4] in H.
         destruct (int_of_str (firstn 4 s)) as [y|e'] eqn:Hy; cbn [bind] in H.
         - destruct (classify_injury _) as [f|e'] eqn:Hf; [discriminate H|]. cbn [bind] in H.
           injection H as <-. apply description_raises in Hf as (-> & Hf1 & Hf2).
           right. right. split; [reflexivity|]. split; [|split; assumption].
           right. exists s, y. split; [reflexivity|exact Hy].
         - injection H as <-. pose proof (int_of_str_raise _ _ Hy) as ->.
           right. left. split; [reflexivity|]. exists s. split; [reflexivity|].
           split; [|exact Hy]. intros ->. discriminate Ht. }
    all: cbn [int_of_first4 bind] in H; injection H as <-.
    all: left; split; [reflexivity|]; split; [reflexivity|discriminate].
  - cbn [bind] in H.
    destruct (classify_injury _) as [f|e'] eqn:Hf; [discriminate H|]. cbn [bind] in H.
    injection H as <-. apply description_raises in Hf as (-> & Hf1 & Hf2).
    right. right. split; [reflexivity|]. split; [left; reflexivity|split; assumption].
Qed.

End FlattenErrors.

(** * ISO dates as strings *)

Module IsoFacts.
Import PyDate PyDateFacts.

Lemma str_ltb_app (x x' y y' : pystr) :
  length x = length x' ->
  (str_ltb (x ++ y) (x' ++ y') = true <->
   str_ltb x x' = true \/ (x = x' /\ str_ltb y y' = true)).
Proof.
  revert x'. induction x as [|a x IH]; intros [|a' x'] Hlen; try discriminate Hlen.
  - cbn [app]. split.
    + intros H. right. split; [reflexivity|exact H].
    + intros [H|[_ H]]; [destruct y'; discriminate H|exact H].
  - cbn [app]. rewrite !str_ltb_cons. injection Hlen as Hlen. rewrite (IH x' Hlen). split.
    + intros [H|[-> [H|[-> H]]]].
      * left. left. exact H.
      * left. right. split; [reflexivity|exact H].
      * right. split; [reflexivity|exact H].
    + intros [[H|[-> H]]|[E H]].
      * left. exact H.
      * right. split; [reflexivity|]. left. exact H.
      * injection E as -> ->. right. split; [reflexivity|]. right. split; [reflexivity|exact H].
Qed.

(** Zero-padded numbers of one width compare as strings the way they
    compare as numbers. *)
Lemma str_ltb_digits (w : nat) : forall a b,
  0 <= a < 10 ^ Z.of_nat w -> 0 <= b < 10 ^ Z.of_nat w ->
  (str_ltb (digits w a) (digits w b) = true <-> a < b).
Proof.
  induction w as [|w IH]; intros a b Ha Hb.
  - cbn in Ha, Hb. cbn [digits str_ltb]. split; [discriminate|lia].
  - cbn [digits]. rewrite Nat2Z.inj_succ, Z.pow_succ_r in Ha, Hb by lia.
    assert (Ha' : 0 <= a / 10 < 10 ^ Z.of_nat w)
      by (split; [apply Z.div_pos; lia|apply Z.div_lt_upper_bound; lia]).
    assert (Hb' : 0 <= b / 10 < 10 ^ Z.of_nat w)
      by (split; [apply Z.div_pos; lia|apply Z.div_lt_upper_bound; lia]).
    rewrite str_ltb_app by (rewrite !length_digits; reflexivity).
    rewrite (IH _ _ Ha' Hb'). cbn [str_ltb]. rewrite andb_false_r, orb_false_r, N.ltb_lt.
    pose proof (Z.mod_pos_bound a 10 ltac:(lia)) as Ma.
    pose proof (Z.mod_pos_bound b 10 ltac:(lia)) as Mb.
    pose proof (Z.div_mod a 10 ltac:(lia)) as Da.
    pose proof (Z.div_mod b 10 ltac:(lia)) as Db.
    split.
    + intros [H|[E H]]; [lia|].
      apply digits_inj in E; [|assumption|assumption]. lia.
    + intros H. destruct (Z.lt_trichotomy (a / 10) (b / 10)) as [L|[E|G]].
      * left. exact L.
      * right. split; [rewrite E; reflexivity|]. lia.
      * lia.
Qed.

Lemma str_ltb_sep (y y' : pystr) :
  str_ltb (45%N :: y) (45%N :: y') = true <-> str_ltb y y' = true.
Proof.
  rewrite str_ltb_cons. split; [intros [H|[_ H]]; [lia|exact H]|].
  intros H. right. split; [reflexivity|exact H].
Qed.

Lemma digits_eq (w : nat) (a b : Z) :
  0 <= a < 10 ^ Z.of_nat w -> 0 <= b < 10 ^ Z.of_nat w ->
  (digits w a = digits w b <-> a = b).
Proof.
  intros Ha Hb. split; [apply digits_inj; assumption|intros ->; reflexivity].
Qed.

Lemma isoformat_ltb (a b : t) :
  valid a -> valid b ->
  (str_ltb (isoformat a) (isoformat b) = true <-> ltb a b = true).
Proof.
  intros Va Vb.
  destruct (valid_bounds a Va) as (Ya & Ma & Da).
  destruct (valid_bounds b Vb) as (Yb & Mb & Db).
  pose proof (days_in_month_bounds (year a) (month a)) as Ba.
  pose proof (days_in_month_bounds (year b) (month b)) as Bb.
  unfold isoformat. cbn [app].
  rewrite str_ltb_app by (rewrite !length_digits; reflexivity).
  rewrite str_ltb_sep.
  rewrite str_ltb_app by (rewrite !length_digits; reflexivity).
  rewrite str_ltb_sep.
  rewrite !str_ltb_digits by (cbn; lia).
  rewrite !digits_eq by (cbn; lia).
  unfold ltb. rewrite orb_true_iff, andb_true_iff, orb_true_iff, andb_true_iff.
  rewrite !Z.ltb_lt, !Z.eqb_eq. reflexivity.
Qed.

End IsoFacts.

(** X17: the ISO form of the dates is ten characters long, tells the dates
    apart and orders them: comparing two valid dates as strings, the way
    the flat table is sorted, is comparing them as days. *)
Theorem isoformat_order (a b : PyDate.t) :
  PyDate.valid a -> PyDate.valid b ->
  length (PyDate.isoformat a) = 10%nat /\
  (PyDate.isoformat a = PyDate.isoformat b <-> a = b) /\
  (str_ltb (PyDate.isoformat a) (PyDate.isoformat b) = true <-> PyDate.ltb a b = true).
Proof.
  intros Va Vb. split.
  - unfold PyDate.isoformat. rewrite !length_app, !PyDateFacts.length_digits. reflexivity.
  - split.
    + split; [apply PyDateFacts.isoformat_inj; assumption|intros ->; reflexivity].
    + apply IsoFacts.isoformat_ltb; assumption.
Qed.

(** * Reading the year of an ISO date *)

Section YearFacts.
Context {U : UnicodeDB}.
Import PyDate PyDateFacts.

Lemma digits_all_digits (w : nat) : forall n,
  forallb is_ascii_digit (digits w n) = true.
Proof.
  induction w as [|w IH]; intros n; [reflexivity|].
  cbn [digits]. rewrite forallb_app, IH. cbn [forallb andb].
  rewrite andb_true_r. unfold is_ascii_digit.
  pose proof (Z.mod_pos_bound n 10 ltac:(lia)) as M.
  apply andb_true_iff. split; apply N.leb_le; lia.
Qed.

Lemma scan_digits_all (l : pystr) : forall acc prev,
  forallb is_ascii_digit l = true -> prev <> 95%N ->
  scan_digits l acc prev = Some (fold_left digit_value l acc, []).
Proof.
  induction l as [|c l IH]; intros acc prev Hd Hp; cbn [scan_digits fold_left].
  - apply N.eqb_neq in Hp. rewrite Hp. reflexivity.
  - cbn [forallb] in Hd. apply andb_true_iff in Hd as [Hc Hd]. rewrite Hc.
    apply IH; [exact Hd|]. unfold is_ascii_digit in Hc.
    apply andb_true_iff in Hc as [H1 H2]. apply N.leb_le in H1, H2. lia.
Qed.

Lemma fold_digits (w : nat) : forall n acc,
  0 <= n -> fold_left digit_value (digits w n) acc = acc * 10 ^ Z.of_nat w + n mod 10 ^ Z.of_nat w.
Proof.
  induction w as [|w IH]; intros n acc Hn.
  - cbn [digits fold_left]. change (10 ^ Z.of_nat 0) with 1. rewrite Z.mod_1_r. lia.
  - cbn [digits]. rewrite fold_left_app. cbn [fold_left].
    rewrite IH by (apply Z.div_pos; lia). unfold digit_value.
    pose proof (Z.mod_pos_bound n 10 ltac:(lia)) as M.
    rewrite Z2N.id by lia.
    rewrite Nat2Z.inj_succ, Z.pow_succ_r by lia.
    rewrite (Z.rem_mul_r n 10 (10 ^ Z.of_nat w)) by lia. lia.
Qed.

Lemma transform_ascii (s : pystr) :
  forallb is_ascii_digit s = true -> transform_decimal_and_space s = Some s.
Proof.
  induction s as [|c s IH]; intros H; [reflexivity|].
  cbn [forallb] in H. apply andb_true_iff in H as [Hc H].
  cbn [transform_decimal_and_space]. rewrite (IH H).
  unfold decimal_and_space_to_ascii. unfold is_ascii_digit in Hc.
  apply andb_true_iff in Hc as [H1 H2]. apply N.leb_le in H1, H2.
  replace (c <? 128)%N with true by (symmetry; apply N.ltb_lt; lia). reflexivity.
Qed.

(** [int] reads a zero-padded number back. *)
Lemma int_of_str_digits (w : nat) (n : Z) :
  (0 < w)%nat -> 0 <= n < 10 ^ Z.of_nat w -> int_of_str (digits w n) = Ok n.
Proof.
  intros Hw Hn. pose proof (digits_all_digits w n) as Hd.
  pose proof (length_digits w n) as Hl.
  unfold int_of_str. rewrite (transform_ascii _ Hd).
  destruct (digits w n) as [|c l] eqn:E; [cbn in Hl; lia|].
  pose proof Hd as Hd'. cbn [forallb] in Hd'. apply andb_true_iff in Hd' as [Hc _].
  assert (Hc' := Hc). unfold is_ascii_digit in Hc'.
  apply andb_true_iff in Hc' as [H1 H2]. apply N.leb_le in H1, H2.
  cbn [skip_c_spaces]. unfold c_isspace.
  replace ((9 <=? c)%N && (c <=? 13)%N || (c =? 32)%N) with false.
  2: { symmetry. apply orb_false_iff. split.
       - apply andb_false_iff. right. apply N.leb_gt. lia.
       - apply N.eqb_neq. lia. }
  replace (c =? 43)%N with false by (symmetry; apply N.eqb_neq; lia).
  replace (c =? 45)%N with false by (symmetry; apply N.eqb_neq; lia).
  rewrite Hc. rewrite (scan_digits_all (c :: l) 0 0%N Hd) by discriminate.
  cbn [skip_c_spaces]. rewrite <- E, fold_digits by lia.
  rewrite Z.mod_small by lia. f_equal. lia.
Qed.

Lemma int_of_first4_isoformat (d : t) :
  valid d -> int_of_first4 (PStr (isoformat d)) = Ok (year d).
Proof.
  intros V. destruct (valid_bounds d V) as (Y & _ & _).
  cbn [int_of_first4]. unfold isoformat.
  rewrite firstn_app, length_digits, Nat.sub_diag. cbn [firstn].
  rewrite app_nil_r, firstn_all2 by (rewrite length_digits; lia).
  apply int_of_str_digits; [lia|cbn; lia].
Qed.

End YearFacts.

Section RoundTrip.
Context {U : UnicodeDB}.

(** X18: a transaction whose [date] is the ISO form of a day of the
    calendar and whose description is missing, falsy or a string is
    flattened to a row with that event date, whatever [effectiveDate] and
    [resolutionDate] say, whose year is the year of the day; over valid
    days that end before 9999-12-31, [build_daily_series] returns for that
    row the rows of the days of the span, and counts it as one injury
    transaction in the row of its day and as none in the row of any other
    day. *)
Theorem iso_dated_transaction_round_trip (items : list (pystr * pyval))
    (d start end_ : PyDate.t) :
  PyDate.valid d -> dict_get items "date" = PStr (PyDate.isoformat d) -> description_ok items ->
  PyDate.valid start -> PyDate.valid end_ -> end_ <> PyDate.max ->
  exists r days,
    flatten_transaction (PDict items) = Ok r /\
    event_date r = PStr (PyDate.isoformat d) /\
    year r = Some (PyDate.year d) /\
    daterange start end_ = Ok days /\
    (forall d', In d' days <-> in_span start end_ d') /\
    build_daily_series [r] start end_ = Ok (List.map (day_stats [r]) days) /\
    Daily.injury_related_transactions (day_stats [r] d) = 1 /\
    (forall d', PyDate.valid d' -> d' <> d ->
                Daily.injury_related_transactions (day_stats [r] d') = 0).
Proof.
  intros V Hdate Hdesc Vs Ve Hmax.
  assert (Hne : PyDate.isoformat d <> []) by apply PyDateFacts.isoformat_nonempty.
  assert (Hev : choose_event_date items = PStr (PyDate.isoformat d)).
  { unfold choose_event_date, py_or. rewrite Hdate. cbn [truthy].
    destruct (PyDate.isoformat d); [contradiction|reflexivity]. }
  assert (Ht : truthy (choose_event_date items) = true).
  { rewrite Hev. cbn [truthy]. destruct (PyDate.isoformat d); [contradiction|reflexivity]. }
  destruct (classify_injury_ok (dict_get items "description") Hdesc) as [f Hf].
  destruct (daterange_spec start end_ Vs Ve Hmax) as (days & Hdays & _ & Hin).
  cbn [flatten_transaction]. rewrite Ht, Hev, (int_of_first4_isoformat d V). cbn [bind].
  rewrite Hf. cbn [bind].
  set (r := {| transaction_id := dict_get items "id";
               api_date := dict_get items "date";
               effective_date := dict_get items "effectiveDate";
               resolution_date := dict_get items "resolutionDate";
               event_date := PStr (PyDate.isoformat d);
               year := Some (PyDate.year d);
               type_code := dict_get items "typeCode";
               type_desc := dict_get items "typeDesc";
               description := py_or (dict_get items "description") (PStr []);
               person_id := safe_get (dict_get items "person") "id";
               person_name := safe_get (dict_get items "person") "fullName";
               from_team_id := safe_get (dict_get items "fromTeam") "id";
               from_team_name := safe_get (dict_get items "fromTeam") "name";
               to_team_id := safe_get (dict_get items "toTeam") "id";
               to_team_name := safe_get (dict_get items "toTeam") "name";
               flags := f |}).
  assert (Hk : forall d', on_day d' r = bool_decide (PyDate.isoformat d = PyDate.isoformat d')).
  { intros d'. unfold on_day, row_key, r. cbn [event_date].
    destruct (PyDate.isoformat d) as [|c s] eqn:E; [contradiction|].
    apply bool_decide_ext. split; [|intros ->; reflexivity].
    intros H. apply (f_equal (fun o => match o with Some x => x | None => [] end)) in H.
    exact H. }
  assert (Hr : date_keyable r).
  { right. unfold r. reflexivity. }
  assert (Hrs : Forall date_keyable [r]) by (constructor; [exact Hr|constructor]).
  destruct (foldM_tally_ok [r] ∅ Hrs) as [m Hm].
  exists r, days. split; [reflexivity|]. split; [reflexivity|]. split; [reflexivity|].
  split; [exact Hdays|]. split; [exact Hin|]. split.
  - rewrite (build_daily_series_eq [r] start end_ m days Hm Hdays). f_equal.
    apply List.map_ext. intros d'. apply daily_row_stats. exact Hm.
  - unfold day_stats, rows_on. cbv zeta. cbn [Daily.injury_related_transactions List.filter].
    split.
    + rewrite Hk, bool_decide_eq_true_2 by reflexivity. reflexivity.
    + intros d' V' Hd'. rewrite Hk, bool_decide_eq_false_2; [reflexivity|].
      intros E. apply Hd'. symmetry. apply PyDateFacts.isoformat_inj; assumption.
Qed.

End RoundTrip.

(** * Counting the days *)

Module OrdinalFacts.
Import PyDate PyDateFacts.

Lemma days_before_month_succ (y m : Z) :
  1 <= m -> days_before_month y (m + 1) = days_before_month y m + days_in_month y m.
Proof.
  intros Hm. unfold days_before_month.
  replace (Z.to_nat (m + 1 - 1)) with (S (Z.to_nat (m - 1))) by lia.
  rewrite seq_S, List.map_app, sum_Z_app. cbn [List.map].
  change (sum_Z [?x]) with (x + 0). rewrite Z.add_0_r.
  replace (Z.of_nat (1 + Z.to_nat (m - 1))) with m by lia. reflexivity.
Qed.

Lemma days_before_month_1 (y : Z) : days_before_month y 1 = 0.
Proof. reflexivity. Qed.

Lemma days_before_month_mono (y : Z) (n : nat) : forall m,
  1 <= m -> days_before_month y m <= days_before_month y (m + Z.of_nat n).
Proof.
  induction n as [|n IH]; intros m Hm.
  - rewrite Z.add_0_r. lia.
  - replace (m + Z.of_nat (S n)) with ((m + Z.of_nat n) + 1) by lia.
    rewrite days_before_month_succ by lia.
    pose proof (days_in_month_bounds y (m + Z.of_nat n)). specialize (IH m Hm). lia.
Qed.

Lemma days_before_month_lt (y m m' : Z) :
  1 <= m < m' -> days_before_month y m + days_in_month y m <= days_before_month y m'.
Proof.
  intros H. rewrite <- days_before_month_succ by lia.
  replace m' with ((m + 1) + Z.of_nat (Z.to_nat (m' - (m + 1)))) by lia.
  apply days_before_month_mono. lia.
Qed.

Lemma days_before_month_13 (y : Z) : days_before_month y 13 = days_in_year y.
Proof.
  unfold days_before_month, days_in_year.
  change (Z.to_nat (13 - 1)) with 12%nat. cbn [seq List.map].
  unfold days_in_month. cbn [Z.of_nat Pos.of_succ_nat Pos.succ Z.eqb Pos.eqb orb].
  unfold sum_Z. cbn [fold_right]. destruct (is_leap y); reflexivity.
Qed.

Lemma days_before_year_succ (y : Z) :
  days_before_year (y + 1) = days_before_year y + days_in_year y.
Proof.
  unfold days_before_year, days_in_year, is_leap.
  replace (y + 1 - 1) with y by lia.
  destruct (Z.eqb_spec (y mod 4) 0) as [H4|H4];
    destruct (Z.eqb_spec (y mod 100) 0) as [H100|H100];
    destruct (Z.eqb_spec (y mod 400) 0) as [H400|H400];
    cbn [andb orb negb]; Z.div_mod_to_equations; lia.
Qed.

Lemma days_before_year_mono (y y' : Z) : y <= y' -> days_before_year y <= days_before_year y'.
Proof. unfold days_before_year. intros H. Z.div_mod_to_equations. lia. Qed.

(** The ordinal of a day of the year lies in the year. *)
Lemma toordinal_in_year (d : t) :
  valid d ->
  days_before_year (year d) < toordinal d <= days_before_year (year d + 1).
Proof.
  intros V. destruct (valid_bounds d V) as (Y & M & D).
  unfold toordinal. rewrite days_before_year_succ, <- days_before_month_13.
  pose proof (days_before_month_mono (year d) (Z.to_nat (month d - 1)) 1 ltac:(lia)) as H1.
  replace (1 + Z.of_nat (Z.to_nat (month d - 1))) with (month d) in H1 by lia.
  rewrite days_before_month_1 in H1.
  destruct (Z.eq_dec (month d) 12) as [E|N].
  - rewrite E in *. replace 13 with (12 + 1) by lia.
    rewrite days_before_month_succ by lia. lia.
  - pose proof (days_before_month_lt (year d) (month d) 13 ltac:(lia)). lia.
Qed.

Lemma toordinal_ltb (a b : t) :
  valid a -> valid b -> ltb a b = true -> toordinal a < toordinal b.
Proof.
  intros Va Vb H. unfold ltb in H.
  destruct (valid_bounds a Va) as (Ya & Ma & Da).
  destruct (valid_bounds b Vb) as (Yb & Mb & Db).
  apply orb_true_iff in H as [H|H].
  - apply Z.ltb_lt in H.
    pose proof (toordinal_in_year a Va). pose proof (toordinal_in_year b Vb).
    pose proof (days_before_year_mono (year a + 1) (year b) ltac:(lia)). lia.
  - apply andb_true_iff in H as [Hy H]. apply Z.eqb_eq in Hy.
    unfold toordinal. rewrite Hy in *. apply orb_true_iff in H as [H|H].
    + apply Z.ltb_lt in H.
      pose proof (days_before_month_lt (year b) (month a) (month b) ltac:(lia)). lia.
    + apply andb_true_iff in H as [Hm H]. apply Z.eqb_eq in Hm. apply Z.ltb_lt in H.
      rewrite Hm. lia.
Qed.

Lemma toordinal_leb (a b : t) :
  valid a -> valid b -> (leb a b = true <-> toordinal a <= toordinal b).
Proof.
  intros Va Vb. unfold leb. split.
  - intros H. apply negb_true_iff in H.
    destruct (Z.le_gt_cases (toordinal a) (toordinal b)) as [L|G]; [exact L|].
    exfalso. assert (Hr : ~ rank b < rank a).
    { intros Hr. apply (ltb_rank b a Vb Va) in Hr. rewrite Hr in H. discriminate H. }
    assert (Hab : rank a < rank b \/ rank a = rank b) by lia.
    destruct Hab as [Hab|Hab].
    + apply (ltb_rank a b Va Vb), toordinal_ltb in Hab; [lia|assumption|assumption].
    + apply rank_inj in Hab; [|assumption|assumption]. subst. lia.
  - intros H. apply negb_true_iff. apply not_true_is_false. intros Hlt.
    apply toordinal_ltb in Hlt; [lia|assumption|assumption].
Qed.

(** [d + timedelta(days=1)] is the day of the next ordinal. *)
Lemma add_day_toordinal (d d' : t) :
  valid d -> add_day d = Ok d' -> toordinal d' = toordinal d + 1.
Proof.
  intros V. destruct (valid_bounds d V) as (Y & M & D). unfold add_day.
  destruct (Z.ltb_spec (day d) (days_in_month (year d) (month d))) as [H1|H1].
  - intros [= <-]. unfold toordinal. cbn [year month day]. lia.
  - destruct (Z.ltb_spec (month d) 12) as [H2|H2].
    + intros [= <-]. unfold toordinal. cbn [year month day].
      rewrite days_before_month_succ by lia. lia.
    + destruct (Z.ltb_spec (year d) MAXYEAR) as [H3|H3]; [|discriminate].
      intros [= <-]. unfold toordinal. cbn [year month day].
      rewrite days_before_year_succ, <- days_before_month_13, days_before_month_1.
      assert (E : month d = 12) by lia. rewrite E.
      replace 13 with (12 + 1) by lia. rewrite days_before_month_succ by lia.
      rewrite E in *. lia.
Qed.

Lemma daterange_loop_length (fuel : nat) : forall cur end_ ds,
  valid cur -> valid end_ -> daterange_loop fuel cur end_ = Ok ds ->
  length ds = Z.to_nat (toordinal end_ - toordinal cur + 1).
Proof.
  induction fuel as [|fuel IH]; intros cur end_ ds Vc Ve; cbn [daterange_loop];
    [discriminate|].
  destruct (leb cur end_) eqn:Hle.
  - apply (toordinal_leb cur end_ Vc Ve) in Hle.
    destruct (add_day cur) as [next|e] eqn:Hn; [|discriminate]. cbn [bind].
    destruct (daterange_loop fuel next end_) as [rest|e] eqn:Hr; [|discriminate]. cbn [bind].
    intros [= <-]. pose proof (add_day_toordinal cur next Vc Hn) as Ho.
    assert (Hmax : cur <> max) by (intros ->; rewrite add_day_max in Hn; discriminate Hn).
    destruct (add_day_next cur Vc Hmax) as (d' & Hd' & Vn & _).
    rewrite Hn in Hd'. injection Hd' as <-.
    cbn [length]. rewrite (IH next end_ rest Vn Ve Hr). lia.
  - intros [= <-]. cbn [length].
    assert (~ toordinal cur <= toordinal end_).
    { intros H. apply (toordinal_leb cur end_ Vc Ve) in H. rewrite H in Hle. discriminate Hle. }
    lia.
Qed.

End OrdinalFacts.

(** X19: [daterange] yields the days from [start] to [end] inclusive,
    one for each ordinal: when it completes their number is
    [end.toordinal() - start.toordinal() + 1], none when [start] is after
    [end]. *)
Theorem daterange_length (start end_ : PyDate.t) (days : list PyDate.t) :
  PyDate.valid start -> PyDate.valid end_ -> daterange start end_ = Ok days ->
  length days = Z.to_nat (toordinal end_ - toordinal start + 1) /\
  (PyDate.ltb end_ start = true -> days = []).
Proof.
  intros Vs Ve H. unfold daterange in H.
  pose proof (OrdinalFacts.daterange_loop_length _ _ _ _ Vs Ve H) as L.
  split; [exact L|]. intros Hlt.
  apply OrdinalFacts.toordinal_ltb in Hlt; [|assumption|assumption].
  destruct days; [reflexivity|]. cbn [length] in L. lia.
Qed.

(** * The size of the daily table *)

Section LengthFacts.
Context {U : UnicodeDB} {host : Host}.
Variable urlencode : list (pystr * pyval) -> pystr.
Variable net : nat -> pystr -> result pyval.

Lemma toordinal_first_day (args : Args) :
  toordinal (first_day args) = days_before_year (start_year args) + 1.
Proof.
  unfold toordinal, first_day. cbn [PyDate.year PyDate.month PyDate.day].
  rewrite OrdinalFacts.days_before_month_1. lia.
Qed.

Lemma toordinal_last_day (args : Args) :
  toordinal (last_day args) = days_before_year (end_year args + 1).
Proof.
  unfold toordinal, last_day. cbn [PyDate.year PyDate.month PyDate.day].
  rewrite OrdinalFacts.days_before_year_succ, <- OrdinalFacts.days_before_month_13.
  replace 13 with (12 + 1) by lia.
  rewrite OrdinalFacts.days_before_month_succ, PyDateFacts.days_in_december by lia. lia.
Qed.

(** X20: the daily table of a completed run has as many rows as there are
    days in the years from [start_year] to [end_year]: 365 or 366 for a
    run over one year. *)
Theorem main_daily_length (args : Args) (out : Output) :
  main urlencode net args = Ok out ->
  length (csv_rows (daily_file out)) =
    Z.to_nat (days_before_year (end_year args + 1) - days_before_year (start_year args)) /\
  (start_year args = end_year args ->
   length (csv_rows (daily_file out)) = Z.to_nat (days_in_year (start_year args))).
Proof.
  intros H. apply main_inv in H
    as (_ & V1 & V2 & fetched & sorted & daily & _ & _ & Hd & _ & _ & _ & _ & _ & Hday).
  apply build_daily_series_inv in Hd as (days & Hdays & ->).
  assert (L : length (csv_rows (daily_file out)) =
              Z.to_nat (days_before_year (end_year args + 1)
                        - days_before_year (start_year args))).
  { rewrite Hday, !length_map.
    rewrite (OrdinalFacts.daterange_loop_length _ _ _ _ V1 V2 Hdays).
    rewrite toordinal_first_day, toordinal_last_day. f_equal. lia. }
  split; [exact L|]. intros E. rewrite L, <- E, OrdinalFacts.days_before_year_succ.
  f_equal. lia.
Qed.

End LengthFacts.

(** * The columns of the tables *)

Lemma items_get_keys (items : list (pystr * pyval)) (k : pystr) :
  items_get items k <> None <-> In k (List.map fst items).
Proof.
  induction items as [|[k' v] items IH]; cbn [items_get List.map In fst].
  - split; [intros H; exfalso; apply H; reflexivity|intros []].
  - destruct (decide (k' = k)) as [E|N].
    + split; [intros _; left; exact E|discriminate].
    + rewrite IH. split; [intros H; right; exact H|intros [H|H]; [contradiction|exact H]].
Qed.

(** X21: the keys of a flattened row are, in their order, the columns of
    the injury table, and the keys of a daily row the columns of the daily
    table; no table names a column twice.  So no cell is blank for want
    of a key, and the count flag is the one key of a flattened row that
    the flat table leaves out. *)
Theorem table_columns_are_row_keys :
  (forall r, List.map fst (flat_row_items r) = INJURY_COLUMNS) /\
  (forall o, List.map fst (daily_row_items o) = DAILY_COLUMNS) /\
  INJURY_COLUMNS = RAW_COLUMNS ++ [str "count_as_new_injury_registration"] /\
  (forall r k, In k INJURY_COLUMNS <-> items_get (flat_row_items r) k <> None) /\
  (forall o k, In k DAILY_COLUMNS <-> items_get (daily_row_items o) k <> None) /\
  NoDup INJURY_COLUMNS /\ NoDup DAILY_COLUMNS.
Proof.
  assert (H1 : forall r, List.map fst (flat_row_items r) = INJURY_COLUMNS)
    by (intros r; reflexivity).
  assert (H2 : forall o, List.map fst (daily_row_items o) = DAILY_COLUMNS)
    by (intros o; reflexivity).
  split; [exact H1|]. split; [exact H2|]. split; [reflexivity|].
  split; [intros r k; rewrite items_get_keys, H1; reflexivity|].
  split; [intros o k; rewrite items_get_keys, H2; reflexivity|].
  split; apply (bool_decide_unpack _); vm_compute; reflexivity.
Qed.

(** * What ends the series and the pause *)

(** X22: on valid dates [build_daily_series] has three outcomes: it
    returns when every event date is falsy or hashable and the end is
    before 9999-12-31; it raises [TypeError] when a row has a list or a
    dict that is not empty for event date; otherwise, the end being
    9999-12-31, it raises [OverflowError]. *)
Theorem build_daily_series_outcome (rows : list FlatRow) (start end_ : PyDate.t) :
  PyDate.valid start -> PyDate.valid end_ ->
  match build_daily_series rows start end_ with
  | Ok out => Forall date_keyable rows /\ end_ <> PyDate.max
  | Raise e =>
      (e = TypeError /\ ~ Forall date_keyable rows) \/
      (e = OverflowError /\ Forall date_keyable rows /\ end_ = PyDate.max)
  end.
Proof.
  intros Vs Ve. unfold build_daily_series.
  destruct (foldM tally rows ∅) as [m|e] eqn:Hm; cbn [bind].
  - pose proof (foldM_tally_ok_inv rows _ _ Hm) as Hk.
    destruct (Z.eq_dec (PyDate.rank end_) (PyDate.rank PyDate.max)) as [E|Hne].
    + apply PyDateFacts.rank_inj in E; [|exact Ve|exact PyDateFacts.valid_max]. subst end_.
      rewrite (daterange_to_max start Vs). cbn [bind]. right. repeat split. exact Hk.
    + assert (Hne' : end_ <> PyDate.max) by (intros ->; apply Hne; reflexivity).
      destruct (daterange_spec start end_ Vs Ve Hne') as (days & Hd & _).
      rewrite Hd. cbn [bind]. split; assumption.
  - apply foldM_tally_raise in Hm as [-> Hn]. left. split; [reflexivity|exact Hn].
Qed.

Section PauseFacts.
Context {U : UnicodeDB} {host : Host}.
Variable urlencode : list (pystr * pyval) -> pystr.
Variable net : nat -> pystr -> result pyval.

Lemma fetch_years_pause (pause : float) (todo : nat) (year : Z) (n : nat)
    (acc rows : list FlatRow) :
  (0 < todo)%nat ->
  fetch_years urlencode net pause todo year n acc = Ok rows -> time_sleep pause = Ok tt.
Proof.
  destruct todo as [|todo]; [lia|]. intros _. cbn [fetch_years]. cbv zeta.
  destruct (fetch_json net _ n) as [f|e]; [|discriminate]. cbn [bind].
  destruct (py_get_default (fst f) _ _) as [txs|e]; [|discriminate]. cbn [bind].
  destruct (py_len txs) as [len|e]; [|discriminate]. cbn [bind].
  destruct (py_iter txs) as [l|e]; [|discriminate]. cbn [bind].
  destruct (mapM flatten_transaction l) as [new|e]; [|discriminate]. cbn [bind].
  destruct (time_sleep pause) as [[]|e]; [|discriminate]. reflexivity.
Qed.

(** X23: a run completes only with a pause [time.sleep] accepts, since
    it sleeps once for every year and there is at least one: the value of
    [--sleep] is not NaN and not negative, and the clock of the host took
    it. *)
Theorem main_pause_accepted (args : Args) (out : Output) :
  main urlencode net args = Ok out ->
  time_sleep (sleep args) = Ok tt /\
  PrimFloat.is_nan (sleep args) = false /\ PrimFloat.ltb (sleep args) 0 = false /\
  host_sleep (sleep args) = Ok tt.
Proof.
  intros H. apply main_inv in H as (Hle & _ & _ & fetched & sorted & daily & Hf & _).
  apply fetch_years_pause in Hf; [|lia]. split; [exact Hf|].
  unfold time_sleep in Hf.
  destruct (PrimFloat.is_nan (sleep args)); [discriminate Hf|]. split; [reflexivity|].
  destruct (_ || _); [discriminate Hf|].
  destruct (PrimFloat.ltb (sleep args) 0); [discriminate Hf|]. split; [reflexivity|].
  cbn [orb] in Hf. destruct (PrimFloat.eqb _ _); [discriminate Hf|exact Hf].
Qed.

End PauseFacts.

(** * The rows of the years *)

Lemma years_from_S (year : Z) (todo : nat) :
  years_from year (S todo) = year :: years_from (year + 1) todo.
Proof.
  unfold years_from. cbn [seq List.map]. rewrite Z.add_0_r. f_equal.
  rewrite <- seq_shift, List.map_map. apply List.map_ext. intros k. lia.
Qed.

Section YearRows.
Context {U : UnicodeDB} {host : Host}.
Variable urlencode : list (pystr * pyval) -> pystr.
Variable net : nat -> pystr -> result pyval.

Lemma fetch_years_by_year (pause : float) (todo : nat) : forall year n acc rows,
  fetch_years urlencode net pause todo year n acc = Ok rows ->
  exists payloads rowss,
    Forall2 (fun y p => exists m, net m (year_url urlencode y) = Ok p)
      (years_from year todo) payloads /\
    Forall2 (fun p rs => flatten_payload p = Ok rs) payloads rowss /\
    rows = acc ++ concat rowss.
Proof.
  induction todo as [|todo IH]; intros year n acc rows.
  - cbn [fetch_years]. intros [= <-]. exists [], [].
    split; [constructor|]. split; [constructor|]. cbn [concat]. rewrite app_nil_r. reflexivity.
  - rewrite years_from_S. cbn [fetch_years]. cbv zeta.
    pose proof (fetch_attempts_spec net
                  (build_url urlencode (str_of_int year ++ str "-01-01")
                     (str_of_int year ++ str "-12-31") 1) 3 n) as Hf.
    unfold fetch_json.
    destruct (fetch_attempts net _ 3 n) as [f|e]; [|discriminate]. cbn [bind].
    destruct (py_get_default (fst f) _ _) as [txs|e] eqn:Hg; [|discriminate]. cbn [bind].
    destruct (py_len txs) as [len|e] eqn:Hlen; [|discriminate]. cbn [bind].
    destruct (py_iter txs) as [l|e] eqn:Hit; [|discriminate]. cbn [bind].
    destruct (mapM flatten_transaction l) as [new|e] eqn:Hm; [|discriminate]. cbn [bind].
    destruct (time_sleep pause) as [u|e]; [|discriminate]. cbn [bind].
    intros H. apply IH in H as (payloads & rowss & F1 & F2 & ->).
    destruct Hf as (k & _ & _ & Hok & _).
    exists (fst f :: payloads), (new :: rowss). split; [|split].
    + constructor; [|exact F1]. exists (n + k)%nat. exact Hok.
    + constructor; [|exact F2]. unfold flatten_payload.
      rewrite Hg. cbn [bind]. rewrite Hlen. cbn [bind]. rewrite Hit. cbn [bind]. exact Hm.
    + cbn [concat]. rewrite app_assoc. reflexivity.
Qed.

(** X25: the flat table of a completed run holds, sorted, the rows of one
    payload for each year from [start_year] to [end_year]: the payload is
    an answer of the API to the request for that year, its rows are its
    [transactions] flattened in their order, and the years follow each
    other in the list that is sorted. *)
Theorem main_rows_by_year (args : Args) (out : Output) :
  main urlencode net args = Ok out ->
  exists payloads rowss sorted,
    Forall2 (fun y p => exists m, net m (year_url urlencode y) = Ok p)
      (years_from (start_year args) (Z.to_nat (end_year args + 1 - start_year args)))
      payloads /\
    Forall2 (fun p rs => flatten_payload p = Ok rs) payloads rowss /\
    sort_rows (concat rowss) = Ok sorted /\
    csv_rows (raw_file out) = List.map raw_values sorted.
Proof.
  intros H. apply main_inv in H
    as (_ & _ & _ & fetched & sorted & daily & Hf & Hs & _ & _ & Hraw & _).
  apply fetch_years_by_year in Hf as (payloads & rowss & F1 & F2 & ->).
  exists payloads, rowss, sorted. split; [exact F1|]. split; [exact F2|].
  split; [exact Hs|exact Hraw].
Qed.

End YearRows.

(** * Letter case *)

Ltac case_bools :=
  repeat match goal with
         | |- context [N.leb ?a ?b] => destruct (N.leb_spec a b)
         | |- context [N.ltb ?a ?b] => destruct (N.ltb_spec a b)
         | |- context [N.eqb ?a ?b] => destruct (N.eqb_spec a b)
         end.

Lemma ascii_fold_cases (c : N) :
  (ascii_fold c = c /\ is_ascii_upper c = false) \/
  (ascii_fold c = (c + 32)%N /\ (65 <= c <= 90)%N).
Proof.
  unfold ascii_fold, is_ascii_upper.
  destruct (N.leb_spec 65 c); destruct (N.leb_spec c 90); cbn [andb];
    first [right; split; [reflexivity|lia] | left; split; reflexivity].
Qed.

Lemma lit_matches_fold (p c : N) : lit_matches p (ascii_fold c) = lit_matches p c.
Proof.
  destruct (ascii_fold_cases c) as [[-> _]|[-> Hc]]; [reflexivity|].
  unfold lit_matches. cbv zeta.
  set (lo := if is_ascii_upper p then (p + 32)%N else p).
  assert (Hlo : (lo = p /\ ~ (65 <= p <= 90)%N) \/ (lo = (p + 32)%N /\ (65 <= p <= 90)%N)).
  { unfold lo, is_ascii_upper.
    destruct (N.leb_spec 65 p); destruct (N.leb_spec p 90); cbn [andb];
      first [right; split; [reflexivity|lia] | left; split; [reflexivity|lia]]. }
  destruct (is_ascii_lower lo) eqn:Hl.
  - unfold is_ascii_lower in Hl. apply andb_true_iff in Hl as [H1 H2].
    apply N.leb_le in H1, H2.
    assert (E : forall n, (200 <= n)%N -> (c + 32 =? n)%N = false /\ (c =? n)%N = false).
    { intros n Hn. split; apply N.eqb_neq; lia. }
    unfold U_I_DOT, U_DOTLESS_I, U_LONG_S, U_KELVIN.
    destruct (E 304%N ltac:(lia)) as [-> ->]. destruct (E 305%N ltac:(lia)) as [-> ->].
    destruct (E 383%N ltac:(lia)) as [-> ->]. destruct (E 8490%N ltac:(lia)) as [-> ->].
    replace (c + 32 =? lo - 32)%N with false by (symmetry; apply N.eqb_neq; lia).
    replace (c =? lo)%N with false by (symmetry; apply N.eqb_neq; lia).
    cbn [orb andb]. rewrite !andb_false_r, !orb_false_r. cbn [orb].
    destruct (N.eqb_spec (c + 32) lo) as [E1|E1];
      destruct (N.eqb_spec c (lo - 32)) as [E2|E2]; try reflexivity; lia.
  - assert (Hn : ~ (97 <= lo <= 122)%N).
    { intros [H1 H2]. unfold is_ascii_lower in Hl.
      apply N.leb_le in H1, H2. rewrite H1, H2 in Hl. discriminate Hl. }
    replace (c + 32 =? p)%N with false by (symmetry; apply N.eqb_neq; lia).
    replace (c =? p)%N with false by (symmetry; apply N.eqb_neq; lia).
    reflexivity.
Qed.

Section CaseFacts.
Context {U : UnicodeDB}.

Lemma is_word_fold (c : N) : is_word (ascii_fold c) = is_word c.
Proof.
  destruct (ascii_fold_cases c) as [[-> _]|[-> Hc]]; [reflexivity|].
  assert (H1 : is_word c = true).
  { unfold is_word. replace (c <? 128)%N with true by (symmetry; apply N.ltb_lt; lia).
    replace (is_ascii_upper c) with true; [reflexivity|].
    symmetry. unfold is_ascii_upper. apply andb_true_iff. split; apply N.leb_le; lia. }
  assert (H2 : is_word (c + 32) = true).
  { unfold is_word. replace (c + 32 <? 128)%N with true by (symmetry; apply N.ltb_lt; lia).
    replace (is_ascii_lower (c + 32)) with true; [rewrite orb_true_r; reflexivity|].
    symmetry. unfold is_ascii_lower. apply andb_true_iff. split; apply N.leb_le; lia. }
  rewrite H1, H2. reflexivity.
Qed.

Lemma at_boundary_fold (st : mstate) : at_boundary (fold_state st) = at_boundary st.
Proof.
  unfold at_boundary, fold_state. cbn [ms_prev ms_rest].
  destruct (ms_prev st) as [c|]; destruct (ms_rest st) as [|c' rest];
    cbn [option_map List.map]; rewrite ?is_word_fold; reflexivity.
Qed.

Lemma newline_fold (c : N) : (ascii_fold c =? 10)%N = (c =? 10)%N.
Proof.
  destruct (ascii_fold_cases c) as [[-> _]|[-> Hc]]; [reflexivity|].
  case_bools; try reflexivity; lia.
Qed.

Lemma any_lazy_fold (k k' : mstate -> option mstate) :
  (forall st, option_map fold_state (k st) = k' (fold_state st)) ->
  forall rest prev pos groups,
    option_map fold_state (any_lazy k prev rest pos groups) =
    any_lazy k' (option_map ascii_fold prev) (List.map ascii_fold rest) pos
      (List.map (fun g : nat * pystr => (fst g, List.map ascii_fold (snd g))) groups).
Proof.
  intros Hk. induction rest as [|c rest IH]; intros prev pos groups; cbn [any_lazy List.map].
  - specialize (Hk (MState prev [] pos groups)). unfold fold_state in Hk at 2.
    cbn [ms_prev ms_rest ms_pos ms_groups List.map] in Hk. rewrite <- Hk.
    destruct (k (MState prev [] pos groups)); reflexivity.
  - specialize (Hk (MState prev (c :: rest) pos groups)). unfold fold_state in Hk at 2.
    cbn [ms_prev ms_rest ms_pos ms_groups List.map] in Hk. rewrite <- Hk.
    destruct (k (MState prev (c :: rest) pos groups)); [reflexivity|].
    cbn [option_map]. rewrite newline_fold. destruct (c =? 10)%N; [reflexivity|].
    apply (IH (Some c)).
Qed.

Lemma set_group_fold (n : nat) (st0 st : mstate) :
  fold_state (set_group n st0 st) = set_group n (fold_state st0) (fold_state st).
Proof.
  unfold set_group, fold_state. cbn [ms_prev ms_rest ms_pos ms_groups List.map fst snd].
  rewrite firstn_map. reflexivity.
Qed.

(** The matcher does not see the case of the ASCII letters of the text. *)
Lemma rmatch_fold (r : regex) : forall k k' st,
  (forall st, option_map fold_state (k st) = k' (fold_state st)) ->
  option_map fold_state (rmatch r k st) = rmatch r k' (fold_state st).
Proof.
  induction r as [| p | | | r1 IH1 r2 IH2 | r1 IH1 r2 IH2 | n r1 IH1];
    intros k k' st Hk; cbn [rmatch].
  - apply Hk.
  - change (ms_rest (fold_state st)) with (List.map ascii_fold (ms_rest st)).
    destruct (ms_rest st) as [|c rest] eqn:Hr; cbn [List.map]; [reflexivity|].
    rewrite lit_matches_fold. destruct (lit_matches p c); [|reflexivity].
    rewrite Hk. f_equal.
  - rewrite at_boundary_fold. destruct (at_boundary st); [apply Hk|reflexivity].
  - unfold fold_state. cbn [ms_prev ms_rest ms_pos ms_groups]. apply any_lazy_fold. exact Hk.
  - apply IH1. intros st1. apply IH2. exact Hk.
  - rewrite <- (IH1 k k' st Hk). destruct (rmatch r1 k st); [reflexivity|].
    cbn [option_map]. apply IH2. exact Hk.
  - apply IH1. intros st1. rewrite Hk, set_group_fold. reflexivity.
Qed.

Lemma search_from_fold (r : regex) : forall rest prev pos,
  option_map fold_state (search_from r prev rest pos) =
  search_from r (option_map ascii_fold prev) (List.map ascii_fold rest) pos.
Proof.
  induction rest as [|c rest IH]; intros prev pos; cbn [search_from List.map].
  - change (MState (option_map ascii_fold prev) [] pos [])
      with (fold_state (MState prev [] pos [])).
    rewrite <- (rmatch_fold r Some Some (MState prev [] pos [])) by reflexivity.
    destruct (rmatch r Some (MState prev [] pos [])); reflexivity.
  - change (MState (option_map ascii_fold prev) (ascii_fold c :: List.map ascii_fold rest) pos [])
      with (fold_state (MState prev (c :: rest) pos [])).
    rewrite <- (rmatch_fold r Some Some (MState prev (c :: rest) pos [])) by reflexivity.
    destruct (rmatch r Some (MState prev (c :: rest) pos [])); [reflexivity|].
    cbn [option_map]. apply (IH (Some c)).
Qed.

Lemma re_search_fold (r : regex) (text : pystr) :
  option_map fold_state (re_search r text) = re_search r (List.map ascii_fold text).
Proof. apply (search_from_fold r text None 0%nat). Qed.

Lemma found_fold (r : regex) (text : pystr) :
  found (re_search r (List.map ascii_fold text)) = found (re_search r text).
Proof. rewrite <- re_search_fold. destruct (re_search r text); reflexivity. Qed.

End CaseFacts.

Lemma isspace_fold (c : N) : isspace (ascii_fold c) = isspace c.
Proof.
  destruct (ascii_fold_cases c) as [[-> _]|[-> Hc]]; [reflexivity|].
  unfold isspace.
  repeat match goal with
         | |- context [N.leb ?a ?b] => destruct (N.leb_spec a b); try lia
         | |- context [N.eqb ?a ?b] => destruct (N.eqb_spec a b); try lia
         end.
  all: reflexivity.
Qed.

Lemma lstrip_fold (s : pystr) : lstrip (List.map ascii_fold s) = List.map ascii_fold (lstrip s).
Proof.
  induction s as [|c s IH]; [reflexivity|]. cbn [List.map lstrip].
  rewrite isspace_fold. destruct (isspace c); [exact IH|reflexivity].
Qed.

Lemma strip_fold (s : pystr) : strip (List.map ascii_fold s) = List.map ascii_fold (strip s).
Proof.
  unfold strip. rewrite lstrip_fold, <- List.map_rev, lstrip_fold, <- List.map_rev. reflexivity.
Qed.

Lemma ascii_fold_idem (c : N) : ascii_fold (ascii_fold c) = ascii_fold c.
Proof.
  destruct (ascii_fold_cases c) as [[E _]|[E Hc]]; rewrite E; [exact E|].
  unfold ascii_fold, is_ascii_upper.
  replace (c + 32 <=? 90)%N with false by (symmetry; apply N.leb_gt; lia).
  rewrite andb_false_r. reflexivity.
Qed.

Lemma is_ascii_fold (s : pystr) : is_ascii s = true -> is_ascii (List.map ascii_fold s) = true.
Proof.
  unfold is_ascii. induction s as [|c s IH]; [reflexivity|]. cbn [forallb List.map].
  intros H. apply andb_true_iff in H as [Hc H]. rewrite (IH H), andb_true_r.
  apply N.ltb_lt in Hc. apply N.ltb_lt.
  destruct (ascii_fold_cases c) as [[-> _]|[-> Hu]]; lia.
Qed.

Section CaseClassifier.
Context {U : UnicodeDB}.

(** On ASCII text [str.lower] lowers the capital letters and nothing
    else. *)
Lemma lower_from_ascii (text : pystr) (s : pystr) : forall i,
  is_ascii s = true -> lower_from text i s = List.map ascii_fold s.
Proof.
  unfold is_ascii. induction s as [|c s IH]; intros i H; [reflexivity|].
  cbn [forallb] in H. apply andb_true_iff in H as [Hc H].
  cbn [lower_from List.map]. rewrite (IH (S i) H).
  unfold lower_char, ascii_fold. rewrite Hc.
  destruct (is_ascii_upper c); reflexivity.
Qed.

Lemma lower_ascii (s : pystr) : is_ascii s = true -> lower s = List.map ascii_fold s.
Proof. apply lower_from_ascii. Qed.

Lemma group_get_fold (groups : list (nat * pystr)) (n : nat) :
  group_get (List.map (fun g : nat * pystr => (fst g, List.map ascii_fold (snd g))) groups) n =
  option_map (List.map ascii_fold) (group_get groups n).
Proof.
  induction groups as [|[m s] groups IH]; [reflexivity|].
  cbn [List.map group_get fst snd]. destruct (Nat.eqb m n); [reflexivity|exact IH].
Qed.

(** The number the day pattern captures is the same on the folded
    text. *)
Lemma day_group_fold (text : pystr) :
  option_map (fun m => group_get (ms_groups m) 1) (re_search IL_DAY_CLASS_RE text) =
  option_map (fun m => group_get (ms_groups m) 1)
    (re_search IL_DAY_CLASS_RE (List.map ascii_fold text)).
Proof.
  rewrite <- re_search_fold.
  destruct (re_search IL_DAY_CLASS_RE text) as [m|] eqn:Hm; [|reflexivity].
  cbn [option_map]. f_equal. unfold fold_state. cbn [ms_groups]. rewrite group_get_fold.
  unfold re_search in Hm. apply search_from_match in Hm as (st & Hg & Hm).
  pose proof (day_class_group st m Hg Hm) as Hin. cbn [In] in Hin.
  destruct Hin as [<-|[<-|[<-|[<-|[]]]]]; reflexivity.
Qed.

Lemma classify_injury_congr (a b : pystr) :
  lower (strip a) = lower (strip b) ->
  (forall r, found (re_search r (strip a)) = found (re_search r (strip b))) ->
  option_map (fun m => group_get (ms_groups m) 1) (re_search IL_DAY_CLASS_RE (strip a)) =
  option_map (fun m => group_get (ms_groups m) 1) (re_search IL_DAY_CLASS_RE (strip b)) ->
  classify_injury (PStr a) = classify_injury (PStr b).
Proof.
  intros Hl Hf Hg.
  assert (Hs : forall x, py_strip (py_or (PStr x) (PStr [])) = Ok (strip x))
    by (intros x; destruct x; reflexivity).
  unfold classify_injury. rewrite !Hs. cbv beta iota zeta delta [bind].
  rewrite Hl, !Hf.
  destruct (re_search IL_DAY_CLASS_RE (strip a)) as [ma|];
    destruct (re_search IL_DAY_CLASS_RE (strip b)) as [mb|];
    cbn [option_map] in Hg; try discriminate Hg; [|reflexivity].
  injection Hg as Hg. rewrite Hg. reflexivity.
Qed.

Lemma classify_injury_fold (a : pystr) :
  is_ascii a = true ->
  classify_injury (PStr a) = classify_injury (PStr (List.map ascii_fold a)).
Proof.
  intros Ha.
  assert (Hsa : is_ascii (strip a) = true) by (apply forallb_strip; exact Ha).
  apply classify_injury_congr.
  - rewrite strip_fold, (lower_ascii _ Hsa), (lower_ascii _ (is_ascii_fold _ Hsa)).
    rewrite List.map_map. apply List.map_ext. intros c. symmetry. apply ascii_fold_idem.
  - intros r. rewrite strip_fold, found_fold. reflexivity.
  - rewrite strip_fold. apply day_group_fold.
Qed.

(** X26: the classification does not depend on the case of the letters of
    an ASCII description: two ASCII descriptions with the same lower case
    are given the same flags, event type and bucket. *)
Theorem classify_injury_case_insensitive (a b : pystr) :
  is_ascii a = true -> is_ascii b = true -> lower a = lower b ->
  classify_injury (PStr a) = classify_injury (PStr b).
Proof.
  intros Ha Hb E. rewrite (lower_ascii a Ha), (lower_ascii b Hb) in E.
  rewrite (classify_injury_fold a Ha), (classify_injury_fold b Hb), E. reflexivity.
Qed.

End CaseClassifier.

Lemma classify_injury_case_insensitive_witness :
  let a := str "Player X PLACED on the 10-Day Injured List" in
  let b := str "player x placed on the 10-day injured list" in
  is_ascii a = true /\ is_ascii b = true /\ @lower ascii_db a = @lower ascii_db b /\
  @classify_injury ascii_db (PStr a) = @classify_injury ascii_db (PStr b).
Proof.
  intros a b. split; [reflexivity|]. split; [reflexivity|]. split; [reflexivity|].
  exact (classify_injury_case_insensitive (U := ascii_db) a b eq_refl eq_refl eq_refl).
Defined.

(** * What a flag says about the text *)

Lemma in_order_prefix (phrases : list (list pystr)) (x text : pystr) :
  in_order phrases text -> in_order phrases (x ++ text).
Proof.
  destruct phrases as [|alts phrases]; [intros _; exact I|].
  intros (pre & kw & post & Hin & -> & H). exists (x ++ pre), kw, post.
  split; [exact Hin|]. split; [rewrite <- app_assoc; reflexivity|exact H].
Qed.

Lemma in_order_suffix (phrases : list (list pystr)) : forall text y,
  in_order phrases text -> in_order phrases (text ++ y).
Proof.
  induction phrases as [|alts phrases IH]; intros text y; [intros _; exact I|].
  intros (pre & kw & post & Hin & -> & H). exists pre, kw, (post ++ y).
  split; [exact Hin|]. split; [rewrite <- !app_assoc; reflexivity|]. apply IH. exact H.
Qed.

Lemma consumes_rlit (s : pystr) :
  forallb pattern_char s = true -> consumes (rlit s) [s].
Proof.
  intros Hs. split; [constructor; [exact Hs|constructor]|].
  intros seg H. exists s. split; [left; reflexivity|]. apply accepts_rlit. exact H.
Qed.

Lemma consumes_il_list : consumes il_list IL_LISTS.
Proof.
  split; [repeat constructor|].
  intros seg H. apply accepts_il_list in H as [H|H].
  - exists (str "injured list"). split; [left; reflexivity|exact H].
  - exists (str "disabled list"). split; [right; left; reflexivity|exact H].
Qed.

Lemma consumes_alt (n : nat) (a b : pystr) :
  forallb pattern_char a = true -> forallb pattern_char b = true ->
  consumes (RGroup n (RAlt (rlit a) (rlit b))) [a; b].
Proof.
  intros Ha Hb. split; [constructor; [exact Ha|constructor; [exact Hb|constructor]]|].
  intros seg H. cbn [accepts] in H. destruct H as [H|H].
  - exists a. split; [left; reflexivity|]. apply accepts_rlit. exact H.
  - exists b. split; [right; left; reflexivity|]. apply accepts_rlit. exact H.
Qed.

Section OrderFacts.
Context {U : UnicodeDB}.

(** The lower case of what a pattern consumed holds the phrases of the
    pattern in order. *)
Lemma accepts_in_order (text : pystr) (rs : list regex) (spec : list (option (list pystr))) :
  Forall2 (fun r o => match o with Some alts => consumes r alts | None => True end) rs spec ->
  forall seg i,
    forallb plain_case seg = true -> accepts (rseq rs) seg ->
    in_order (phrases_of spec) (lower_from text i seg).
Proof.
  induction 1 as [|r o rs spec Hr _ IH]; intros seg i Hp Ha; [exact I|].
  cbn [rseq accepts] in Ha. destruct Ha as (s1 & s2 & -> & H1 & H2).
  apply forallb_app_inv in Hp as [Hp1 Hp2]. rewrite lower_from_app.
  destruct o as [alts|]; cbn [phrases_of].
  - destruct Hr as [Hpc Hr]. destruct (Hr s1 H1) as (kw & Hin & Hm).
    rewrite Forall_forall in Hpc.
    rewrite (lower_from_matched text kw s1 i (Hpc kw (proj2 (list_elem_of_In _ _) Hin)) Hp1 Hm).
    exists [], kw, (lower_from text (i + length s1) s2).
    split; [exact Hin|]. split; [reflexivity|]. apply IH; assumption.
  - apply in_order_prefix. apply IH; assumption.
Qed.

Lemma found_in_order (rs : list regex) (spec : list (option (list pystr))) (text : pystr) :
  Forall2 (fun r o => match o with Some alts => consumes r alts | None => True end) rs spec ->
  forallb plain_case text = true ->
  found (re_search (rseq rs) text) = true ->
  in_order (phrases_of spec) (lower text).
Proof.
  intros Hspec Hp Hf. apply found_search in Hf as (pre & seg & post & -> & Ha).
  apply forallb_app_inv in Hp as [_ Hp]. apply forallb_app_inv in Hp as [Hp _].
  unfold lower. rewrite !lower_from_app.
  apply in_order_prefix, in_order_suffix. eapply accepts_in_order; eassumption.
Qed.

(** X27: what the four pattern flags say about a description without the
    letters U+0130, U+0131 and U+017F: its lower case, white space at the
    ends aside, holds in this order ["placed"], ["on the"] and the name of
    the list for a placement; ["transferred"], a list, ["to the"] and a
    list for a transfer; ["activated"] or ["reinstated"], ["from the"] and
    a list for an activation; ["rehab assignment"] for a rehab
    assignment. *)
Theorem pattern_flags_phrases (d : pystr) :
  forallb plain_case d = true ->
  exists f,
    classify_injury (PStr d) = Ok f /\
    (is_il_placement f = 1 ->
     in_order [ [str "placed"]; [str "on the"]; IL_LISTS ] (lower (strip d))) /\
    (is_il_transfer f = 1 ->
     in_order [ [str "transferred"]; IL_LISTS; [str "to the"]; IL_LISTS ] (lower (strip d))) /\
    (is_il_activation f = 1 ->
     in_order [ [str "activated"; str "reinstated"]; [str "from the"]; IL_LISTS ]
       (lower (strip d))) /\
    (is_rehab_assignment f = 1 -> in_order [ [str "rehab assignment"] ] (lower (strip d))).
Proof.
  intros Hd. assert (Hp : forallb plain_case (strip d) = true) by (apply forallb_strip; exact Hd).
  destruct (classify_injury_str d) as (f & E & _ & H2 & H3 & H4 & H5 & _).
  exists f. split; [exact E|]. rewrite H2, H3, H4, H5.
  split; [|split; [|split]]; intros H; apply int_of_bool_1 in H.
  - apply (found_in_order _
             [ None; Some [str "placed"]; None; None; None; Some [str "on the"]; None; None;
               None; Some IL_LISTS; None ] _) in H; [exact H| |exact Hp].
    repeat (constructor; [first [exact I | apply consumes_il_list
                                | apply consumes_rlit; reflexivity]|]). constructor.
  - apply (found_in_order _
             [ None; Some [str "transferred"]; None; None; None; Some IL_LISTS; None; None;
               None; Some [str "to the"]; None; None; None; Some IL_LISTS; None ] _) in H;
      [exact H| |exact Hp].
    repeat (constructor; [first [exact I | apply consumes_il_list
                                | apply consumes_rlit; reflexivity]|]). constructor.
  - apply (found_in_order _
             [ None; Some [str "activated"; str "reinstated"]; None; None; None;
               Some [str "from the"]; None; None; None; Some IL_LISTS; None ] _) in H;
      [exact H| |exact Hp].
    repeat (constructor; [first [exact I | apply consumes_il_list
                                | apply consumes_alt; reflexivity
                                | apply consumes_rlit; reflexivity]|]). constructor.
  - apply (found_in_order _ [ None; Some [str "rehab assignment"]; None ] _) in H;
      [exact H| |exact Hp].
    repeat (constructor; [first [exact I | apply consumes_rlit; reflexivity]|]). constructor.
Qed.

End OrderFacts.

Lemma pattern_flags_phrases_witness :
  let d := str "Player X transferred from the 10-day injured list to the 60-day injured list" in
  forallb plain_case d = true /\
  exists f,
    @classify_injury ascii_db (PStr d) = Ok f /\
    (is_il_placement f = 1 ->
     in_order [ [str "placed"]; [str "on the"]; IL_LISTS ] (@lower ascii_db (strip d))) /\
    (is_il_transfer f = 1 ->
     in_order [ [str "transferred"]; IL_LISTS; [str "to the"]; IL_LISTS ]
       (@lower ascii_db (strip d))) /\
    (is_il_activation f = 1 ->
     in_order [ [str "activated"; str "reinstated"]; [str "from the"]; IL_LISTS ]
       (@lower ascii_db (strip d))) /\
    (is_rehab_assignment f = 1 ->
     in_order [ [str "rehab assignment"] ] (@lower ascii_db (strip d))).
Proof.
  intros d. split; [reflexivity|].
  exact (pattern_flags_phrases (U := ascii_db) d eq_refl).
Defined.

(** * Runs that stop early *)

Section EarlyFacts.
Context {U : UnicodeDB} {host : Host}.
Variable urlencode : list (pystr * pyval) -> pystr.
Variable net : nat -> pystr -> result pyval.

Lemma fetch_attempts_all_fail (url : pystr) (left : nat) : forall n,
  (forall j, (j < left)%nat -> request_fails net (n + j) url) ->
  fetch_attempts net url left n = Raise RuntimeError.
Proof.
  induction left as [|left IH]; intros n H; cbn [fetch_attempts]; [reflexivity|].
  destruct (H 0%nat ltac:(lia)) as [e He]. rewrite Nat.add_0_r in He. rewrite He.
  apply IH. intros j Hj. replace (S n + j)%nat with (n + S j)%nat by lia. apply H. lia.
Qed.

(** X28: a run with [start_year] after [end_year] ends with [SystemExit];
    otherwise, when the three requests for the first year fail, the run
    ends with [RuntimeError]: in both cases no table is returned. *)
Theorem main_stops_early (args : Args) :
  (end_year args < start_year args -> main urlencode net args = Raise SystemExit) /\
  (start_year args <= end_year args ->
   (forall j, (j < 3)%nat -> request_fails net j (year_url urlencode (start_year args))) ->
   main urlencode net args = Raise RuntimeError).
Proof.
  unfold main. split.
  - intros H. apply Z.ltb_lt in H. rewrite H. reflexivity.
  - intros Hle Hf. apply Z.ltb_ge in Hle. rewrite Hle.
    destruct (Z.to_nat (end_year args + 1 - start_year args)) as [|todo] eqn:Ht;
      [apply Z.ltb_ge in Hle; lia|].
    cbn [fetch_years]. cbv zeta. unfold fetch_json.
    rewrite (fetch_attempts_all_fail _ 3 0); [reflexivity|]. exact Hf.
Qed.

(** X29: what the loop of [main] does with a payload: a payload that is
    no dict raises [AttributeError]; one without [transactions] gives no
    row; a [transactions] that is [null], a [bool] or a number raises
    [TypeError] at [len]; a list is flattened element by element; a string
    or a dict is iterated, and unless it is empty its first element, a
    string, raises [AttributeError] in [flatten_transaction]. *)
Theorem flatten_payload_outcomes (payload : pyval) :
  match payload with
  | PDict items =>
      match items_get items (str "transactions") with
      | None => flatten_payload payload = Ok []
      | Some (PList l) => flatten_payload payload = mapM flatten_transaction l
      | Some (PStr []) | Some (PDict []) => flatten_payload payload = Ok []
      | Some (PStr (_ :: _)) | Some (PDict (_ :: _)) =>
          flatten_payload payload = Raise AttributeError
      | Some _ => flatten_payload payload = Raise TypeError
      end
  | _ => flatten_payload payload = Raise AttributeError
  end.
Proof.
  destruct payload as [| | | | | |items]; try reflexivity.
  unfold flatten_payload. cbn [py_get_default].
  destruct (items_get items (str "transactions")) as [[| | | |s|l|d]|];
    try destruct s; try destruct d; cbv beta iota; reflexivity.
Qed.

End EarlyFacts.

Lemma main_stops_early_witness :
  start_year sample_args <= end_year sample_args /\
  (forall j, (j < 3)%nat ->
     request_fails dead_network j (year_url sample_urlencode (start_year sample_args))) /\
  main (U := ascii_db) (host := sample_host) sample_urlencode dead_network sample_args = Raise RuntimeError.
Proof.
  assert (H1 : start_year sample_args <= end_year sample_args) by (cbn; lia).
  assert (H2 : forall j, (j < 3)%nat ->
                request_fails dead_network j
                  (year_url sample_urlencode (start_year sample_args))).
  { intros j _. exists ValueError. reflexivity. }
  split; [exact H1|]. split; [exact H2|].
  exact (proj2 (main_stops_early (U := ascii_db) (host := sample_host) sample_urlencode dead_network sample_args)
           H1 H2).
Defined.

(** * The statements on concrete inputs *)

Lemma flatten_transaction_well_formed_witness :
  exists r,
    @flatten_transaction ascii_db sample_record = Ok r /\
    (exists items, sample_record = PDict items) /\
    @classified ascii_db r /\ @dated ascii_db r /\
    is_flag (is_injury_related (flags r)) /\ is_flag (is_il_placement (flags r)) /\
    is_flag (is_il_activation (flags r)) /\ is_flag (is_il_transfer (flags r)) /\
    is_flag (is_rehab_assignment (flags r)) /\ is_flag (is_covid_il (flags r)) /\
    is_flag (count_as_new_injury_registration (flags r)) /\
    count_as_new_injury_registration (flags r) + is_il_transfer (flags r) <= 1.
Proof.
  destruct (@flatten_transaction ascii_db sample_record) as [r|e] eqn:H.
  - exists r. split; [reflexivity|].
    exact (flatten_transaction_well_formed (U := ascii_db) sample_record r H).
  - exfalso. vm_compute in H. discriminate H.
Defined.

Lemma daily_counters_bounded_witness :
  mapM (@flatten_transaction ascii_db) sample_records = Ok sample_rows /\
  exists out,
    build_daily_series sample_rows (PyDate.mk 2015 1 1) (PyDate.mk 2015 1 3) = Ok out /\
    Forall counters_bounded out.
Proof.
  assert (H1 : mapM (@flatten_transaction ascii_db) sample_records = Ok sample_rows)
    by (vm_compute; reflexivity).
  split; [exact H1|].
  destruct (build_daily_series sample_rows (PyDate.mk 2015 1 1) (PyDate.mk 2015 1 3))
    as [out|e] eqn:H2.
  - exists out. split; [reflexivity|].
    exact (daily_counters_bounded (U := ascii_db) sample_records sample_rows _ _ out H1 H2).
  - exfalso. vm_compute in H2. discriminate H2.
Defined.

Lemma build_daily_series_by_day_witness :
  exists out,
    build_daily_series sample_rows (PyDate.mk 2015 1 1) (PyDate.mk 2015 1 3) = Ok out /\
    exists days,
      daterange (PyDate.mk 2015 1 1) (PyDate.mk 2015 1 3) = Ok days /\
      out = List.map (day_stats sample_rows) days.
Proof.
  destruct (build_daily_series sample_rows (PyDate.mk 2015 1 1) (PyDate.mk 2015 1 3))
    as [out|e] eqn:H.
  - exists out. split; [reflexivity|].
    exact (build_daily_series_by_day sample_rows _ _ out H).
  - exfalso. vm_compute in H. discriminate H.
Defined.

Lemma build_daily_series_order_free_witness :
  Permutation sample_rows (rev sample_rows) /\
  build_daily_series sample_rows (PyDate.mk 2015 1 1) (PyDate.mk 2015 1 3) =
  build_daily_series (rev sample_rows) (PyDate.mk 2015 1 1) (PyDate.mk 2015 1 3).
Proof.
  assert (P : Permutation sample_rows (rev sample_rows)) by apply Permutation_rev.
  split; [exact P|].
  exact (build_daily_series_order_free sample_rows (rev sample_rows) _ _ P).
Defined.

Lemma build_daily_series_outcome_witness :
  PyDate.valid (PyDate.mk 2015 1 1) /\ PyDate.valid (PyDate.mk 2015 1 3) /\
  match build_daily_series sample_rows (PyDate.mk 2015 1 1) (PyDate.mk 2015 1 3) with
  | Ok out => Forall date_keyable sample_rows /\ PyDate.mk 2015 1 3 <> PyDate.max
  | Raise e =>
      (e = TypeError /\ ~ Forall date_keyable sample_rows) \/
      (e = OverflowError /\ Forall date_keyable sample_rows /\
       PyDate.mk 2015 1 3 = PyDate.max)
  end.
Proof.
  split; [reflexivity|]. split; [reflexivity|].
  exact (build_daily_series_outcome sample_rows (PyDate.mk 2015 1 1) (PyDate.mk 2015 1 3)
           eq_refl eq_refl).
Defined.

Lemma classify_injury_ignores_padding_witness :
  forallb isspace (str "  ") = true /\ forallb isspace [10%N] = true /\
  @classify_injury ascii_db
    (PStr (str "  " ++ str "Player X placed on the 10-day injured list" ++ [10%N])) =
  @classify_injury ascii_db (PStr (str "Player X placed on the 10-day injured list")).
Proof.
  split; [reflexivity|]. split; [reflexivity|].
  exact (classify_injury_ignores_padding (U := ascii_db) (str "  ")
           (str "Player X placed on the 10-day injured list") [10%N] eq_refl eq_refl).
Defined.

Lemma classify_injury_blank_witness :
  blank (PStr (str "   ")) /\ @classify_injury ascii_db (PStr (str "   ")) = Ok NO_INJURY.
Proof.
  assert (B : blank (PStr (str "   "))).
  { right. exists (str "   "). split; reflexivity. }
  split; [exact B|].
  exact (classify_injury_blank (U := ascii_db) (PStr (str "   ")) B).
Defined.

Lemma flatten_transaction_errors_witness :
  @flatten_transaction ascii_db misdated_record = Raise TypeError /\
  ((TypeError = AttributeError /\ forall items, misdated_record <> PDict items) \/
   exists items,
     misdated_record = PDict items /\
     ((TypeError = TypeError /\ truthy (choose_event_date items) = true /\
       forall s, choose_event_date items <> PStr s) \/
      (TypeError = ValueError /\
       exists s, choose_event_date items = PStr s /\ s <> [] /\
                 @int_of_str ascii_db (firstn 4 s) = Raise ValueError) \/
      (TypeError = AttributeError /\
       (truthy (choose_event_date items) = false \/
        exists s y, choose_event_date items = PStr s /\
                    @int_of_str ascii_db (firstn 4 s) = Ok y) /\
       truthy (dict_get items "description") = true /\
       forall s, dict_get items "description" <> PStr s))).
Proof.
  assert (H : @flatten_transaction ascii_db misdated_record = Raise TypeError)
    by (vm_compute; reflexivity).
  split; [exact H|].
  exact (flatten_transaction_errors (U := ascii_db) misdated_record TypeError H).
Defined.

Lemma isoformat_order_witness :
  let a := PyDate.mk 2015 1 2 in
  let b := PyDate.mk 2015 12 31 in
  PyDate.valid a /\ PyDate.valid b /\
  length (PyDate.isoformat a) = 10%nat /\
  (PyDate.isoformat a = PyDate.isoformat b <-> a = b) /\
  (str_ltb (PyDate.isoformat a) (PyDate.isoformat b) = true <-> PyDate.ltb a b = true).
Proof.
  intros a b. split; [reflexivity|]. split; [reflexivity|].
  exact (isoformat_order a b eq_refl eq_refl).
Defined.

Lemma iso_dated_transaction_round_trip_witness :
  let d := PyDate.mk 2015 4 5 in
  let start := PyDate.mk 2015 4 4 in
  let end_ := PyDate.mk 2015 4 6 in
  let items := [ (str "date", PStr (PyDate.isoformat d));
                 (str "effectiveDate", PStr (str "2015-03-30"));
                 (str "description", PStr (str "Player X placed on the 10-day injured list")) ] in
  PyDate.valid d /\ dict_get items "date" = PStr (PyDate.isoformat d) /\
  description_ok items /\
  PyDate.valid start /\ PyDate.valid end_ /\ end_ <> PyDate.max /\
  exists r days,
    @flatten_transaction ascii_db (PDict items) = Ok r /\
    event_date r = PStr (PyDate.isoformat d) /\
    year r = Some (PyDate.year d) /\
    daterange start end_ = Ok days /\
    (forall d', In d' days <-> in_span start end_ d') /\
    build_daily_series [r] start end_ = Ok (List.map (day_stats [r]) days) /\
    Daily.injury_related_transactions (day_stats [r] d) = 1 /\
    (forall d', PyDate.valid d' -> d' <> d ->
                Daily.injury_related_transactions (day_stats [r] d') = 0).
Proof.
  intros d start end_ items.
  assert (H : description_ok items).
  { right. exists (str "Player X placed on the 10-day injured list"). reflexivity. }
  assert (Hmax : end_ <> PyDate.max) by discriminate.
  split; [reflexivity|]. split; [reflexivity|]. split; [exact H|].
  split; [reflexivity|]. split; [reflexivity|]. split; [exact Hmax|].
  exact (iso_dated_transaction_round_trip (U := ascii_db) items d start end_
           eq_refl eq_refl H eq_refl eq_refl Hmax).
Defined.

Lemma daterange_length_witness :
  let start := PyDate.mk 2015 1 1 in
  let end_ := PyDate.mk 2015 1 3 in
  exists days,
    PyDate.valid start /\ PyDate.valid end_ /\ daterange start end_ = Ok days /\
    length days = Z.to_nat (toordinal end_ - toordinal start + 1) /\
    (PyDate.ltb end_ start = true -> days = []).
Proof.
  intros start end_.
  destruct (daterange start end_) as [days|e] eqn:H.
  - exists days. split; [reflexivity|]. split; [reflexivity|]. split; [reflexivity|].
    exact (daterange_length start end_ days eq_refl eq_refl H).
  - exfalso. vm_compute in H. discriminate H.
Defined.

Lemma main_year_range_witness :
  exists out,
    main (U := ascii_db) (host := sample_host) sample_urlencode sample_network sample_args = Ok out /\
    1 <= start_year sample_args /\ start_year sample_args <= end_year sample_args /\
    end_year sample_args <= 9998.
Proof.
  destruct (main (U := ascii_db) (host := sample_host) sample_urlencode sample_network sample_args)
    as [out|e] eqn:H.
  - exists out. split; [reflexivity|].
    exact (main_year_range (U := ascii_db) (host := sample_host) sample_urlencode sample_network sample_args out H).
  - exfalso. vm_compute in H. discriminate H.
Defined.

Lemma main_pause_accepted_witness :
  exists out,
    main (U := ascii_db) (host := sample_host) sample_urlencode sample_network sample_args
      = Ok out /\
    time_sleep (host := sample_host) (sleep sample_args) = Ok tt /\
    PrimFloat.is_nan (sleep sample_args) = false /\
    PrimFloat.ltb (sleep sample_args) 0 = false /\
    host_sleep (Host := sample_host) (sleep sample_args) = Ok tt.
Proof.
  destruct (main (U := ascii_db) (host := sample_host) sample_urlencode sample_network
              sample_args) as [out|e] eqn:H.
  - exists out. split; [reflexivity|].
    exact (main_pause_accepted (U := ascii_db) (host := sample_host) sample_urlencode
             sample_network sample_args out H).
  - exfalso. vm_compute in H. discriminate H.
Defined.

Lemma sample_host_rearranges : sort_rearranges sample_host.
Proof. intros l l' Hl. exact (insertion_sort_perm keyed_lt l l' Hl). Defined.

Lemma main_injury_table_witness :
  sort_rearranges sample_host /\
  exists out,
    main (U := ascii_db) (host := sample_host) sample_urlencode sample_network sample_args
      = Ok out /\
    exists sorted,
      csv_rows (raw_file out) = List.map raw_values sorted /\
      csv_rows (injury_file out) =
        List.map injury_values
          (List.filter (fun r => is_injury_related (flags r) =? 1) sorted) /\
      (forall r, injury_values r =
                 raw_values r ++ [PInt (count_as_new_injury_registration (flags r))]) /\
      Forall (fun r => @classified ascii_db r /\ @dated ascii_db r) sorted.
Proof.
  split; [exact sample_host_rearranges|].
  destruct (main (U := ascii_db) (host := sample_host) sample_urlencode sample_network
              sample_args) as [out|e] eqn:H.
  - exists out. split; [reflexivity|].
    exact (main_injury_table (U := ascii_db) (host := sample_host) sample_urlencode
             sample_network sample_args out sample_host_rearranges H).
  - exfalso. vm_compute in H. discriminate H.
Defined.

Lemma main_daily_table_witness :
  exists out,
    main (U := ascii_db) (host := sample_host) sample_urlencode sample_network sample_args = Ok out /\
    exists sorted days,
      csv_rows (injury_file out) =
        List.map injury_values
          (List.filter (fun r => is_injury_related (flags r) =? 1) sorted) /\
      StronglySorted date_lt days /\
      (forall d, In d days <-> in_span (first_day sample_args) (last_day sample_args) d) /\
      csv_rows (daily_file out) =
        List.map
          (fun d =>
             daily_values
               (day_stats (List.filter (fun r => is_injury_related (flags r) =? 1) sorted) d))
          days /\
      (forall o, daily_values o =
                 [ PStr (Daily.date o); PInt (Daily.year o);
                   PInt (Daily.injury_registrations o);
                   PInt (Daily.injury_related_transactions o);
                   PInt (Daily.il_activations o); PInt (Daily.il_transfers o);
                   PInt (Daily.rehab_assignments o) ]).
Proof.
  destruct (main (U := ascii_db) (host := sample_host) sample_urlencode sample_network sample_args)
    as [out|e] eqn:H.
  - exists out. split; [reflexivity|].
    exact (main_daily_table (U := ascii_db) (host := sample_host) sample_urlencode sample_network sample_args
             out H).
  - exfalso. vm_compute in H. discriminate H.
Defined.

Lemma main_registrations_total_witness :
  sort_rearranges sample_host /\
  exists out,
    main (U := ascii_db) (host := sample_host) sample_urlencode sample_network sample_args
      = Ok out /\
    exists injury days,
      csv_rows (injury_file out) = List.map injury_values injury /\
      (forall d, In d days <-> in_span (first_day sample_args) (last_day sample_args) d) /\
      csv_rows (daily_file out) =
        List.map (fun d => daily_values (day_stats injury d)) days /\
      sum_Z (List.map (fun d => Daily.injury_registrations (day_stats injury d)) days) =
        Z.of_nat (length (List.filter (fun r => is_registration r && on_days days r) injury)) /\
      Forall (fun r => is_registration r = true <->
                       injury_event_type (flags r) = str "il_placement") injury.
Proof.
  split; [exact sample_host_rearranges|].
  destruct (main (U := ascii_db) (host := sample_host) sample_urlencode sample_network
              sample_args) as [out|e] eqn:H.
  - exists out. split; [reflexivity|].
    exact (main_registrations_total (U := ascii_db) (host := sample_host) sample_urlencode
             sample_network sample_args out sample_host_rearranges H).
  - exfalso. vm_compute in H. discriminate H.
Defined.

Lemma main_daily_length_witness :
  exists out,
    main (U := ascii_db) (host := sample_host) sample_urlencode sample_network sample_args = Ok out /\
    length (csv_rows (daily_file out)) =
      Z.to_nat (days_before_year (end_year sample_args + 1)
                - days_before_year (start_year sample_args)) /\
    (start_year sample_args = end_year sample_args ->
     length (csv_rows (daily_file out)) = Z.to_nat (days_in_year (start_year sample_args))).
Proof.
  destruct (main (U := ascii_db) (host := sample_host) sample_urlencode sample_network sample_args)
    as [out|e] eqn:H.
  - exists out. split; [reflexivity|].
    exact (main_daily_length (U := ascii_db) (host := sample_host) sample_urlencode sample_network sample_args
             out H).
  - exfalso. vm_compute in H. discriminate H.
Defined.

Lemma main_rows_by_year_witness :
  exists out,
    main (U := ascii_db) (host := sample_host) sample_urlencode sample_network sample_args = Ok out /\
    exists payloads rowss sorted,
      Forall2 (fun y p => exists m, sample_network m (year_url sample_urlencode y) = Ok p)
        (years_from (start_year sample_args)
           (Z.to_nat (end_year sample_args + 1 - start_year sample_args)))
        payloads /\
      Forall2 (fun p rs => @flatten_payload ascii_db p = Ok rs) payloads rowss /\
      sort_rows (host := sample_host) (concat rowss) = Ok sorted /\
      csv_rows (raw_file out) = List.map raw_values sorted.
Proof.
  destruct (main (U := ascii_db) (host := sample_host) sample_urlencode sample_network sample_args)
    as [out|e] eqn:H.
  - exists out. split; [reflexivity|].
    exact (main_rows_by_year (U := ascii_db) (host := sample_host) sample_urlencode sample_network sample_args
             out H).
  - exfalso. vm_compute in H. discriminate H.
Defined.
